(** * Binding generator orchestration (bind/gen.go)

    A shallow embedding of the pybindgen variant of the gopy generator:
    the preamble templates, [StripOutputFromCmd], the boolean codec that
    the glue preamble carries, and the orchestration in [pyGen.gen] with
    its buffers, error list and output files. *)

From stdpp Require Import base strings list gmap sets sorting.
From Stdlib Require Import ZArith Lia Ascii.
From Stdlib Require Finite.

(** ** Strings as Go has them

    A Go string is a byte sequence; [string] (a list of [ascii]) is used
    for it, with [+:+] for concatenation. *)

Definition dq : string := String (Ascii.ascii_of_nat 34) EmptyString.
Definition tab : string := String (Ascii.ascii_of_nat 9) EmptyString.
Definition nl : string := String (Ascii.ascii_of_nat 10) EmptyString.

(** Every line of a raw template literal is followed by a newline. *)
Definition unlines (ls : list string) : string :=
  foldr (fun l acc => l +:+ nl +:+ acc) EmptyString ls.

Definition concat_strings (ls : list string) : string :=
  foldr String.append EmptyString ls.

(** [strings.Index]: byte index of the first occurrence, -1 when absent. *)
Definition strings_Index (s substr : string) : Z :=
  match String.index 0 substr s with
  | Some n => Z.of_nat n
  | None => (-1)%Z
  end.

(** [strings.Contains]. *)
Definition strings_Contains (s substr : string) : bool :=
  bool_decide (0 <= strings_Index s substr)%Z.

(** [s[:i]] and [s[i:]] for an index within the string. *)
Definition slice_to (s : string) (i : Z) : string :=
  String.substring 0 (Z.to_nat i) s.

Definition slice_from (s : string) (i : Z) : string :=
  String.substring (Z.to_nat i) (String.length s - Z.to_nat i) s.

(** [strings.Replace(s, old, new, 1)] for a non-empty [old]: the first
    occurrence is replaced, a string without one is returned as it is. *)
Definition strings_Replace1 (s old new : string) : string :=
  let i := strings_Index s old in
  if bool_decide (0 <= i)%Z
  then slice_to s i +:+ new +:+ slice_from s (i + Z.of_nat (String.length old))%Z
  else s.

(** ** Handle configuration (package-level variables) *)

Definition GoHandle : string := "int64".
Definition CGoHandle : string := "C.longlong".
Definition PyHandle : string := "int64_t".

(** ** Templates

    [fmt.Sprintf] with the explicit argument indexes [%[n]s] of a template
    is the function of its arguments [a1 .. an]. *)

Definition boolCodecSource : string :=
  unlines [
    "// boolGoToPy converts a Go bool to python-compatible C.char";
    "func boolGoToPy(b bool) C.char {";
    tab +:+ "if b {";
    tab +:+ tab +:+ "return 1";
    tab +:+ "}";
    tab +:+ "return 0";
    "}";
    "";
    "// boolPyToGo converts a python-compatible C.Char to Go bool";
    "func boolPyToGo(b C.char) bool {";
    tab +:+ "if b != 0 {";
    tab +:+ tab +:+ "return true";
    tab +:+ "}";
    tab +:+ "return false";
    "}";
    ""
  ].

Definition goPreamble (a1 a2 a3 a4 a5 a6 : string) : string :=
  unlines [
    "/*";
    "cgo stubs for package " +:+ a1 +:+ ".";
    "File is generated by gopy. Do not edit.";
    a2;
    "*/";
    "";
    "package main";
    "";
    "/*";
    "#cgo pkg-config: " +:+ a3;
    "#define Py_LIMITED_API";
    "#include <Python.h>";
    "*/";
    "import " +:+ dq +:+ "C" +:+ dq;
    "import (";
    tab +:+ dq +:+ "github.com/goki/gopy/gopyh" +:+ dq +:+ " // handler";
    tab +:+ a6;
    ")";
    "";
    "func main() {}";
    "";
    "// type for the handle -- int64 for speed (can switch to string)";
    "type GoHandle " +:+ a4;
    "type CGoHandle " +:+ a5;
    ""
  ] +:+ boolCodecSource.


Definition PyBuildPreamble (a1 a2 : string) : string :=
  unlines [
    "# python build stubs for package " +:+ a1;
    "# File is generated by gopy. Do not edit.";
    "# " +:+ a2;
    "";
    "from pybindgen import retval, param, Module";
    "import sys";
    "";
    "mod = Module('_" +:+ a1 +:+ "')";
    "mod.add_include('" +:+ dq +:+ a1 +:+ "_go.h" +:+ dq +:+ "')"
  ].

Definition PyWrapPreamble (a1 a2 a3 a4 a5 a6 : string) : string :=
  unlines [
    a5;
    "# python wrapper for package " +:+ a4 +:+ " within overall package " +:+ a1;
    "# This is what you import to use the package.";
    "# File is generated by gopy. Do not edit.";
    "# " +:+ a2;
    "";
    "# the following is required to enable dlopen to open the _go.so file";
    "import os,sys,inspect,collections";
    "cwd = os.getcwd()";
    "currentdir = os.path.dirname(os.path.abspath(inspect.getfile(inspect.currentframe())))";
    "os.chdir(currentdir)";
    "import _" +:+ a1;
    "os.chdir(cwd)";
    "";
    "# to use this code in your end-user python file, import it as follows:";
    "# from " +:+ a1 +:+ " import " +:+ a3;
    "# and then refer to everything using " +:+ a3 +:+ ". prefix";
    "# packages imported by this package listed below:";
    "";
    a6;
    "";
    "class GoClass(object):";
    tab +:+ dq +:+ dq +:+ dq +:+ "GoClass is the base class for all GoPy wrapper classes" +:+ dq +:+ dq +:+ dq;
    tab +:+ "pass";
    tab
  ].

Definition MakefileTemplate (a1 a2 a3 a4 a5 : string) : string :=
  unlines [
    "# Makefile for python interface for package " +:+ a1 +:+ ".";
    "# File is generated by gopy. Do not edit.";
    "# " +:+ a2;
    "";
    "GOCMD=go";
    "GOBUILD=$(GOCMD) build";
    "PYTHON=" +:+ a4;
    "PYTHON_CFG=$(PYTHON)-config";
    "GCC=gcc";
    "LIBEXT=" +:+ a5;
    "";
    "# get the flags used to build python:";
    "CFLAGS = $(shell $(PYTHON_CFG) --cflags)";
    "LDFLAGS = $(shell $(PYTHON_CFG) --ldflags)";
    "";
    "all: gen build";
    "";
    "gen:";
    tab +:+ a3;
    "";
    "build:";
    tab +:+ "# build target builds the generated files -- this is what gopy build does..";
    tab +:+ "# this will otherwise be built during go build and may be out of date";
    tab +:+ "- rm " +:+ a1 +:+ ".c";
    tab +:+ "# generate " +:+ a1 +:+ "_go$(LIBEXT) from " +:+ a1 +:+ ".go -- the cgo wrappers to go functions";
    tab +:+ "$(GOBUILD) -buildmode=c-shared -ldflags=" +:+ dq +:+ "-s -w" +:+ dq +:+ " -o " +:+ a1 +:+ "_go$(LIBEXT) " +:+ a1 +:+ ".go";
    tab +:+ "# use pybindgen to build the " +:+ a1 +:+ ".c file which are the CPython wrappers to cgo wrappers..";
    tab +:+ "# note: pip install pybindgen to get pybindgen if this fails";
    tab +:+ "$(PYTHON) build.py";
    tab +:+ "# build the _" +:+ a1 +:+ "$(LIBEXT) library that contains the cgo and CPython wrappers";
    tab +:+ "# generated " +:+ a1 +:+ ".py python wrapper imports this c-code package";
    tab +:+ "$(GCC) " +:+ a1 +:+ ".c -dynamiclib " +:+ a1 +:+ "_go$(LIBEXT) -o _" +:+ a1 +:+ "$(LIBEXT) $(CFLAGS) $(LDFLAGS)";
    tab
  ].

(** ** The boolean codec of the glue preamble

    [boolCodecSource] is Go code that the generator emits verbatim; the two
    functions below are that code. [C.char] is a one-byte integer, kept as
    a [Z]; the test [b != 0] does not depend on its signedness. *)

Definition boolGoToPy (b : bool) : Z :=
  if b then 1%Z else 0%Z.

Definition boolPyToGo (b : Z) : bool :=
  if negb (b =? 0)%Z then true else false.

(** ** StripOutputFromCmd *)

Definition StripOutputFromCmd (cmdstr : string) : string :=
  let oidx := strings_Index cmdstr "-output=" in
  if bool_decide (0 < oidx)%Z then
    let spidx := strings_Index (slice_from cmdstr oidx) " " in
    slice_to cmdstr oidx +:+ slice_from cmdstr (oidx + spidx + 1)%Z
  else cmdstr.

(** The generate-only command line that [genMakefile] puts in the recipe. *)
Definition gencmd_of (cmdstr : string) : string :=
  StripOutputFromCmd (strings_Replace1 cmdstr "gopy build" "gopy gen").

(** ** Data model

    The symbol table, the packages and their declarations are built by
    other files of the package; this file reads the fields and methods
    below and nothing else of them. *)

(** An imported package, of which [Path()] and [Name()] are read. *)
Record ImportRef := { im_Path : string; im_Name : string }.

(** [*types.Package]. [tp_addr] is the pointer, which [==] compares. *)
Record types_Package := {
  tp_addr : nat;
  tp_Path : string;
  tp_Name : string;
  tp_Imports : list ImportRef
}.

Definition same_pointer (a b : types_Package) : bool :=
  Nat.eqb (tp_addr a) (tp_addr b).

(** Modelled from the spec: the declarations of a package ([Const],
    [Var], [Interface], [Func], [Struct]) are declared outside this file.
    This file hands them to the emitters and reads one field of them,
    the constructors of a struct; each is a named declaration. *)
Record Const := { const_id : string }.
Record Var := { var_id : string }.
Record Interface := { iface_id : string }.
Record Func := { func_id : string }.
Record Struct := { struct_id : string; ctors : list Func }.

(** Modelled from the spec: [Package] is declared outside this file. It
    has the underlying package (import path and name), a documentation
    string ([doc.Doc]) and the ordered lists of its constants, variables,
    interfaces, structs and functions. *)
Record Package := {
  p_pkg : types_Package;
  p_doc : string;
  consts : list Const;
  vars : list Var;
  ifaces : list Interface;
  structs : list Struct;
  funcs : list Func
}.

(** Modelled from the spec: [Package.Name()] is declared outside this
    file; it is the name of the package. *)
Definition Package_Name (p : Package) : string := tp_Name (p_pkg p).

(** Modelled from the spec: [symbol] is declared outside this file. A
    symbol has a name, the flag [isType()] and its owning package. *)
Record symbol := {
  sym_id : string;
  isType : bool;
  gopkg : types_Package
}.

(** Modelled from the spec: the symbol table [current] is declared
    outside this file. Its symbols can be enumerated in a stable order
    ([names()], then [sym(n)] for each name). [imports] is a Go map: the
    loop in [genGoPreamble] ranges over it with two variables and formats
    the key with [%q]; it reads the keys and drops the values. *)
Record symtab := {
  names : list string;
  sym : string -> symbol;
  imports : gset string
}.

(** ** Errors *)

Definition error := string.

(** Modelled from the spec: [ErrorList] with its methods [Add] and [Error]
    is declared outside this file. Every error met is appended to one
    list ([Add] of a nil error appends nothing), and the text of the
    aggregate is the concatenation of the messages in that order. *)
Definition ErrorList := list error.

Definition ErrorList_Add (l : ErrorList) (e : option error) : ErrorList :=
  match e with
  | Some m => l ++ [m]
  | None => l
  end.

Definition ErrorList_Error (l : ErrorList) : error := concat_strings l.

(** ** Output buffers *)

(** Modelled from the spec: [printer] is declared outside this file; it
    buffers the text of one artifact, and [Printf] appends the formatted
    text to the buffer. *)
Record printer := { buf : string; indentEach : string }.

Definition new_printer : printer := {| buf := ""; indentEach := tab |}.
Definition nil_printer : printer := {| buf := ""; indentEach := "" |}.

Definition Printf (p : printer) (text : string) : printer :=
  {| buf := buf p +:+ text; indentEach := indentEach p |}.

(** ** The Go runtime and the operating system

    What the run gets from outside the package: the results of the file
    system calls (an error message, or [None] for a nil error), the order
    in which a [range] statement visits the keys of a map, and the
    library functions on paths and the [%q] verb.

    [io.Copy] reads its source: a copy that returns nil has read the
    source to its end, a copy that fails has read some of it, and
    [io_Copy_unread] is what the source still holds then. *)
Record GoRuntime := {
  os_MkdirAll : string -> option error;
  os_Create : string -> option error;
  io_Copy : string -> string -> option error;
  io_Copy_unread : string -> string -> string;
  map_range : gset string -> list string;
  filepath_Join : string -> string -> string;
  filepath_Split : string -> string * string;
  filepath_Clean : string -> string;
  fmt_q : string -> string
}.

(** The language fixes what a [range] over a map visits, every key once,
    and leaves the order open. *)
Definition range_admissible (rt : GoRuntime) : Prop :=
  forall m : gset string, map_range rt m ≡ₚ elements m.

(** The calls made to the file system, with their results. *)
Inductive OsEvent :=
| EvMkdirAll (path : string) (res : option error)
| EvCreate (path : string) (res : option error)
| EvCopy (path : string) (data : string) (res : option error).

(** What a buffer holds after [io.Copy] has copied it to [path]: nothing
    when the copy returned nil. *)
Definition unread (rt : GoRuntime) (path data : string) : string :=
  match io_Copy rt path data with
  | None => ""
  | Some _ => io_Copy_unread rt path data
  end.

(** ** Per-declaration emitters

    [genType], [genConstValue], [genVarGetter], [genVarSetter],
    [genInterface], [genStruct] and [genFunc] are defined in other files.
    A call of one of them is a [Call]; what it appends to the three
    buffers it can write and to the error list is an [Emitted]. *)
Inductive Call :=
| genType_call (s : symbol) (extTypes pyWrapOnly : bool)
| genConstValue_call (c : Const)
| genVarGetter_call (v : Var)
| genVarSetter_call (v : Var)
| genInterface_call (ifc : Interface)
| genStruct_call (s : Struct)
| genFunc_call (f : Func).

Record Emitted := {
  to_gofile : string;
  to_pybuild : string;
  to_pywrap : string;
  to_err : list error
}.

(** ** The generator state *)

Record pyGen := {
  gofile : printer;
  pybuild : printer;
  pywrap : printer;
  makefile : printer;
  pkg : option Package;
  err : ErrorList;
  pkgmap : gset string;
  odir : string;
  outname : string;
  cmdstr : string;
  vm : string;
  libext : string;
  lang : Z
}.

(** A run: the generator, the file system calls made so far and the
    emitter calls made so far. *)
Record St := {
  g : pyGen;
  os_trace : list OsEvent;
  calls : list Call
}.

Definition upd_g (f : pyGen -> pyGen) (s : St) : St :=
  {| g := f (g s); os_trace := os_trace s; calls := calls s |}.

Definition set_gofile (p : printer) (x : pyGen) : pyGen :=
  {| gofile := p; pybuild := pybuild x; pywrap := pywrap x; makefile := makefile x;
     pkg := pkg x; err := err x; pkgmap := pkgmap x; odir := odir x;
     outname := outname x; cmdstr := cmdstr x; vm := vm x; libext := libext x;
     lang := lang x |}.

Definition set_pybuild (p : printer) (x : pyGen) : pyGen :=
  {| gofile := gofile x; pybuild := p; pywrap := pywrap x; makefile := makefile x;
     pkg := pkg x; err := err x; pkgmap := pkgmap x; odir := odir x;
     outname := outname x; cmdstr := cmdstr x; vm := vm x; libext := libext x;
     lang := lang x |}.

Definition set_pywrap (p : printer) (x : pyGen) : pyGen :=
  {| gofile := gofile x; pybuild := pybuild x; pywrap := p; makefile := makefile x;
     pkg := pkg x; err := err x; pkgmap := pkgmap x; odir := odir x;
     outname := outname x; cmdstr := cmdstr x; vm := vm x; libext := libext x;
     lang := lang x |}.

Definition set_makefile (p : printer) (x : pyGen) : pyGen :=
  {| gofile := gofile x; pybuild := pybuild x; pywrap := pywrap x; makefile := p;
     pkg := pkg x; err := err x; pkgmap := pkgmap x; odir := odir x;
     outname := outname x; cmdstr := cmdstr x; vm := vm x; libext := libext x;
     lang := lang x |}.

Definition set_pkg (p : option Package) (x : pyGen) : pyGen :=
  {| gofile := gofile x; pybuild := pybuild x; pywrap := pywrap x; makefile := makefile x;
     pkg := p; err := err x; pkgmap := pkgmap x; odir := odir x;
     outname := outname x; cmdstr := cmdstr x; vm := vm x; libext := libext x;
     lang := lang x |}.

Definition set_err (l : ErrorList) (x : pyGen) : pyGen :=
  {| gofile := gofile x; pybuild := pybuild x; pywrap := pywrap x; makefile := makefile x;
     pkg := pkg x; err := l; pkgmap := pkgmap x; odir := odir x;
     outname := outname x; cmdstr := cmdstr x; vm := vm x; libext := libext x;
     lang := lang x |}.

Definition set_pkgmap (m : gset string) (x : pyGen) : pyGen :=
  {| gofile := gofile x; pybuild := pybuild x; pywrap := pywrap x; makefile := makefile x;
     pkg := pkg x; err := err x; pkgmap := m; odir := odir x;
     outname := outname x; cmdstr := cmdstr x; vm := vm x; libext := libext x;
     lang := lang x |}.

(** A [*printer] argument points to one of the four printers of the
    generator: what is read through it is gone from that printer. *)
Inductive PrinterRef := ref_gofile | ref_pybuild | ref_pywrap | ref_makefile.

Definition deref (r : PrinterRef) (x : pyGen) : printer :=
  match r with
  | ref_gofile => gofile x
  | ref_pybuild => pybuild x
  | ref_pywrap => pywrap x
  | ref_makefile => makefile x
  end.

Definition assign (r : PrinterRef) (p : printer) (x : pyGen) : pyGen :=
  match r with
  | ref_gofile => set_gofile p x
  | ref_pybuild => set_pybuild p x
  | ref_pywrap => set_pywrap p x
  | ref_makefile => set_makefile p x
  end.

(** The printer [p] with [rest] left in its buffer. *)
Definition drained (p : printer) (rest : string) : printer :=
  {| buf := rest; indentEach := indentEach p |}.

(** Statements in sequence, and a [for ... range] loop over a slice. *)
Definition seq (f k : St -> St) : St -> St := fun s => k (f s).

Notation "f >>> k" := (seq f k) (at level 62, left associativity).

Definition for_each {A : Type} (l : list A) (body : A -> St -> St) : St -> St :=
  fun s => foldl (fun acc x => body x acc) s l.

Definition gofile_Printf (text : string) : St -> St :=
  upd_g (fun x => set_gofile (Printf (gofile x) text) x).

Definition pybuild_Printf (text : string) : St -> St :=
  upd_g (fun x => set_pybuild (Printf (pybuild x) text) x).

Definition pywrap_Printf (text : string) : St -> St :=
  upd_g (fun x => set_pywrap (Printf (pywrap x) text) x).

Definition makefile_Printf (text : string) : St -> St :=
  upd_g (fun x => set_makefile (Printf (makefile x) text) x).

Definition err_Add (e : option error) : St -> St :=
  upd_g (fun x => set_err (ErrorList_Add (err x) e) x).

Definition os_log (ev : OsEvent) (s : St) : St :=
  {| g := g s; os_trace := os_trace s ++ [ev]; calls := calls s |}.

(** ** What a sequence of steps appends

    Between the allocation of a buffer and its copy to a file every
    step of the generator only appends: text to the buffers, errors to
    the error list, calls to the two traces. A [Delta] is what was
    appended. The copy itself appends two file system calls and their
    errors, and takes out of the buffer what it read. *)
Record Delta := {
  d_go : string;
  d_build : string;
  d_wrap : string;
  d_make : string;
  d_err : list error;
  d_os : list OsEvent;
  d_calls : list Call
}.

Definition dempty : Delta :=
  {| d_go := ""; d_build := ""; d_wrap := ""; d_make := "";
     d_err := []; d_os := []; d_calls := [] |}.

Definition dapp (a b : Delta) : Delta :=
  {| d_go := d_go a +:+ d_go b;
     d_build := d_build a +:+ d_build b;
     d_wrap := d_wrap a +:+ d_wrap b;
     d_make := d_make a +:+ d_make b;
     d_err := d_err a ++ d_err b;
     d_os := d_os a ++ d_os b;
     d_calls := d_calls a ++ d_calls b |}.

Definition dconcat (l : list Delta) : Delta := foldr dapp dempty l.

Definition extend (d : Delta) (s : St) : St :=
  {| g := {| gofile := Printf (gofile (g s)) (d_go d);
             pybuild := Printf (pybuild (g s)) (d_build d);
             pywrap := Printf (pywrap (g s)) (d_wrap d);
             makefile := Printf (makefile (g s)) (d_make d);
             pkg := pkg (g s);
             err := err (g s) ++ d_err d;
             pkgmap := pkgmap (g s);
             odir := odir (g s);
             outname := outname (g s);
             cmdstr := cmdstr (g s);
             vm := vm (g s);
             libext := libext (g s);
             lang := lang (g s) |};
     os_trace := os_trace s ++ d_os d;
     calls := calls s ++ d_calls d |}.

Definition d_gofile (t : string) : Delta :=
  {| d_go := t; d_build := ""; d_wrap := ""; d_make := "";
     d_err := []; d_os := []; d_calls := [] |}.

Definition d_pybuild (t : string) : Delta :=
  {| d_go := ""; d_build := t; d_wrap := ""; d_make := "";
     d_err := []; d_os := []; d_calls := [] |}.

Definition d_pywrap (t : string) : Delta :=
  {| d_go := ""; d_build := ""; d_wrap := t; d_make := "";
     d_err := []; d_os := []; d_calls := [] |}.

Definition d_makefile (t : string) : Delta :=
  {| d_go := ""; d_build := ""; d_wrap := ""; d_make := t;
     d_err := []; d_os := []; d_calls := [] |}.

Definition d_errors (l : list error) : Delta :=
  {| d_go := ""; d_build := ""; d_wrap := ""; d_make := "";
     d_err := l; d_os := []; d_calls := [] |}.

Definition d_event (ev : OsEvent) : Delta :=
  {| d_go := ""; d_build := ""; d_wrap := ""; d_make := "";
     d_err := []; d_os := [ev]; d_calls := [] |}.

(** ** The sections of a package, as the specification lists them *)

Inductive DeclKind :=
| KTypes | KConstants | KVariables | KInterfaces | KStructs | KConstructors | KFunctions.

Definition section_order : list DeclKind :=
  [KTypes; KConstants; KVariables; KInterfaces; KStructs; KConstructors; KFunctions].

(** The header lines that [genAll] prints before each section, in the
    glue file and in the wrapper file. The constants have no header in
    the glue file. *)
Definition go_header (k : DeclKind) : string :=
  match k with
  | KTypes => nl +:+ "// ---- Types ---" +:+ nl
  | KConstants => ""
  | KVariables => nl +:+ nl +:+ "// ---- Global Variables: can only use functions to access ---" +:+ nl
  | KInterfaces => nl +:+ nl +:+ "// ---- Interfaces ---" +:+ nl
  | KStructs => nl +:+ nl +:+ "// ---- Structs ---" +:+ nl
  | KConstructors => nl +:+ nl +:+ "// ---- Constructors ---" +:+ nl
  | KFunctions => nl +:+ nl +:+ "// ---- Functions ---" +:+ nl
  end.

Definition wrap_header (k : DeclKind) : string :=
  match k with
  | KTypes => nl +:+ "# ---- Types ---" +:+ nl
  | KConstants => nl +:+ nl +:+ "#---- Constants from Go: Python can only ask that you please don't change these! ---" +:+ nl
  | KVariables => nl +:+ nl +:+ "# ---- Global Variables: can only use functions to access ---" +:+ nl
  | KInterfaces => nl +:+ nl +:+ "# ---- Interfaces ---" +:+ nl
  | KStructs => nl +:+ nl +:+ "# ---- Structs ---" +:+ nl
  | KConstructors => nl +:+ nl +:+ "# ---- Constructors ---" +:+ nl
  | KFunctions => nl +:+ nl +:+ "# ---- Functions ---" +:+ nl
  end.

Definition ext_go_header : string :=
  nl +:+ "// ---- External Types Outside of Targeted Packages ---" +:+ nl.

Definition ext_wrap_header : string :=
  nl +:+ "# ---- External Types Outside of Targeted Packages ---" +:+ nl.

(** The kind of declaration an emitter call belongs to; [genFunc] serves
    the constructors and the functions. *)
Definition call_rank (c : Call) : nat :=
  match c with
  | genType_call _ _ _ => 0
  | genConstValue_call _ => 1
  | genVarGetter_call _ | genVarSetter_call _ => 2
  | genInterface_call _ => 3
  | genStruct_call _ => 4
  | genFunc_call _ => 5
  end.

Definition is_var_call (c : Call) : bool :=
  match c with
  | genVarGetter_call _ | genVarSetter_call _ => true
  | _ => false
  end.

Definition is_const_call (c : Call) : bool :=
  match c with
  | genConstValue_call _ => true
  | _ => false
  end.

(** Whether the text of a returned error has [sub] in it. *)
Definition text_contains (r : option error) (sub : string) : bool :=
  match r with
  | Some t => strings_Contains t sub
  | None => false
  end.

(** The data of the last copy into [path] that a trace records. *)
Definition written (path : string) (tr : list OsEvent) : option string :=
  foldl (fun acc ev =>
           match ev with
           | EvCopy q data _ => if bool_decide (q = path) then Some data else acc
           | _ => acc
           end) None tr.

(** The path that a file system call is made on. *)
Definition event_path (ev : OsEvent) : string :=
  match ev with
  | EvMkdirAll path _ => path
  | EvCreate path _ => path
  | EvCopy path _ _ => path
  end.

(** The result of a file system call. *)
Definition event_result (ev : OsEvent) : option error :=
  match ev with
  | EvMkdirAll _ res => res
  | EvCreate _ res => res
  | EvCopy _ _ res => res
  end.

(** The line that [genPyWrapPreamble] formats for one import,
    [Sprintf("from %s import %s\n", g.outname, im.Name())]. *)
Definition import_line (outname : string) (im : ImportRef) : string :=
  "from " +:+ outname +:+ " import " +:+ im_Name im +:+ nl.

(** A string without its first [n] bytes. *)
Fixpoint string_drop (n : nat) (s : string) : string :=
  match n, s with
  | O, _ => s
  | S n', EmptyString => EmptyString
  | S n', String _ s' => string_drop n' s'
  end.

(** The names of the files of a run, in the order in which [gen] creates
    them: the package marker of [genPre], one wrapper for each package
    in [genPkgWrapOut], and the three shared files of [genOut]. *)
Definition output_files (outname : string) (ps : list Package) : list string :=
  "__init__.py"
  :: map (fun p => tp_Name (p_pkg p) +:+ ".py") ps
  ++ [outname +:+ ".go"; "build.py"; "Makefile"].

Definition is_create (ev : OsEvent) : bool :=
  match ev with EvCreate _ _ => true | _ => false end.

Definition is_copy (ev : OsEvent) : bool :=
  match ev with EvCopy _ _ _ => true | _ => false end.

(** ** A concrete runtime and symbol table

    Used to run the model. The path functions below agree with
    [path/filepath] on slash-separated paths without [.] or [..] elements
    and without doubled separators; [quote_plain] agrees with [%q] on
    printable ASCII without quotes and backslashes. *)

Definition slash : Ascii.ascii := Ascii.ascii_of_nat 47.

Fixpoint has_sep (s : string) : bool :=
  match s with
  | EmptyString => false
  | String c r => Ascii.eqb c slash || has_sep r
  end.

Fixpoint unix_Split (s : string) : string * string :=
  match s with
  | EmptyString => (EmptyString, EmptyString)
  | String c r =>
      if has_sep (String c r)
      then (String c (fst (unix_Split r)), snd (unix_Split r))
      else (EmptyString, String c r)
  end.

Fixpoint unix_Clean (s : string) : string :=
  match s with
  | EmptyString => EmptyString
  | String c r => if String.eqb r "/" then String c EmptyString else String c (unix_Clean r)
  end.

Definition unix_Join (a b : string) : string :=
  if String.eqb a "" then b
  else if String.eqb b "" then unix_Clean a
  else if String.eqb (unix_Clean a) "/" then "/" +:+ b
  else unix_Clean a +:+ "/" +:+ b.

Definition quote_plain (s : string) : string := dq +:+ s +:+ dq.

(** A runtime in which a copy that fails reads nothing of its source,
    as a copy to a file that could not be created does. *)
Definition unix_rt (order : gset string -> list string)
    (mkdir create : string -> option error) (copy : string -> string -> option error)
  : GoRuntime :=
  {| os_MkdirAll := mkdir; os_Create := create; io_Copy := copy;
     io_Copy_unread := fun _ data => data; map_range := order;
     filepath_Join := unix_Join; filepath_Split := unix_Split;
     filepath_Clean := unix_Clean; fmt_q := quote_plain |}.

(** Every call succeeds; a [range] visits the keys in the order of [elements]. *)
Definition rt_ok : GoRuntime :=
  unix_rt elements (fun _ => None) (fun _ => None) (fun _ _ => None).

(** The same, with the keys visited in the opposite order. *)
Definition rt_rev : GoRuntime :=
  unix_rt (fun m => reverse (elements m)) (fun _ => None) (fun _ => None) (fun _ _ => None).

(** The output directory cannot be created, and no file in it either. *)
Definition rt_denied : GoRuntime :=
  unix_rt elements
    (fun d => Some ("mkdir " +:+ d +:+ ": permission denied"))
    (fun f => Some ("open " +:+ f +:+ ": no such file or directory"))
    (fun _ _ => Some "invalid argument").

(** The directory exists, but no file can be created in it. *)
Definition rt_readonly : GoRuntime :=
  unix_rt elements
    (fun _ => None)
    (fun f => Some ("open " +:+ f +:+ ": read-only file system;"))
    (fun _ _ => Some "invalid argument;").

Definition geom_types : types_Package :=
  {| tp_addr := 1; tp_Path := "github.com/x/geom"; tp_Name := "geom";
     tp_Imports := [ {| im_Path := "time"; im_Name := "time" |};
                     {| im_Path := "github.com/x/units"; im_Name := "units" |} ] |}.

Definition units_types : types_Package :=
  {| tp_addr := 2; tp_Path := "github.com/x/units"; tp_Name := "units"; tp_Imports := [] |}.

Definition time_types : types_Package :=
  {| tp_addr := 3; tp_Path := "time"; tp_Name := "time"; tp_Imports := [] |}.

Definition geom_pkg : Package :=
  {| p_pkg := geom_types; p_doc := "Package geom has points.";
     consts := [ {| const_id := "Pi" |} ];
     vars := [ {| var_id := "Origin" |} ];
     ifaces := [ {| iface_id := "Shape" |} ];
     structs := [ {| struct_id := "Point"; ctors := [ {| func_id := "NewPoint" |} ] |} ];
     funcs := [ {| func_id := "Area" |} ] |}.

Definition units_pkg : Package :=
  {| p_pkg := units_types; p_doc := "";
     consts := []; vars := [ {| var_id := "Scale" |} ]; ifaces := []; structs := [];
     funcs := [] |}.

(** A package named [build], and a second package named [geom]. *)
Definition build_types : types_Package :=
  {| tp_addr := 4; tp_Path := "github.com/x/build"; tp_Name := "build"; tp_Imports := [] |}.

Definition build_pkg : Package :=
  {| p_pkg := build_types; p_doc := "";
     consts := [ {| const_id := "Jobs" |} ]; vars := []; ifaces := []; structs := [];
     funcs := [] |}.

Definition geom_fork_types : types_Package :=
  {| tp_addr := 5; tp_Path := "github.com/y/geom"; tp_Name := "geom"; tp_Imports := [] |}.

Definition geom_fork_pkg : Package :=
  {| p_pkg := geom_fork_types; p_doc := "";
     consts := []; vars := []; ifaces := []; structs := [];
     funcs := [ {| func_id := "Perimeter" |} ] |}.

Definition sym_Point : symbol :=
  {| sym_id := "geom.Point"; isType := true; gopkg := geom_types |}.
Definition sym_Meter : symbol :=
  {| sym_id := "units.Meter"; isType := true; gopkg := units_types |}.
Definition sym_Duration : symbol :=
  {| sym_id := "time.Duration"; isType := true; gopkg := time_types |}.
Definition sym_Area : symbol :=
  {| sym_id := "geom.Area"; isType := false; gopkg := geom_types |}.

Definition demo_symtab : symtab :=
  {| names := ["geom.Area"; "geom.Point"; "time.Duration"; "units.Meter"];
     sym := fun n =>
       if String.eqb n "geom.Point" then sym_Point
       else if String.eqb n "units.Meter" then sym_Meter
       else if String.eqb n "time.Duration" then sym_Duration
       else sym_Area;
     imports := {[ "time"; "fmt" ]} |}.

(** A second package object for the path of [geom], as a second load of
    the package gives, and a table with a type of it. *)
Definition geom_reloaded : types_Package :=
  {| tp_addr := 6; tp_Path := "github.com/x/geom"; tp_Name := "geom"; tp_Imports := [] |}.

Definition sym_Vec : symbol :=
  {| sym_id := "geom.Vec"; isType := true; gopkg := geom_reloaded |}.

Definition reloaded_symtab : symtab :=
  {| names := ["geom.Point"; "geom.Vec"; "time.Duration"];
     sym := fun n =>
       if String.eqb n "geom.Point" then sym_Point
       else if String.eqb n "geom.Vec" then sym_Vec
       else sym_Duration;
     imports := {[ "time" ]} |}.

(** A table without symbols that imports two packages. *)
Definition imports_only : symtab :=
  {| names := []; sym := fun _ => sym_Area; imports := {[ "time"; "fmt" ]} |}.

Definition call_label (c : Call) : string :=
  match c with
  | genType_call y _ _ => "type " +:+ sym_id y
  | genConstValue_call k => "const " +:+ const_id k
  | genVarGetter_call v => "get " +:+ var_id v
  | genVarSetter_call v => "set " +:+ var_id v
  | genInterface_call i => "interface " +:+ iface_id i
  | genStruct_call x => "struct " +:+ struct_id x
  | genFunc_call f => "func " +:+ func_id f
  end.

(** An emitter that writes one line per call to the glue file and to the
    wrapper file, and reports an error for the function [Area]. *)
Definition demo_emit (p : option Package) (c : Call) : Emitted :=
  {| to_gofile := "// " +:+ call_label c +:+ nl;
     to_pybuild := "";
     to_pywrap := "# " +:+ call_label c +:+ nl;
     to_err := match c with
               | genFunc_call f => if String.eqb (func_id f) "Area" then ["Area: unsupported;"] else []
               | _ => []
               end |}.

(** An emitter that writes one line per call to every buffer. *)
Definition build_emit (p : option Package) (c : Call) : Emitted :=
  {| to_gofile := "// " +:+ call_label c +:+ nl;
     to_pybuild := "mod.add " +:+ call_label c +:+ nl;
     to_pywrap := "# " +:+ call_label c +:+ nl;
     to_err := [] |}.

(** An emitter that writes nothing. *)
Definition silent_emit (p : option Package) (c : Call) : Emitted :=
  {| to_gofile := ""; to_pybuild := ""; to_pywrap := ""; to_err := [] |}.

Definition demo_gen : pyGen :=
  {| gofile := nil_printer; pybuild := nil_printer; pywrap := nil_printer;
     makefile := nil_printer; pkg := None; err := []; pkgmap := ∅;
     odir := "out"; outname := "geom"; cmdstr := "gopy build -output=out github.com/x/geom";
     vm := "/usr/bin/python3"; libext := ".so"; lang := 3 |}.

Definition demo_state : St := {| g := demo_gen; os_trace := []; calls := [] |}.

(** The rank of a section's calls. *)
Definition kind_rank (k : DeclKind) : nat :=
  match k with
  | KTypes => 0
  | KConstants => 1
  | KVariables => 2
  | KInterfaces => 3
  | KStructs => 4
  | KConstructors | KFunctions => 5
  end.

Definition rank_le (a b : Call) : Prop := call_rank a <= call_rank b.

(** ** Orchestration *)

Section Generator.

Variable rt : GoRuntime.

(** What an emitter call appends, given the current package [g.pkg]. *)
Variable emit : option Package -> Call -> Emitted.

(** The package-level variables [Packages] and [current]. *)
Variable Packages : list Package.
Variable current : symtab.

(** One emitter call: its text goes to the buffers, its errors to the
    error list, and the call is recorded. *)
Definition run_emitter (c : Call) (s : St) : St :=
  let e := emit (pkg (g s)) c in
  {| g := set_err (err (g s) ++ to_err e)
            (set_pywrap (Printf (pywrap (g s)) (to_pywrap e))
               (set_pybuild (Printf (pybuild (g s)) (to_pybuild e))
                  (set_gofile (Printf (gofile (g s)) (to_gofile e)) (g s))));
     os_trace := os_trace s;
     calls := calls s ++ [c] |}.

Definition genType (y : symbol) (extTypes pyWrapOnly : bool) : St -> St :=
  run_emitter (genType_call y extTypes pyWrapOnly).
Definition genConstValue (c : Const) : St -> St := run_emitter (genConstValue_call c).
Definition genVarGetter (v : Var) : St -> St := run_emitter (genVarGetter_call v).
Definition genVarSetter (v : Var) : St -> St := run_emitter (genVarSetter_call v).
Definition genInterface (i : Interface) : St -> St := run_emitter (genInterface_call i).
Definition genStruct (x : Struct) : St -> St := run_emitter (genStruct_call x).
Definition genFunc (f : Func) : St -> St := run_emitter (genFunc_call f).

Definition genConst (c : Const) : St -> St := genConstValue c.

Definition genVar (v : Var) : St -> St :=
  genVarGetter v >>> genVarSetter v.

Definition genPackageMap : St -> St :=
  upd_g (set_pkgmap ∅) >>>
  for_each Packages (fun p =>
    upd_g (fun x => set_pkgmap ({[ tp_Path (p_pkg p) ]} ∪ pkgmap x) x)).

(** The import lines of the glue preamble: one [Sprintf] per key of
    [current.imports], in the order the [range] statement yields them. *)
Definition pkgimport_of (order : list string) : string :=
  foldl (fun acc pi => acc +:+ (nl +:+ tab +:+ fmt_q rt pi)) "" order.

Definition libcfg_of (vm : string) : string :=
  let '(pypath, pyonly) := filepath_Split rt vm in
  let '(pyroot, _) := filepath_Split rt (filepath_Clean rt pypath) in
  filepath_Join rt
    (filepath_Join rt (filepath_Join rt pyroot "lib") "pkgconfig")
    (pyonly +:+ ".pc").

Definition genGoPreamble : St -> St := fun s =>
  let pkgimport := pkgimport_of (map_range rt (imports current)) in
  let libcfg := libcfg_of (vm (g s)) in
  (gofile_Printf
     (goPreamble (outname (g s)) (cmdstr (g s)) libcfg GoHandle CGoHandle pkgimport) >>>
   gofile_Printf
     (nl +:+ "// --- generated code for package: " +:+ outname (g s)
         +:+ " below: ---" +:+ nl +:+ nl)) s.

Definition genPyBuildPreamble : St -> St := fun s =>
  pybuild_Printf (PyBuildPreamble (outname (g s)) (cmdstr (g s))) s.

Definition genMakefile : St -> St := fun s =>
  let gencmd := strings_Replace1 (cmdstr (g s)) "gopy build" "gopy gen" in
  let gencmd := StripOutputFromCmd gencmd in
  makefile_Printf
    (MakefileTemplate (outname (g s)) (cmdstr (g s)) gencmd (vm (g s)) (libext (g s))) s.

Definition genPre : St -> St :=
  upd_g (set_gofile new_printer) >>>
  upd_g (set_pybuild new_printer) >>>
  upd_g (set_makefile new_printer) >>>
  genGoPreamble >>>
  genPyBuildPreamble >>>
  genMakefile >>>
  (fun s =>
     let path := filepath_Join rt (odir (g s)) "__init__.py" in
     let r := os_Create rt path in
     (os_log (EvCreate path r) >>> err_Add r) s).

(** [io.Copy(of, pr)] reads the printer [pr] points to: the copy gets
    what the buffer holds when the call is made, and the buffer keeps
    what the copy left unread, nothing after a copy without error. The
    file is closed on both paths; closing is not recorded. *)
Definition genPrintOut (outfn : string) (pr : PrinterRef) : St -> St := fun s =>
  let path := filepath_Join rt (odir (g s)) outfn in
  let r := os_Create rt path in
  let data := buf (deref pr (g s)) in
  let w := io_Copy rt path data in
  (os_log (EvCreate path r) >>> err_Add r >>>
   os_log (EvCopy path data w) >>>
   upd_g (fun x => assign pr (drained (deref pr x) (unread rt path data)) x) >>>
   err_Add w) s.

Definition genOut : St -> St := fun s =>
  (pybuild_Printf (nl +:+ "mod.generate(open('" +:+ outname (g s) +:+ ".c', 'w'))" +:+ nl +:+ nl) >>>
   gofile_Printf (nl +:+ nl) >>>
   makefile_Printf (nl +:+ nl) >>>
   genPrintOut (outname (g s) +:+ ".go") ref_gofile >>>
   genPrintOut "build.py" ref_pybuild >>>
   genPrintOut "Makefile" ref_makefile) s.

(** The functions below dereference [g.pkg]; [genPkg] sets it before it
    calls them. With a nil [g.pkg] the Go code stops the program; the
    model leaves the state as it is. *)
Definition with_pkg (body : Package -> St -> St) : St -> St := fun s =>
  match pkg (g s) with
  | Some p => body p s
  | None => s
  end.

Definition genPkgWrapOut : St -> St :=
  pywrap_Printf (nl +:+ nl) >>>
  with_pkg (fun p => genPrintOut (tp_Name (p_pkg p) +:+ ".py") ref_pywrap).

Definition pkgDoc_of (p : Package) : string :=
  let pkgDoc := p_doc p in
  if bool_decide (pkgDoc ≠ "")
  then dq +:+ dq +:+ dq +:+ nl +:+ pkgDoc +:+ nl +:+ dq +:+ dq +:+ dq
  else pkgDoc.

(** One import line for every imported package that is a target. *)
Definition impstr_of (m : gset string) (outname : string) (p : Package) : string :=
  foldl (fun acc im =>
           if bool_decide (im_Path im ∈ m)
           then acc +:+ ("from " +:+ outname +:+ " import " +:+ im_Name im +:+ nl)
           else acc) "" (tp_Imports (p_pkg p)).

Definition genPyWrapPreamble : St -> St :=
  with_pkg (fun p s =>
    let n := tp_Name (p_pkg p) in
    let pkgimport := tp_Path (p_pkg p) in
    let pkgDoc := pkgDoc_of p in
    let impstr := impstr_of (pkgmap (g s)) (outname (g s)) p in
    pywrap_Printf
      (PyWrapPreamble (outname (g s)) (cmdstr (g s)) n pkgimport pkgDoc impstr) s).

Definition genExtTypesGo : St -> St :=
  gofile_Printf (nl +:+ "// ---- External Types Outside of Targeted Packages ---" +:+ nl) >>>
  for_each (names current) (fun n s =>
    let y := sym current n in
    if negb (isType y) then s
    else if bool_decide (tp_Path (gopkg y) ∈ pkgmap (g s)) then s
    else genType y true false s).

Definition genExtTypesPyWrap : St -> St :=
  pywrap_Printf (nl +:+ "# ---- External Types Outside of Targeted Packages ---" +:+ nl) >>>
  for_each (names current) (fun n s =>
    let y := sym current n in
    if negb (isType y) then s
    else if bool_decide (tp_Path (gopkg y) ∈ pkgmap (g s)) then s
    else genType y true true s).

Definition genAll : St -> St :=
  with_pkg (fun p => gofile_Printf (nl +:+ "// ---- Package: " +:+ Package_Name p +:+ " ---" +:+ nl)) >>>
  gofile_Printf (nl +:+ "// ---- Types ---" +:+ nl) >>>
  pywrap_Printf (nl +:+ "# ---- Types ---" +:+ nl) >>>
  for_each (names current) (fun n => with_pkg (fun p s =>
    let y := sym current n in
    if negb (isType y) || negb (same_pointer (gopkg y) (p_pkg p)) then s
    else genType y false false s)) >>>
  pywrap_Printf (nl +:+ nl +:+ "#---- Constants from Go: Python can only ask that you please don't change these! ---" +:+ nl) >>>
  with_pkg (fun p => for_each (consts p) genConst) >>>
  gofile_Printf (nl +:+ nl +:+ "// ---- Global Variables: can only use functions to access ---" +:+ nl) >>>
  pywrap_Printf (nl +:+ nl +:+ "# ---- Global Variables: can only use functions to access ---" +:+ nl) >>>
  with_pkg (fun p => for_each (vars p) genVar) >>>
  gofile_Printf (nl +:+ nl +:+ "// ---- Interfaces ---" +:+ nl) >>>
  pywrap_Printf (nl +:+ nl +:+ "# ---- Interfaces ---" +:+ nl) >>>
  with_pkg (fun p => for_each (ifaces p) genInterface) >>>
  gofile_Printf (nl +:+ nl +:+ "// ---- Structs ---" +:+ nl) >>>
  pywrap_Printf (nl +:+ nl +:+ "# ---- Structs ---" +:+ nl) >>>
  with_pkg (fun p => for_each (structs p) genStruct) >>>
  gofile_Printf (nl +:+ nl +:+ "// ---- Constructors ---" +:+ nl) >>>
  pywrap_Printf (nl +:+ nl +:+ "# ---- Constructors ---" +:+ nl) >>>
  with_pkg (fun p => for_each (structs p) (fun x => for_each (ctors x) genFunc)) >>>
  gofile_Printf (nl +:+ nl +:+ "// ---- Functions ---" +:+ nl) >>>
  pywrap_Printf (nl +:+ nl +:+ "# ---- Functions ---" +:+ nl) >>>
  with_pkg (fun p => for_each (funcs p) genFunc).

Definition genPkg (p : Package) : St -> St :=
  upd_g (set_pkg (Some p)) >>>
  upd_g (set_pywrap new_printer) >>>
  genPyWrapPreamble >>>
  genExtTypesPyWrap >>>
  genAll >>>
  genPkgWrapOut >>>
  upd_g (set_pkg None).

Definition gen (s0 : St) : option error * St :=
  let s := upd_g (set_pkg None) s0 in
  let r := os_MkdirAll rt (odir (g s)) in
  let s := os_log (EvMkdirAll (odir (g s)) r) s in
  match r with
  | Some e => (Some ("gopy: could not create output directory: " +:+ e), s)
  | None =>
    let s := (genPackageMap >>>
              genPre >>>
              genExtTypesGo >>>
              for_each Packages genPkg >>>
              genOut) s in
    match err (g s) with
    | [] => (None, s)
    | _ => (Some (ErrorList_Error (err (g s))), s)
    end
  end.

Definition GenPyBind (odir outname cmdstr vm libext : string) (lang : Z)
  : option error * St :=
  let gen0 :=
    {| gofile := nil_printer; pybuild := nil_printer; pywrap := nil_printer;
       makefile := nil_printer; pkg := None; err := []; pkgmap := ∅;
       odir := odir; outname := outname; cmdstr := cmdstr; vm := vm;
       libext := libext; lang := lang |} in
  let '(e, s) := gen {| g := gen0; os_trace := []; calls := [] |} in
  match e with
  | Some m => (Some m, s)
  | None => (e, s)
  end.

(** ** The run, as the specification describes it *)

(** The text and the errors of a list of emitter calls made while the
    current package is [p]. *)
Definition emitted (p : option Package) (cs : list Call) : Delta :=
  dconcat (map (fun c =>
    {| d_go := to_gofile (emit p c); d_build := to_pybuild (emit p c);
       d_wrap := to_pywrap (emit p c); d_make := "";
       d_err := to_err (emit p c); d_os := []; d_calls := [c] |}) cs).

(** The global symbol list, in the order of [names()]. *)
Definition global_syms : list symbol := map (sym current) (names current).

(** The target set of a package list. *)
Definition TargetSet (ps : list Package) : gset string :=
  list_to_set (map (fun p => tp_Path (p_pkg p)) ps).

Definition is_external (m : gset string) (y : symbol) : bool :=
  isType y && negb (bool_decide (tp_Path (gopkg y) ∈ m)).

Definition ext_types (m : gset string) : list symbol :=
  List.filter (is_external m) global_syms.

Definition ext_calls_go (m : gset string) : list Call :=
  map (fun y => genType_call y true false) (ext_types m).

Definition ext_calls_wrap (m : gset string) : list Call :=
  map (fun y => genType_call y true true) (ext_types m).

Definition own_types (p : Package) : list symbol :=
  List.filter (fun y => isType y && same_pointer (gopkg y) (p_pkg p)) global_syms.

Definition section_calls (p : Package) (k : DeclKind) : list Call :=
  match k with
  | KTypes => map (fun y => genType_call y false false) (own_types p)
  | KConstants => map genConstValue_call (consts p)
  | KVariables => flat_map (fun v => [genVarGetter_call v; genVarSetter_call v]) (vars p)
  | KInterfaces => map genInterface_call (ifaces p)
  | KStructs => map genStruct_call (structs p)
  | KConstructors => flat_map (fun x => map genFunc_call (ctors x)) (structs p)
  | KFunctions => map genFunc_call (funcs p)
  end.

Definition section_delta (p : Package) (k : DeclKind) : Delta :=
  dapp (d_gofile (go_header k))
    (dapp (d_pywrap (wrap_header k)) (emitted (Some p) (section_calls p k))).

Definition pkg_go_header (p : Package) : string :=
  nl +:+ "// ---- Package: " +:+ Package_Name p +:+ " ---" +:+ nl.

Definition genAll_delta (p : Package) : Delta :=
  dapp (d_gofile (pkg_go_header p)) (dconcat (map (section_delta p) section_order)).


(** The fields of the generator that a run only reads. *)
Record Config := {
  c_odir : string;
  c_outname : string;
  c_cmdstr : string;
  c_vm : string;
  c_libext : string
}.

Definition config_of (x : pyGen) : Config :=
  {| c_odir := odir x; c_outname := outname x; c_cmdstr := cmdstr x;
     c_vm := vm x; c_libext := libext x |}.

Definition go_text (p : option Package) (cs : list Call) : string :=
  concat_strings (map (fun c => to_gofile (emit p c)) cs).

Definition build_text (p : option Package) (cs : list Call) : string :=
  concat_strings (map (fun c => to_pybuild (emit p c)) cs).

Definition wrap_text (p : option Package) (cs : list Call) : string :=
  concat_strings (map (fun c => to_pywrap (emit p c)) cs).

Definition err_list (p : option Package) (cs : list Call) : list error :=
  flat_map (fun c => to_err (emit p c)) cs.

(** Writing one buffer to its file: the two file system calls and the
    errors they return. *)
Definition print_delta (c : Config) (outfn data : string) : Delta :=
  let path := filepath_Join rt (c_odir c) outfn in
  dconcat [ d_event (EvCreate path (os_Create rt path));
            d_errors (option_list (os_Create rt path));
            d_event (EvCopy path data (io_Copy rt path data));
            d_errors (option_list (io_Copy rt path data)) ].

Definition wrap_preamble_text (m : gset string) (c : Config) (p : Package) : string :=
  PyWrapPreamble (c_outname c) (c_cmdstr c) (tp_Name (p_pkg p)) (tp_Path (p_pkg p))
                 (pkgDoc_of p) (impstr_of m (c_outname c) p).

(** All the calls made for one package, in order. *)
Definition pkg_calls (m : gset string) (p : Package) : list Call :=
  ext_calls_wrap m ++ flat_map (section_calls p) section_order.

(** The wrapper file of a package: its preamble, the external types, its
    own sections in the fixed order, and two newlines. *)
Definition wrapper_content (m : gset string) (c : Config) (p : Package) : string :=
  wrap_preamble_text m c p
  +:+ ext_wrap_header
  +:+ wrap_text (Some p) (ext_calls_wrap m)
  +:+ concat_strings
        (map (fun k => wrap_header k +:+ wrap_text (Some p) (section_calls p k)) section_order)
  +:+ nl +:+ nl.

(** What [genPkg] appends to its fresh wrapper buffer and to the shared
    buffers before it writes the wrapper file. *)
Definition wrapper_delta (m : gset string) (c : Config) (p : Package) : Delta :=
  dconcat [ d_pywrap (wrap_preamble_text m c p);
            dapp (d_pywrap ext_wrap_header) (emitted (Some p) (ext_calls_wrap m));
            genAll_delta p;
            d_pywrap (nl +:+ nl) ].

Definition strip_wrap (d : Delta) : Delta :=
  {| d_go := d_go d; d_build := d_build d; d_wrap := ""; d_make := d_make d;
     d_err := d_err d; d_os := d_os d; d_calls := d_calls d |}.

(** What [genPkg] leaves outside the wrapper buffer. *)
Definition pkg_delta (m : gset string) (c : Config) (p : Package) : Delta :=
  dapp (strip_wrap (wrapper_delta m c p))
       (print_delta c (tp_Name (p_pkg p) +:+ ".py") (wrapper_content m c p)).

(** What the wrapper buffer of a package still holds after it was
    copied to the wrapper file. *)
Definition wrapper_left (m : gset string) (c : Config) (p : Package) : string :=
  unread rt (filepath_Join rt (c_odir c) (tp_Name (p_pkg p) +:+ ".py"))
         (wrapper_content m c p).

(** The wrapper buffer and the current package after [genPkg]. *)
Definition close_pkg (w : string) (s : St) : St :=
  upd_g (fun x => set_pkg None (set_pywrap {| buf := w; indentEach := tab |} x)) s.

Definition go_preamble_text (c : Config) : string :=
  goPreamble (c_outname c) (c_cmdstr c) (libcfg_of (c_vm c)) GoHandle CGoHandle
             (pkgimport_of (map_range rt (imports current)))
  +:+ (nl +:+ "// --- generated code for package: " +:+ c_outname c
          +:+ " below: ---" +:+ nl +:+ nl).

Definition makefile_text (c : Config) : string :=
  MakefileTemplate (c_outname c) (c_cmdstr c) (gencmd_of (c_cmdstr c)) (c_vm c) (c_libext c).

Definition init_path (c : Config) : string := filepath_Join rt (c_odir c) "__init__.py".

Definition pre_delta (c : Config) : Delta :=
  dconcat [ d_gofile (go_preamble_text c);
            d_pybuild (PyBuildPreamble (c_outname c) (c_cmdstr c));
            d_makefile (makefile_text c);
            d_event (EvCreate (init_path c) (os_Create rt (init_path c)));
            d_errors (option_list (os_Create rt (init_path c))) ].

Definition build_trailer (c : Config) : string :=
  nl +:+ "mod.generate(open('" +:+ c_outname c +:+ ".c', 'w'))" +:+ nl +:+ nl.

(** Everything appended before the three shared files are written. *)
Definition body_delta (c : Config) : Delta :=
  let m := TargetSet Packages in
  dconcat [ pre_delta c;
            dapp (d_gofile ext_go_header) (emitted None (ext_calls_go m));
            dconcat (map (pkg_delta m c) Packages);
            d_pybuild (build_trailer c);
            d_gofile (nl +:+ nl);
            d_makefile (nl +:+ nl) ].

Definition glue_content (c : Config) : string := d_go (body_delta c).
Definition build_content (c : Config) : string := d_build (body_delta c).
Definition makefile_content (c : Config) : string := d_make (body_delta c).

Definition out_delta (c : Config) : Delta :=
  dconcat [ print_delta c (c_outname c +:+ ".go") (glue_content c);
            print_delta c "build.py" (build_content c);
            print_delta c "Makefile" (makefile_content c) ].

Definition run_delta (c : Config) : Delta := dapp (body_delta c) (out_delta c).

(** The state in which the appending starts: no current package, the
    target set computed, the three shared buffers freshly allocated and
    the directory call recorded. *)
Definition start_state (s0 : St) : St :=
  {| g := {| gofile := new_printer; pybuild := new_printer; pywrap := pywrap (g s0);
             makefile := new_printer; pkg := None; err := err (g s0);
             pkgmap := TargetSet Packages; odir := odir (g s0);
             outname := outname (g s0); cmdstr := cmdstr (g s0); vm := vm (g s0);
             libext := libext (g s0); lang := lang (g s0) |};
     os_trace := os_trace s0 ++ [EvMkdirAll (odir (g s0)) None];
     calls := calls s0 |}.

(** The wrapper buffer that the last package of a list leaves behind,
    after its copy to the wrapper file. *)
Definition last_pywrap_of (m : gset string) (c : Config) (ps : list Package)
    (w0 : printer) : printer :=
  foldl (fun _ p => {| buf := wrapper_left m c p; indentEach := tab |}) w0 ps.

Definition last_pywrap (c : Config) (w0 : printer) : printer :=
  last_pywrap_of (TargetSet Packages) c Packages w0.

(** The three shared buffers, freshly allocated. *)
Definition reset_shared (s : St) : St :=
  upd_g (fun x => set_makefile new_printer (set_pybuild new_printer (set_gofile new_printer x))) s.

(** The three shared buffers after [genOut] has copied them to their
    files. *)
Definition flushed_shared (c : Config) (s : St) : St :=
  upd_g (fun x =>
    set_makefile
      {| buf := unread rt (filepath_Join rt (c_odir c) "Makefile") (makefile_content c);
         indentEach := tab |}
      (set_pybuild
         {| buf := unread rt (filepath_Join rt (c_odir c) "build.py") (build_content c);
            indentEach := tab |}
         (set_gofile
            {| buf := unread rt (filepath_Join rt (c_odir c) (c_outname c +:+ ".go"))
                        (glue_content c);
               indentEach := tab |} x))) s.

(** The value [gen] returns for a final error list. *)
Definition result_of (l : ErrorList) : option error :=
  match l with
  | [] => None
  | _ => Some (ErrorList_Error l)
  end.

(** The state in which a run ends when the directory could be created. *)
Definition final_state (s0 : St) : St :=
  let c := config_of (g s0) in
  flushed_shared c
    (upd_g (set_pywrap
              (last_pywrap c
                 (Printf (pywrap (g s0)) (wrap_text None (ext_calls_go (TargetSet Packages))))))
       (extend (run_delta c) (start_state s0))).

(** The file system calls of writing one buffer. *)
Definition print_events (c : Config) (outfn data : string) : list OsEvent :=
  let path := filepath_Join rt (c_odir c) outfn in
  [EvCreate path (os_Create rt path); EvCopy path data (io_Copy rt path data)].

(** The errors of writing one buffer, in the order they are met. *)
Definition print_errors (c : Config) (outfn data : string) : list error :=
  let path := filepath_Join rt (c_odir c) outfn in
  option_list (os_Create rt path) ++ option_list (io_Copy rt path data).

(** The file system calls of a whole run after the directory call. *)
Definition run_events (c : Config) : list OsEvent :=
  let m := TargetSet Packages in
  [EvCreate (init_path c) (os_Create rt (init_path c))]
  ++ flat_map (fun p => print_events c (tp_Name (p_pkg p) +:+ ".py") (wrapper_content m c p))
              Packages
  ++ print_events c (c_outname c +:+ ".go") (glue_content c)
  ++ print_events c "build.py" (build_content c)
  ++ print_events c "Makefile" (makefile_content c).

(** The errors of a whole run, in the order they are met. *)
Definition run_errors (c : Config) : list error :=
  let m := TargetSet Packages in
  option_list (os_Create rt (init_path c))
  ++ err_list None (ext_calls_go m)
  ++ flat_map (fun p =>
       err_list (Some p) (pkg_calls m p)
       ++ print_errors c (tp_Name (p_pkg p) +:+ ".py") (wrapper_content m c p)) Packages
  ++ print_errors c (c_outname c +:+ ".go") (glue_content c)
  ++ print_errors c "build.py" (build_content c)
  ++ print_errors c "Makefile" (makefile_content c).

(** The emitter calls of a whole run. *)
Definition run_calls : list Call :=
  let m := TargetSet Packages in
  ext_calls_go m ++ flat_map (pkg_calls m) Packages.

(** The glue text of one package. *)
Definition pkg_go_text (m : gset string) (p : Package) : string :=
  go_text (Some p) (ext_calls_wrap m)
  +:+ pkg_go_header p
  +:+ concat_strings
        (map (fun k => go_header k +:+ go_text (Some p) (section_calls p k)) section_order).

(** What the calls of one package add to the build script. *)
Definition pkg_build_text (m : gset string) (p : Package) : string :=
  build_text (Some p) (pkg_calls m p).

(** The step [f], run while the current package is [o], appends [d]. *)
Definition appends (o : option Package) (f : St -> St) (d : Delta) : Prop :=
  forall s, pkg (g s) = o -> f s = extend d s.

(** * Reasoning about runs *)

(** ** Strings *)

Lemma string_app_assoc (a b c : string) : (a +:+ b) +:+ c = a +:+ (b +:+ c).
Proof. induction a as [|x a IH]; [reflexivity|]. cbn. unfold String.app in *. cbn. by rewrite IH. Qed.

Lemma string_app_nil_r (a : string) : a +:+ "" = a.
Proof. induction a as [|x a IH]; [reflexivity|]. cbn. unfold String.app in *. cbn. by rewrite IH. Qed.

Lemma concat_strings_app (l1 l2 : list string) :
  concat_strings (l1 ++ l2) = concat_strings l1 +:+ concat_strings l2.
Proof.
  induction l1 as [|x l1 IH]; [reflexivity|].
  cbn [app concat_strings foldr]. fold (concat_strings (l1 ++ l2)).
  fold (concat_strings l1). by rewrite IH, string_app_assoc.
Qed.

(** ** Buffers and deltas *)

Lemma Printf_nil (p : printer) : Printf p "" = p.
Proof. destruct p as [b i]. unfold Printf. cbn. by rewrite string_app_nil_r. Qed.

Lemma Printf_Printf (p : printer) (a b : string) :
  Printf (Printf p a) b = Printf p (a +:+ b).
Proof. unfold Printf. cbn. by rewrite string_app_assoc. Qed.

Lemma extend_dempty (s : St) : extend dempty s = s.
Proof.
  destruct s as [[] ? ?]. unfold extend, dempty. cbn.
  by rewrite !Printf_nil, !app_nil_r.
Qed.

Lemma extend_dapp (a b : Delta) (s : St) :
  extend b (extend a s) = extend (dapp a b) s.
Proof.
  unfold extend, dapp. cbn.
  by rewrite !Printf_Printf, <- !(assoc_L (++)).
Qed.

Lemma dapp_assoc (a b c : Delta) : dapp (dapp a b) c = dapp a (dapp b c).
Proof.
  unfold dapp. cbn. by rewrite !string_app_assoc, <- !(assoc_L (++)).
Qed.

Lemma dapp_dempty_r (a : Delta) : dapp a dempty = a.
Proof.
  destruct a. unfold dapp, dempty. cbn.
  by rewrite !string_app_nil_r, !app_nil_r.
Qed.

Lemma dapp_dempty_l (a : Delta) : dapp dempty a = a.
Proof. by destruct a. Qed.

Lemma dconcat_app (l1 l2 : list Delta) :
  dconcat (l1 ++ l2) = dapp (dconcat l1) (dconcat l2).
Proof.
  induction l1 as [|d l1 IH]; cbn.
  - by rewrite dapp_dempty_l.
  - fold (dconcat (l1 ++ l2)). fold (dconcat l1). by rewrite IH, dapp_assoc.
Qed.

Lemma emitted_app (p : option Package) (cs1 cs2 : list Call) :
  emitted p (cs1 ++ cs2) = dapp (emitted p cs1) (emitted p cs2).
Proof. unfold emitted. by rewrite map_app, dconcat_app. Qed.

Lemma emitted_cons (p : option Package) (c : Call) (cs : list Call) :
  emitted p (c :: cs) = dapp (emitted p [c]) (emitted p cs).
Proof. apply (emitted_app p [c] cs). Qed.

Lemma emitted_calls (p : option Package) (cs : list Call) :
  d_calls (emitted p cs) = cs.
Proof.
  induction cs as [|c cs IH]; [done|].
  rewrite emitted_cons. cbn [dapp d_calls]. by rewrite IH.
Qed.

Lemma emitted_os (p : option Package) (cs : list Call) :
  d_os (emitted p cs) = [].
Proof.
  induction cs as [|c cs IH]; [done|].
  rewrite emitted_cons. cbn [dapp d_os]. by rewrite IH.
Qed.

Lemma emitted_make (p : option Package) (cs : list Call) :
  d_make (emitted p cs) = "".
Proof.
  induction cs as [|c cs IH]; [done|].
  rewrite emitted_cons. cbn [dapp d_make]. by rewrite IH.
Qed.

(** ** Single steps *)

Lemma gofile_Printf_extend (t : string) (s : St) :
  gofile_Printf t s = extend (d_gofile t) s.
Proof.
  destruct s as [[] ? ?]. unfold gofile_Printf, extend, upd_g, set_gofile. cbn.
  by rewrite !Printf_nil, !app_nil_r.
Qed.

Lemma pybuild_Printf_extend (t : string) (s : St) :
  pybuild_Printf t s = extend (d_pybuild t) s.
Proof.
  destruct s as [[] ? ?]. unfold pybuild_Printf, extend, upd_g, set_pybuild. cbn.
  by rewrite !Printf_nil, !app_nil_r.
Qed.

Lemma pywrap_Printf_extend (t : string) (s : St) :
  pywrap_Printf t s = extend (d_pywrap t) s.
Proof.
  destruct s as [[] ? ?]. unfold pywrap_Printf, extend, upd_g, set_pywrap. cbn.
  by rewrite !Printf_nil, !app_nil_r.
Qed.

Lemma makefile_Printf_extend (t : string) (s : St) :
  makefile_Printf t s = extend (d_makefile t) s.
Proof.
  destruct s as [[] ? ?]. unfold makefile_Printf, extend, upd_g, set_makefile. cbn.
  by rewrite !Printf_nil, !app_nil_r.
Qed.

Lemma err_Add_extend (e : option error) (s : St) :
  err_Add e s = extend (d_errors (option_list e)) s.
Proof.
  destruct s as [[] ? ?]. unfold err_Add, extend, upd_g, set_err, ErrorList_Add. cbn.
  rewrite !Printf_nil, !app_nil_r. by destruct e; cbn; rewrite ?app_nil_r.
Qed.

Lemma os_log_extend (ev : OsEvent) (s : St) :
  os_log ev s = extend (d_event ev) s.
Proof.
  destruct s as [[] ? ?]. unfold os_log, extend. cbn.
  by rewrite !Printf_nil, !app_nil_r.
Qed.

Lemma run_emitter_extend (c : Call) (s : St) :
  run_emitter c s = extend (emitted (pkg (g s)) [c]) s.
Proof.
  destruct s as [[] ? ?]. unfold run_emitter, extend, emitted. cbn.
  by rewrite !string_app_nil_r, !Printf_nil, !app_nil_r.
Qed.

(** [extend] leaves what the steps only read as it is. *)
Lemma extend_pkg (d : Delta) (s : St) : pkg (g (extend d s)) = pkg (g s).
Proof. reflexivity. Qed.

Lemma extend_pkgmap (d : Delta) (s : St) : pkgmap (g (extend d s)) = pkgmap (g s).
Proof. reflexivity. Qed.

Lemma extend_odir (d : Delta) (s : St) : odir (g (extend d s)) = odir (g s).
Proof. reflexivity. Qed.

Lemma extend_outname (d : Delta) (s : St) : outname (g (extend d s)) = outname (g s).
Proof. reflexivity. Qed.

Lemma extend_cmdstr (d : Delta) (s : St) : cmdstr (g (extend d s)) = cmdstr (g s).
Proof. reflexivity. Qed.

Lemma extend_vm (d : Delta) (s : St) : vm (g (extend d s)) = vm (g s).
Proof. reflexivity. Qed.

Lemma extend_libext (d : Delta) (s : St) : libext (g (extend d s)) = libext (g s).
Proof. reflexivity. Qed.

Lemma extend_config (d : Delta) (s : St) : config_of (g (extend d s)) = config_of (g s).
Proof. reflexivity. Qed.

(** ** Loops *)

Lemma for_each_cons {A : Type} (x : A) (l : list A) (body : A -> St -> St) (s : St) :
  for_each (x :: l) body s = for_each l body (body x s).
Proof. reflexivity. Qed.

(** A loop that calls one emitter per element. *)
Lemma for_each_emit {A : Type} (f : A -> Call) (l : list A) (s : St) :
  for_each l (fun x => run_emitter (f x)) s = extend (emitted (pkg (g s)) (map f l)) s.
Proof.
  revert s. induction l as [|x l IH]; intros s.
  - symmetry. apply extend_dempty.
  - rewrite for_each_cons, IH, run_emitter_extend, extend_dapp, extend_pkg.
    by rewrite <- emitted_cons.
Qed.

(** A loop that calls a fixed list of emitters per element. *)
Lemma for_each_emit_many {A : Type} (f : A -> list Call) (body : A -> St -> St)
    (l : list A) (s : St) :
  (forall x s', body x s' = extend (emitted (pkg (g s')) (f x)) s') ->
  for_each l body s = extend (emitted (pkg (g s)) (flat_map f l)) s.
Proof.
  intros Hbody. revert s. induction l as [|x l IH]; intros s.
  - symmetry. apply extend_dempty.
  - rewrite for_each_cons, IH, Hbody, extend_dapp, extend_pkg.
    by rewrite <- emitted_app.
Qed.

(** The two passes over the external types. *)
Lemma ext_loop_extend (w : bool) (l : list string) (s : St) :
  for_each l (fun n s' =>
      let y := sym current n in
      if negb (isType y) then s'
      else if bool_decide (tp_Path (gopkg y) ∈ pkgmap (g s')) then s'
      else genType y true w s') s
  = extend (emitted (pkg (g s))
              (map (fun y => genType_call y true w)
                   (List.filter (is_external (pkgmap (g s))) (map (sym current) l)))) s.
Proof.
  revert s. induction l as [|n l IH]; intros s.
  - symmetry. apply extend_dempty.
  - rewrite for_each_cons. cbn [map List.filter].
    assert (is_external (pkgmap (g s)) (sym current n)
            = isType (sym current n)
              && negb (bool_decide (tp_Path (gopkg (sym current n)) ∈ pkgmap (g s))))
      as -> by reflexivity.
    cbv zeta. destruct (isType (sym current n)); cbn [negb andb].
    + destruct (bool_decide (tp_Path (gopkg (sym current n)) ∈ pkgmap (g s))); cbn [negb].
      * apply IH.
      * unfold genType. rewrite IH, run_emitter_extend, extend_dapp.
        rewrite extend_pkg, extend_pkgmap. by rewrite <- emitted_cons.
    + apply IH.
Qed.

(** The pass over the types of the current package. *)
Lemma own_types_loop_extend (p : Package) (l : list string) (s : St) :
  pkg (g s) = Some p ->
  for_each l (fun n => with_pkg (fun p' s' =>
      let y := sym current n in
      if negb (isType y) || negb (same_pointer (gopkg y) (p_pkg p')) then s'
      else genType y false false s')) s
  = extend (emitted (Some p)
              (map (fun y => genType_call y false false)
                   (List.filter (fun y => isType y && same_pointer (gopkg y) (p_pkg p))
                                (map (sym current) l)))) s.
Proof.
  revert s. induction l as [|n l IH]; intros s Hp.
  - symmetry. apply extend_dempty.
  - rewrite for_each_cons. cbn [map List.filter].
    unfold with_pkg at 2. rewrite Hp. cbv zeta.
    destruct (isType (sym current n)); cbn [negb andb orb].
    + destruct (same_pointer (gopkg (sym current n)) (p_pkg p)); cbn [negb].
      * unfold genType. rewrite run_emitter_extend, Hp, IH by exact Hp.
        rewrite extend_dapp. by rewrite <- emitted_cons.
      * by apply IH.
    + by apply IH.
Qed.

(** ** The passes of the generator *)

Lemma with_pkg_extend (body : Package -> St -> St) (p : Package) (d : Delta) (s : St) :
  pkg (g s) = Some p ->
  with_pkg body (extend d s) = body p (extend d s).
Proof. intros Hp. unfold with_pkg. by rewrite extend_pkg, Hp. Qed.

Lemma genExtTypesGo_extend (s : St) :
  genExtTypesGo s
  = extend (dapp (d_gofile ext_go_header)
                 (emitted (pkg (g s)) (ext_calls_go (pkgmap (g s))))) s.
Proof.
  unfold genExtTypesGo, seq.
  by rewrite gofile_Printf_extend, ext_loop_extend, extend_dapp.
Qed.

Lemma genExtTypesPyWrap_extend (s : St) :
  genExtTypesPyWrap s
  = extend (dapp (d_pywrap ext_wrap_header)
                 (emitted (pkg (g s)) (ext_calls_wrap (pkgmap (g s))))) s.
Proof.
  unfold genExtTypesPyWrap, seq.
  by rewrite pywrap_Printf_extend, ext_loop_extend, extend_dapp.
Qed.

Lemma genVar_extend (v : Var) (s : St) :
  genVar v s = extend (emitted (pkg (g s)) [genVarGetter_call v; genVarSetter_call v]) s.
Proof.
  unfold genVar, seq, genVarGetter, genVarSetter.
  rewrite !run_emitter_extend, extend_dapp, extend_pkg.
  by rewrite <- emitted_cons.
Qed.

Lemma ctors_loop_extend (x : Struct) (s : St) :
  for_each (ctors x) genFunc s
  = extend (emitted (pkg (g s)) (map genFunc_call (ctors x))) s.
Proof. apply (for_each_emit genFunc_call). Qed.

(** ** Steps that only append

    [appends o f d]: run with the current package [o], the step [f]
    appends [d] and changes nothing else. *)

Lemma appends_seq (o : option Package) (f k : St -> St) (d1 d2 : Delta) :
  appends o f d1 -> appends o k d2 -> appends o (f >>> k) (dapp d1 d2).
Proof.
  intros Hf Hk s Hs. unfold seq. rewrite (Hf s Hs), Hk by exact Hs.
  apply extend_dapp.
Qed.

Lemma appends_eq (o : option Package) (f : St -> St) (d d' : Delta) :
  appends o f d -> d = d' -> appends o f d'.
Proof. by intros H <-. Qed.

Lemma appends_gofile_Printf (o : option Package) (t : string) :
  appends o (gofile_Printf t) (d_gofile t).
Proof. intros s _. apply gofile_Printf_extend. Qed.

Lemma appends_pybuild_Printf (o : option Package) (t : string) :
  appends o (pybuild_Printf t) (d_pybuild t).
Proof. intros s _. apply pybuild_Printf_extend. Qed.

Lemma appends_pywrap_Printf (o : option Package) (t : string) :
  appends o (pywrap_Printf t) (d_pywrap t).
Proof. intros s _. apply pywrap_Printf_extend. Qed.

Lemma appends_makefile_Printf (o : option Package) (t : string) :
  appends o (makefile_Printf t) (d_makefile t).
Proof. intros s _. apply makefile_Printf_extend. Qed.

Lemma appends_with_pkg (p : Package) (body : Package -> St -> St) (d : Delta) :
  appends (Some p) (body p) d -> appends (Some p) (with_pkg body) d.
Proof. intros H s Hs. unfold with_pkg. rewrite Hs. by apply H. Qed.

Lemma appends_for_each_emit {A : Type} (o : option Package) (f : A -> Call) (l : list A) :
  appends o (for_each l (fun x => run_emitter (f x))) (emitted o (map f l)).
Proof. intros s Hs. by rewrite for_each_emit, Hs. Qed.

Lemma appends_for_each_many {A : Type} (o : option Package) (f : A -> list Call)
    (body : A -> St -> St) (l : list A) :
  (forall x, appends o (body x) (emitted o (f x))) ->
  appends o (for_each l body) (emitted o (flat_map f l)).
Proof.
  intros Hbody. induction l as [|x l IH]; intros s Hs.
  - symmetry. apply extend_dempty.
  - rewrite for_each_cons, (Hbody x s Hs), IH by exact Hs.
    rewrite extend_dapp. cbn [flat_map]. by rewrite emitted_app.
Qed.

Lemma appends_genVar (o : option Package) (v : Var) :
  appends o (genVar v) (emitted o [genVarGetter_call v; genVarSetter_call v]).
Proof. intros s Hs. by rewrite genVar_extend, Hs. Qed.

Lemma genAll_appends (p : Package) :
  appends (Some p) genAll (genAll_delta p).
Proof.
  eapply appends_eq.
  - unfold genAll.
    repeat first
      [ eapply appends_seq
      | apply appends_gofile_Printf
      | apply appends_pywrap_Printf
      | apply appends_with_pkg ].
    + intros s Hs. apply (own_types_loop_extend p _ s Hs).
    + apply (appends_for_each_emit _ genConstValue_call).
    + apply (appends_for_each_many _ (fun v => [genVarGetter_call v; genVarSetter_call v])).
      apply appends_genVar.
    + apply (appends_for_each_emit _ genInterface_call).
    + apply (appends_for_each_emit _ genStruct_call).
    + apply (appends_for_each_many _ (fun x => map genFunc_call (ctors x))).
      intros x. apply (appends_for_each_emit _ genFunc_call).
    + apply (appends_for_each_emit _ genFunc_call).
  - unfold genAll_delta, section_order, section_delta, own_types, global_syms.
    cbn [map dconcat foldr go_header wrap_header section_calls].
    change (d_gofile "") with dempty.
    by rewrite ?dapp_assoc, ?dapp_dempty_l, ?dapp_dempty_r.
Qed.

(** ** Writing files *)

Lemma assign_extend (r : PrinterRef) (P : printer) (d : Delta) (t : St) :
  d_go d = "" -> d_build d = "" -> d_wrap d = "" -> d_make d = "" ->
  extend d (upd_g (assign r P) t) = upd_g (assign r P) (extend d t).
Proof.
  intros H1 H2 H3 H4. destruct t as [[] ? ?].
  destruct r; unfold extend, upd_g, assign, set_gofile, set_pybuild, set_pywrap, set_makefile;
    cbn; rewrite H1, H2, H3, H4; by rewrite !Printf_nil.
Qed.

Lemma drained_extend (r : PrinterRef) (u : string) (d : Delta) (t : St) :
  upd_g (fun x => assign r (drained (deref r x) u) x) (extend d t)
  = upd_g (assign r (drained (deref r (g t)) u)) (extend d t).
Proof. destruct t as [[] ? ?]. destruct r; reflexivity. Qed.

Lemma genPrintOut_extend (outfn : string) (pr : PrinterRef) (s : St) :
  genPrintOut outfn pr s
  = upd_g (assign pr (drained (deref pr (g s))
                        (unread rt (filepath_Join rt (odir (g s)) outfn)
                                (buf (deref pr (g s))))))
      (extend (print_delta (config_of (g s)) outfn (buf (deref pr (g s)))) s).
Proof.
  unfold genPrintOut, seq. cbv zeta.
  rewrite !os_log_extend, !err_Add_extend, !extend_dapp.
  rewrite drained_extend, assign_extend by reflexivity.
  rewrite extend_dapp.
  do 2 f_equal. unfold print_delta. cbn [dconcat foldr config_of c_odir].
  by rewrite ?dapp_assoc, ?dapp_dempty_r.
Qed.

Lemma print_delta_wrap (c : Config) (outfn data : string) :
  strip_wrap (print_delta c outfn data) = print_delta c outfn data.
Proof. reflexivity. Qed.

Lemma strip_wrap_dapp (a b : Delta) :
  strip_wrap (dapp a b) = dapp (strip_wrap a) (strip_wrap b).
Proof. reflexivity. Qed.

(** ** One package *)

Lemma emitted_wrap (p : option Package) (cs : list Call) :
  d_wrap (emitted p cs) = wrap_text p cs.
Proof.
  induction cs as [|c cs IH]; [done|].
  rewrite emitted_cons. cbn [dapp d_wrap]. rewrite IH.
  unfold emitted. cbn. by rewrite string_app_nil_r.
Qed.

Lemma emitted_go (p : option Package) (cs : list Call) :
  d_go (emitted p cs) = go_text p cs.
Proof.
  induction cs as [|c cs IH]; [done|].
  rewrite emitted_cons. cbn [dapp d_go]. rewrite IH.
  unfold emitted. cbn. by rewrite string_app_nil_r.
Qed.

Lemma emitted_build (p : option Package) (cs : list Call) :
  d_build (emitted p cs) = build_text p cs.
Proof.
  induction cs as [|c cs IH]; [done|].
  rewrite emitted_cons. cbn [dapp d_build]. rewrite IH.
  unfold emitted. cbn. by rewrite string_app_nil_r.
Qed.

Lemma emitted_err (p : option Package) (cs : list Call) :
  d_err (emitted p cs) = err_list p cs.
Proof.
  induction cs as [|c cs IH]; [done|].
  rewrite emitted_cons. cbn [dapp d_err]. rewrite IH.
  unfold emitted. cbn. by rewrite app_nil_r.
Qed.

Lemma genAll_delta_wrap (p : Package) :
  d_wrap (genAll_delta p)
  = concat_strings
      (map (fun k => wrap_header k +:+ wrap_text (Some p) (section_calls p k)) section_order).
Proof.
  unfold genAll_delta, section_order, section_delta.
  cbn [map dconcat foldr dapp d_wrap d_gofile d_pywrap dempty concat_strings].
  rewrite !emitted_wrap. cbn. by rewrite ?string_app_nil_r.
Qed.

Lemma wrapper_delta_wrap (m : gset string) (c : Config) (p : Package) :
  d_wrap (wrapper_delta m c p) = wrapper_content m c p.
Proof.
  unfold wrapper_delta, wrapper_content.
  cbn [dconcat foldr dapp d_wrap d_pywrap dempty].
  rewrite emitted_wrap, genAll_delta_wrap.
  by rewrite ?string_app_assoc, ?string_app_nil_r.
Qed.

Lemma genPyWrapPreamble_extend (p : Package) (s : St) :
  pkg (g s) = Some p ->
  genPyWrapPreamble s
  = extend (d_pywrap (wrap_preamble_text (pkgmap (g s)) (config_of (g s)) p)) s.
Proof.
  intros Hp. unfold genPyWrapPreamble, with_pkg. rewrite Hp. cbv zeta.
  apply pywrap_Printf_extend.
Qed.

Lemma genPkgWrapOut_extend (p : Package) (s : St) :
  pkg (g s) = Some p ->
  genPkgWrapOut s
  = upd_g (set_pywrap
             {| buf := unread rt (filepath_Join rt (odir (g s)) (tp_Name (p_pkg p) +:+ ".py"))
                         (buf (pywrap (g s)) +:+ (nl +:+ nl));
                indentEach := indentEach (pywrap (g s)) |})
      (extend (dapp (d_pywrap (nl +:+ nl))
                    (print_delta (config_of (g s)) (tp_Name (p_pkg p) +:+ ".py")
                                 (buf (pywrap (g s)) +:+ (nl +:+ nl)))) s).
Proof.
  intros Hp. unfold genPkgWrapOut, seq.
  rewrite pywrap_Printf_extend, (with_pkg_extend _ p _ _ Hp), genPrintOut_extend.
  rewrite extend_dapp. reflexivity.
Qed.

(** A delta appended to a freshly allocated wrapper buffer that is then
    copied to its file. *)
Lemma extend_fresh_wrapper (p : Package) (d : Delta) (u : string) (s : St) :
  upd_g (set_pkg None)
    (upd_g (set_pywrap {| buf := u; indentEach := tab |})
       (extend d (upd_g (set_pywrap new_printer) (upd_g (set_pkg (Some p)) s))))
  = close_pkg u (extend (strip_wrap d) s).
Proof.
  destruct s as [[] ? ?]. reflexivity.
Qed.

Lemma genPkg_run (p : Package) (s : St) :
  genPkg p s
  = close_pkg (wrapper_left (pkgmap (g s)) (config_of (g s)) p)
      (extend (pkg_delta (pkgmap (g s)) (config_of (g s)) p) s).
Proof.
  unfold genPkg, seq.
  set (s2 := upd_g (set_pywrap new_printer) (upd_g (set_pkg (Some p)) s)).
  assert (Hp : pkg (g s2) = Some p) by reflexivity.
  rewrite (genPyWrapPreamble_extend p s2 Hp), genExtTypesPyWrap_extend.
  rewrite extend_dapp, (genAll_appends p (extend _ s2) Hp), extend_dapp.
  rewrite (genPkgWrapOut_extend p (extend _ s2) Hp), extend_dapp.
  rewrite ?extend_pkgmap, ?extend_config, ?extend_pkg, ?extend_odir, Hp.
  change (pkgmap (g s2)) with (pkgmap (g s)).
  change (config_of (g s2)) with (config_of (g s)).
  change (odir (g s2)) with (c_odir (config_of (g s))).
  set (m := pkgmap (g s)). set (c := config_of (g s)).
  match goal with
  | |- context [indentEach ?x] => change (indentEach x) with tab
  end.
  subst s2. rewrite extend_fresh_wrapper.
  assert (Hd : dapp
                 (dapp (dapp (d_pywrap (wrap_preamble_text m c p))
                             (dapp (d_pywrap ext_wrap_header)
                                   (emitted (Some p) (ext_calls_wrap m))))
                       (genAll_delta p))
                 (d_pywrap (nl +:+ nl))
               = wrapper_delta m c p).
  { unfold wrapper_delta. cbn [dconcat foldr].
    by rewrite ?dapp_assoc, ?dapp_dempty_r. }
  match goal with
  | |- context [print_delta _ _ ?data] =>
      assert (Hdata : data = wrapper_content m c p)
  end.
  { rewrite <- (wrapper_delta_wrap m c p), <- Hd.
    cbn [extend g pywrap buf Printf dapp d_wrap d_pywrap new_printer upd_g set_pywrap
         set_pkg].
    by rewrite ?string_app_assoc, ?string_app_nil_r. }
  rewrite Hdata, <- dapp_assoc, Hd. clear Hd Hdata.
  unfold wrapper_left, pkg_delta.
  rewrite strip_wrap_dapp, print_delta_wrap. reflexivity.
Qed.

(** ** All packages *)

Lemma close_pkg_overwritten (w : printer) (u : string) (d : Delta) (t : St) :
  pkg (g t) = None ->
  upd_g (set_pywrap w) (extend d (close_pkg u t)) = upd_g (set_pywrap w) (extend d t).
Proof. destruct t as [[] ? ?]. cbn. by intros ->. Qed.

Lemma set_pywrap_same (s : St) : upd_g (set_pywrap (pywrap (g s))) s = s.
Proof. by destruct s as [[] ? ?]. Qed.

Lemma pkgs_run (ps : list Package) (s : St) :
  pkg (g s) = None ->
  for_each ps genPkg s
  = upd_g (set_pywrap (last_pywrap_of (pkgmap (g s)) (config_of (g s)) ps (pywrap (g s))))
      (extend (dconcat (map (pkg_delta (pkgmap (g s)) (config_of (g s))) ps)) s).
Proof.
  revert s. induction ps as [|p ps IH]; intros s Hs.
  - cbn [map dconcat foldr last_pywrap_of foldl]. unfold for_each. cbn [foldl].
    by rewrite extend_dempty, set_pywrap_same.
  - rewrite for_each_cons, genPkg_run.
    set (m := pkgmap (g s)). set (c := config_of (g s)).
    rewrite IH by reflexivity.
    change (pkgmap (g (close_pkg _ (extend _ s)))) with m.
    change (config_of (g (close_pkg _ (extend _ s)))) with c.
    rewrite close_pkg_overwritten by exact Hs.
    rewrite extend_dapp. reflexivity.
Qed.

(** ** The target set *)

Lemma genPackageMap_run (s : St) :
  genPackageMap s = upd_g (set_pkgmap (TargetSet Packages)) s.
Proof.
  unfold genPackageMap, seq, TargetSet.
  assert (H : forall ps m0 s',
             pkgmap (g s') = m0 ->
             for_each ps (fun p =>
               upd_g (fun x => set_pkgmap ({[ tp_Path (p_pkg p) ]} ∪ pkgmap x) x)) s'
             = upd_g (set_pkgmap (list_to_set (map (fun p => tp_Path (p_pkg p)) ps) ∪ m0)) s').
  { induction ps as [|p ps IH]; intros m0 s' Hm.
    - cbn [map list_to_set foldr]. unfold for_each. cbn [foldl].
      rewrite (left_id_L ∅ (∪)). rewrite <- Hm. by destruct s' as [[] ? ?].
    - rewrite for_each_cons.
      rewrite (IH ({[ tp_Path (p_pkg p) ]} ∪ m0)).
      + cbn [map list_to_set foldr].
        rewrite (assoc_L (∪)).
        rewrite (comm_L (∪) (list_to_set _) {[ tp_Path (p_pkg p) ]}).
        by destruct s' as [[] ? ?].
      + rewrite <- Hm. by destruct s' as [[] ? ?]. }
  rewrite (H Packages ∅) by reflexivity.
  rewrite (right_id_L ∅ (∪)). by destruct s as [[] ? ?].
Qed.

(** ** Preambles and the final writes *)

Lemma genGoPreamble_extend (s : St) :
  genGoPreamble s = extend (d_gofile (go_preamble_text (config_of (g s)))) s.
Proof.
  unfold genGoPreamble, seq. cbv zeta.
  by rewrite !gofile_Printf_extend, extend_dapp.
Qed.

Lemma genPyBuildPreamble_extend (s : St) :
  genPyBuildPreamble s
  = extend (d_pybuild (PyBuildPreamble (outname (g s)) (cmdstr (g s)))) s.
Proof. apply pybuild_Printf_extend. Qed.

Lemma genMakefile_extend (s : St) :
  genMakefile s = extend (d_makefile (makefile_text (config_of (g s)))) s.
Proof. apply makefile_Printf_extend. Qed.

Lemma genPre_run (s : St) :
  genPre s = extend (pre_delta (config_of (g s))) (reset_shared s).
Proof.
  unfold genPre, seq.
  assert (upd_g (set_makefile new_printer)
            (upd_g (set_pybuild new_printer) (upd_g (set_gofile new_printer) s))
          = reset_shared s) as -> by reflexivity.
  rewrite genGoPreamble_extend, genPyBuildPreamble_extend, genMakefile_extend.
  rewrite os_log_extend, err_Add_extend, !extend_dapp.
  rewrite ?extend_config, ?extend_odir, ?extend_outname, ?extend_cmdstr.
  change (config_of (g (reset_shared s))) with (config_of (g s)).
  change (odir (g (reset_shared s))) with (c_odir (config_of (g s))).
  change (outname (g (reset_shared s))) with (c_outname (config_of (g s))).
  change (cmdstr (g (reset_shared s))) with (c_cmdstr (config_of (g s))).
  f_equal. unfold pre_delta, init_path. cbn [dconcat foldr].
  rewrite ?dapp_assoc, ?dapp_dempty_r. reflexivity.
Qed.

Lemma assign_config (r : PrinterRef) (P : printer) (t : St) :
  config_of (g (upd_g (assign r P) t)) = config_of (g t).
Proof. by destruct r. Qed.

Lemma assign_odir (r : PrinterRef) (P : printer) (t : St) :
  odir (g (upd_g (assign r P) t)) = odir (g t).
Proof. by destruct r. Qed.

Lemma print_delta_pybuild (c : Config) (outfn data : string) (t : St) :
  pybuild (g (extend (print_delta c outfn data) t)) = pybuild (g t).
Proof. cbn. apply Printf_nil. Qed.

Lemma print_delta_makefile (c : Config) (outfn data : string) (t : St) :
  makefile (g (extend (print_delta c outfn data) t)) = makefile (g t).
Proof. cbn. apply Printf_nil. Qed.

Lemma assign_three (a b c : printer) (t : St) :
  upd_g (assign ref_makefile a) (upd_g (assign ref_pybuild b) (upd_g (assign ref_gofile c) t))
  = upd_g (fun x => set_makefile a (set_pybuild b (set_gofile c x))) t.
Proof. reflexivity. Qed.

Lemma genOut_run (s : St) :
  genOut s
  = upd_g (fun x =>
      set_makefile
        {| buf := unread rt (filepath_Join rt (odir (g s)) "Makefile")
                    (buf (makefile (g s)) +:+ (nl +:+ nl));
           indentEach := indentEach (makefile (g s)) |}
        (set_pybuild
           {| buf := unread rt (filepath_Join rt (odir (g s)) "build.py")
                       (buf (pybuild (g s)) +:+ build_trailer (config_of (g s)));
              indentEach := indentEach (pybuild (g s)) |}
           (set_gofile
              {| buf := unread rt (filepath_Join rt (odir (g s)) (outname (g s) +:+ ".go"))
                          (buf (gofile (g s)) +:+ (nl +:+ nl));
                 indentEach := indentEach (gofile (g s)) |} x)))
      (extend
         (dconcat
            [ d_pybuild (build_trailer (config_of (g s)));
              d_gofile (nl +:+ nl);
              d_makefile (nl +:+ nl);
              print_delta (config_of (g s)) (outname (g s) +:+ ".go")
                (buf (gofile (g s)) +:+ (nl +:+ nl));
              print_delta (config_of (g s)) "build.py"
                (buf (pybuild (g s)) +:+ build_trailer (config_of (g s)));
              print_delta (config_of (g s)) "Makefile"
                (buf (makefile (g s)) +:+ (nl +:+ nl)) ]) s).
Proof.
  unfold genOut, seq.
  rewrite pybuild_Printf_extend, gofile_Printf_extend, makefile_Printf_extend.
  rewrite !extend_dapp.
  set (d0 := dapp _ _).
  assert (Hg : buf (gofile (g (extend d0 s))) = buf (gofile (g s)) +:+ (nl +:+ nl)).
  { unfold d0. cbn [extend g gofile buf Printf dapp d_go d_gofile d_pybuild d_makefile].
    by rewrite ?string_app_nil_r. }
  assert (Hb : buf (pybuild (g (extend d0 s)))
               = buf (pybuild (g s)) +:+ build_trailer (config_of (g s))).
  { unfold d0. cbn [extend g pybuild buf Printf dapp d_build d_gofile d_pybuild d_makefile].
    by rewrite ?string_app_nil_r. }
  assert (Hm : buf (makefile (g (extend d0 s))) = buf (makefile (g s)) +:+ (nl +:+ nl)).
  { unfold d0. cbn [extend g makefile buf Printf dapp d_make d_gofile d_pybuild d_makefile].
    reflexivity. }
  rewrite (genPrintOut_extend _ ref_gofile).
  rewrite ?extend_config, ?extend_odir. cbn [deref]. rewrite Hg.
  unfold drained at 1.
  change (indentEach (gofile (g (extend d0 s)))) with (indentEach (gofile (g s))).
  match goal with |- context [assign ref_gofile ?P] => set (P1 := P) end.
  rewrite (genPrintOut_extend _ ref_pybuild).
  rewrite !assign_config, !assign_odir, ?extend_config, ?extend_odir.
  change (deref ref_pybuild (g (upd_g (assign ref_gofile P1) ?t))) with (pybuild (g t)).
  rewrite !print_delta_pybuild, Hb.
  unfold drained at 1.
  change (indentEach (pybuild (g (extend d0 s)))) with (indentEach (pybuild (g s))).
  match goal with |- context [assign ref_pybuild ?P] => set (P2 := P) end.
  rewrite (assign_extend ref_gofile) by reflexivity.
  rewrite (genPrintOut_extend _ ref_makefile).
  rewrite !assign_config, !assign_odir, ?extend_config, ?extend_odir.
  change (deref ref_makefile
            (g (upd_g (assign ref_pybuild P2) (upd_g (assign ref_gofile P1) ?t))))
    with (makefile (g t)).
  rewrite !print_delta_makefile, Hm.
  unfold drained at 1.
  change (indentEach (makefile (g (extend d0 s)))) with (indentEach (makefile (g s))).
  match goal with |- context [assign ref_makefile ?P] => set (P3 := P) end.
  rewrite !assign_extend by reflexivity.
  rewrite !extend_dapp, assign_three.
  subst P1 P2 P3. f_equal. f_equal.
  unfold d0. cbn [dconcat foldr]. by rewrite ?dapp_assoc, ?dapp_dempty_r.
Qed.

(** ** The whole run *)

Lemma extend_set_pywrap (d : Delta) (w : printer) (t : St) :
  d_wrap d = "" ->
  extend d (upd_g (set_pywrap w) t) = upd_g (set_pywrap w) (extend d t).
Proof.
  intros Hd. destruct t as [[] ? ?]. unfold extend, upd_g, set_pywrap. cbn.
  rewrite Hd. by rewrite Printf_nil.
Qed.

Lemma dconcat_pkg_delta_wrap (m : gset string) (c : Config) (ps : list Package) :
  d_wrap (dconcat (map (pkg_delta m c) ps)) = "".
Proof.
  induction ps as [|p ps IH]; [reflexivity|].
  cbn [map dconcat foldr dapp d_wrap]. fold (dconcat (map (pkg_delta m c) ps)).
  rewrite IH. reflexivity.
Qed.

Lemma body_delta_wrap (c : Config) :
  d_wrap (body_delta c) = wrap_text None (ext_calls_go (TargetSet Packages)).
Proof.
  unfold body_delta. cbn [dconcat foldr dapp d_wrap].
  rewrite dconcat_pkg_delta_wrap, emitted_wrap.
  cbn [pre_delta dconcat foldr dapp d_wrap d_gofile d_pybuild d_makefile d_event
       d_errors dempty].
  by rewrite ?string_app_nil_r.
Qed.

Lemma gen_body_run (s : St) :
  pkg (g s) = None ->
  (genPackageMap >>> genPre >>> genExtTypesGo >>> for_each Packages genPkg >>> genOut) s
  = flushed_shared (config_of (g s))
      (upd_g (set_pywrap
                (last_pywrap (config_of (g s))
                   (Printf (pywrap (g s))
                           (wrap_text None (ext_calls_go (TargetSet Packages))))))
         (extend (run_delta (config_of (g s)))
                 (reset_shared (upd_g (set_pkgmap (TargetSet Packages)) s)))).
Proof.
  intros Hs. unfold seq.
  rewrite genPackageMap_run, genPre_run.
  set (c := config_of (g s)). set (m := TargetSet Packages).
  set (t := reset_shared (upd_g (set_pkgmap m) s)).
  change (config_of (g (upd_g (set_pkgmap m) s))) with c.
  assert (Ht : pkg (g t) = None) by exact Hs.
  rewrite genExtTypesGo_extend, extend_dapp.
  rewrite extend_pkg, extend_pkgmap, Ht.
  change (pkgmap (g t)) with m.
  set (d1 := dapp (pre_delta c) (dapp (d_gofile ext_go_header) (emitted None (ext_calls_go m)))).
  rewrite pkgs_run by exact Ht.
  rewrite extend_pkgmap, extend_config.
  change (pkgmap (g t)) with m. change (config_of (g t)) with c.
  rewrite extend_dapp.
  set (d2 := dapp d1 (dconcat (map (pkg_delta m c) Packages))).
  rewrite genOut_run.
  change (config_of (g (upd_g _ (extend d2 t)))) with c.
  change (outname (g (upd_g _ (extend d2 t)))) with (c_outname c).
  change (buf (gofile (g (upd_g _ (extend d2 t))))) with (d_go d2).
  change (buf (pybuild (g (upd_g _ (extend d2 t))))) with (d_build d2).
  change (buf (makefile (g (upd_g _ (extend d2 t))))) with (d_make d2).
  change (odir (g (upd_g _ (extend d2 t)))) with (c_odir c).
  change (indentEach (gofile (g (upd_g _ (extend d2 t))))) with tab.
  change (indentEach (pybuild (g (upd_g _ (extend d2 t))))) with tab.
  change (indentEach (makefile (g (upd_g _ (extend d2 t))))) with tab.
  rewrite extend_set_pywrap by reflexivity.
  rewrite extend_dapp.
  assert (Hbody : dconcat [d2; d_pybuild (build_trailer c); d_gofile (nl +:+ nl);
                           d_makefile (nl +:+ nl)] = body_delta c).
  { unfold body_delta, d2, d1. fold m. cbn [dconcat foldr].
    rewrite ?dapp_assoc, ?dapp_dempty_r. reflexivity. }
  assert (Hgo : d_go d2 +:+ (nl +:+ nl) = glue_content c).
  { unfold glue_content. rewrite <- Hbody. cbn [dconcat foldr dapp d_go d_pybuild d_gofile
      d_makefile dempty]. rewrite ?string_app_nil_r. reflexivity. }
  assert (Hbuild : d_build d2 +:+ build_trailer c = build_content c).
  { unfold build_content. rewrite <- Hbody. cbn [dconcat foldr dapp d_build d_pybuild d_gofile
      d_makefile dempty]. rewrite ?string_app_nil_r. reflexivity. }
  assert (Hmake : d_make d2 +:+ (nl +:+ nl) = makefile_content c).
  { unfold makefile_content. rewrite <- Hbody. cbn [dconcat foldr dapp d_make d_pybuild d_gofile
      d_makefile dempty]. rewrite ?string_app_nil_r. reflexivity. }
  rewrite Hgo, Hbuild, Hmake.
  assert (Hrun : dapp d2
                   (dconcat
                      [d_pybuild (build_trailer c); d_gofile (nl +:+ nl);
                       d_makefile (nl +:+ nl);
                       print_delta c (c_outname c +:+ ".go") (glue_content c);
                       print_delta c "build.py" (build_content c);
                       print_delta c "Makefile" (makefile_content c)])
                 = run_delta c).
  { unfold run_delta, out_delta. rewrite <- Hbody. cbn [dconcat foldr].
    rewrite ?dapp_assoc, ?dapp_dempty_r. reflexivity. }
  rewrite Hrun. unfold last_pywrap, flushed_shared. fold m.
  do 3 f_equal.
  change (pywrap (g (extend d1 t))) with (Printf (pywrap (g s)) (d_wrap d1)).
  do 2 f_equal. unfold d1.
  cbn [dapp d_wrap pre_delta dconcat foldr d_gofile d_pybuild d_makefile d_event
       d_errors dempty].
  rewrite emitted_wrap. by rewrite ?string_app_nil_r.
Qed.

Lemma start_state_eq (s0 : St) :
  reset_shared
    (upd_g (set_pkgmap (TargetSet Packages))
       (os_log (EvMkdirAll (odir (g s0)) None) (upd_g (set_pkg None) s0)))
  = start_state s0.
Proof. reflexivity. Qed.

Lemma gen_ok (s0 : St) :
  os_MkdirAll rt (odir (g s0)) = None ->
  gen s0 = (result_of (err (g (final_state s0))), final_state s0).
Proof.
  intros Hmk. unfold gen. cbv zeta.
  change (odir (g (upd_g (set_pkg None) s0))) with (odir (g s0)).
  rewrite Hmk.
  rewrite gen_body_run by reflexivity.
  rewrite start_state_eq.
  change (config_of (g (os_log _ (upd_g (set_pkg None) s0)))) with (config_of (g s0)).
  change (pywrap (g (os_log _ (upd_g (set_pkg None) s0)))) with (pywrap (g s0)).
  fold (final_state s0).
  unfold result_of. destruct (err (g (final_state s0))); reflexivity.
Qed.

Lemma gen_fail (s0 : St) (e : error) :
  os_MkdirAll rt (odir (g s0)) = Some e ->
  gen s0 = (Some ("gopy: could not create output directory: " +:+ e),
            os_log (EvMkdirAll (odir (g s0)) (Some e)) (upd_g (set_pkg None) s0)).
Proof.
  intros Hmk. unfold gen. cbv zeta.
  change (odir (g (upd_g (set_pkg None) s0))) with (odir (g s0)).
  rewrite Hmk. reflexivity.
Qed.

(** ** What a run appends, component by component *)

Lemma dconcat_calls (l : list Delta) : d_calls (dconcat l) = flat_map d_calls l.
Proof. induction l as [|d l IH]; [done|]. cbn [dconcat foldr dapp d_calls flat_map]. by f_equal. Qed.

Lemma dconcat_os (l : list Delta) : d_os (dconcat l) = flat_map d_os l.
Proof. induction l as [|d l IH]; [done|]. cbn [dconcat foldr dapp d_os flat_map]. by f_equal. Qed.

Lemma dconcat_err (l : list Delta) : d_err (dconcat l) = flat_map d_err l.
Proof. induction l as [|d l IH]; [done|]. cbn [dconcat foldr dapp d_err flat_map]. by f_equal. Qed.

Lemma dconcat_go (l : list Delta) : d_go (dconcat l) = concat_strings (map d_go l).
Proof.
  induction l as [|d l IH]; [done|].
  cbn [dconcat foldr dapp d_go map concat_strings]. by f_equal.
Qed.

Lemma flat_map_map {A B C : Type} (f : A -> B) (h : B -> list C) (l : list A) :
  flat_map h (map f l) = flat_map (fun x => h (f x)) l.
Proof. induction l as [|x l IH]; [done|]. cbn [map flat_map]. by f_equal. Qed.

Lemma err_list_app (p : option Package) (cs1 cs2 : list Call) :
  err_list p (cs1 ++ cs2) = err_list p cs1 ++ err_list p cs2.
Proof. unfold err_list. apply flat_map_app. Qed.

Lemma genAll_delta_calls (p : Package) :
  d_calls (genAll_delta p) = flat_map (section_calls p) section_order.
Proof.
  unfold genAll_delta, section_order, section_delta.
  cbn [map dconcat foldr dapp d_calls d_gofile d_pywrap dempty flat_map].
  by rewrite !emitted_calls.
Qed.

Lemma genAll_delta_err (p : Package) :
  d_err (genAll_delta p) = err_list (Some p) (flat_map (section_calls p) section_order).
Proof.
  unfold genAll_delta, section_order, section_delta.
  cbn [map dconcat foldr dapp d_err d_gofile d_pywrap dempty flat_map].
  rewrite !emitted_err, !err_list_app. reflexivity.
Qed.

Lemma genAll_delta_os (p : Package) : d_os (genAll_delta p) = [].
Proof.
  unfold genAll_delta, section_order, section_delta.
  cbn [map dconcat foldr dapp d_os d_gofile d_pywrap dempty].
  by rewrite !emitted_os.
Qed.

Lemma genAll_delta_go (p : Package) :
  d_go (genAll_delta p)
  = pkg_go_header p
    +:+ concat_strings
          (map (fun k => go_header k +:+ go_text (Some p) (section_calls p k)) section_order).
Proof.
  unfold genAll_delta, section_order, section_delta.
  cbn [map dconcat foldr dapp d_go d_gofile d_pywrap dempty concat_strings].
  rewrite !emitted_go. cbn [go_header]. by rewrite ?string_app_nil_r.
Qed.

Lemma pkg_delta_calls (m : gset string) (c : Config) (p : Package) :
  d_calls (pkg_delta m c p) = pkg_calls m p.
Proof.
  unfold pkg_delta, wrapper_delta, pkg_calls, print_delta.
  cbn [dconcat foldr dapp d_calls strip_wrap d_pywrap d_event d_errors dempty].
  rewrite emitted_calls, genAll_delta_calls. by rewrite !app_nil_r.
Qed.

Lemma pkg_delta_os (m : gset string) (c : Config) (p : Package) :
  d_os (pkg_delta m c p)
  = print_events c (tp_Name (p_pkg p) +:+ ".py") (wrapper_content m c p).
Proof.
  unfold pkg_delta, wrapper_delta, print_delta, print_events.
  cbn [dconcat foldr dapp d_os strip_wrap d_pywrap d_event d_errors dempty].
  rewrite emitted_os, genAll_delta_os. reflexivity.
Qed.

Lemma pkg_delta_err (m : gset string) (c : Config) (p : Package) :
  d_err (pkg_delta m c p)
  = err_list (Some p) (pkg_calls m p)
    ++ print_errors c (tp_Name (p_pkg p) +:+ ".py") (wrapper_content m c p).
Proof.
  unfold pkg_delta, wrapper_delta, print_delta, print_errors, pkg_calls.
  cbn [dconcat foldr dapp d_err strip_wrap d_pywrap d_event d_errors dempty].
  rewrite emitted_err, genAll_delta_err, err_list_app.
  by rewrite ?app_nil_r, <- ?(assoc_L (++)).
Qed.

Lemma pkg_delta_go (m : gset string) (c : Config) (p : Package) :
  d_go (pkg_delta m c p) = pkg_go_text m p.
Proof.
  unfold pkg_delta, wrapper_delta, print_delta, pkg_go_text.
  cbn [dconcat foldr dapp d_go strip_wrap d_pywrap d_event d_errors dempty].
  rewrite emitted_go, genAll_delta_go.
  by rewrite ?string_app_nil_r, ?string_app_assoc.
Qed.

Lemma print_delta_os (c : Config) (outfn data : string) :
  d_os (print_delta c outfn data) = print_events c outfn data.
Proof. reflexivity. Qed.

Lemma print_delta_err (c : Config) (outfn data : string) :
  d_err (print_delta c outfn data) = print_errors c outfn data.
Proof.
  unfold print_delta, print_errors.
  cbn [dconcat foldr dapp d_err d_event d_errors dempty]. by rewrite ?app_nil_r.
Qed.

Lemma print_delta_calls (c : Config) (outfn data : string) :
  d_calls (print_delta c outfn data) = [].
Proof. reflexivity. Qed.

Lemma run_delta_calls (c : Config) : d_calls (run_delta c) = run_calls.
Proof.
  unfold run_delta, body_delta, out_delta, run_calls.
  cbn [dconcat foldr dapp d_calls].
  rewrite !print_delta_calls, emitted_calls.
  fold (dconcat (map (pkg_delta (TargetSet Packages) c) Packages)).
  rewrite dconcat_calls, flat_map_map.
  rewrite (flat_map_ext _ (pkg_calls (TargetSet Packages)))
    by (intros p; apply pkg_delta_calls).
  cbn [pre_delta dconcat foldr dapp d_calls d_gofile d_pybuild d_makefile d_event
       d_errors dempty app].
  by rewrite ?app_nil_r.
Qed.

Lemma run_delta_os (c : Config) : d_os (run_delta c) = run_events c.
Proof.
  unfold run_delta, body_delta, out_delta, run_events.
  cbn [dconcat foldr dapp d_os].
  rewrite !print_delta_os, emitted_os.
  fold (dconcat (map (pkg_delta (TargetSet Packages) c) Packages)).
  rewrite dconcat_os, flat_map_map.
  rewrite (flat_map_ext _
             (fun p => print_events c (tp_Name (p_pkg p) +:+ ".py")
                         (wrapper_content (TargetSet Packages) c p)))
    by (intros p; apply pkg_delta_os).
  cbn [pre_delta dconcat foldr dapp d_os d_gofile d_pybuild d_makefile d_event
       d_errors dempty app].
  by rewrite ?app_nil_r, <- ?(assoc_L (++)).
Qed.

Lemma run_delta_err (c : Config) : d_err (run_delta c) = run_errors c.
Proof.
  unfold run_delta, body_delta, out_delta, run_errors.
  cbn [dconcat foldr dapp d_err].
  rewrite !print_delta_err, emitted_err.
  fold (dconcat (map (pkg_delta (TargetSet Packages) c) Packages)).
  rewrite dconcat_err, flat_map_map.
  rewrite (flat_map_ext _
             (fun p => err_list (Some p) (pkg_calls (TargetSet Packages) p)
                       ++ print_errors c (tp_Name (p_pkg p) +:+ ".py")
                            (wrapper_content (TargetSet Packages) c p)))
    by (intros p; apply pkg_delta_err).
  cbn [pre_delta dconcat foldr dapp d_err d_gofile d_pybuild d_makefile d_event
       d_errors dempty app].
  by rewrite ?app_nil_r, <- ?(assoc_L (++)).
Qed.

Lemma glue_content_eq (c : Config) :
  glue_content c
  = go_preamble_text c
    +:+ ext_go_header
    +:+ go_text None (ext_calls_go (TargetSet Packages))
    +:+ concat_strings (map (pkg_go_text (TargetSet Packages)) Packages)
    +:+ nl +:+ nl.
Proof.
  unfold glue_content, body_delta.
  cbn [dconcat foldr dapp d_go].
  fold (dconcat (map (pkg_delta (TargetSet Packages) c) Packages)).
  rewrite dconcat_go, map_map, emitted_go.
  rewrite (map_ext _ (pkg_go_text (TargetSet Packages)))
    by (intros p; apply pkg_delta_go).
  cbn [pre_delta dconcat foldr dapp d_go d_gofile d_pybuild d_makefile d_event
       d_errors dempty].
  by rewrite ?string_app_nil_r, ?string_app_assoc.
Qed.

Lemma dconcat_build (l : list Delta) : d_build (dconcat l) = concat_strings (map d_build l).
Proof.
  induction l as [|d l IH]; [done|].
  cbn [dconcat foldr dapp d_build map concat_strings]. by f_equal.
Qed.

Lemma dconcat_make (l : list Delta) : d_make (dconcat l) = concat_strings (map d_make l).
Proof.
  induction l as [|d l IH]; [done|].
  cbn [dconcat foldr dapp d_make map concat_strings]. by f_equal.
Qed.

Lemma build_text_app (p : option Package) (cs1 cs2 : list Call) :
  build_text p (cs1 ++ cs2) = build_text p cs1 +:+ build_text p cs2.
Proof. unfold build_text. by rewrite map_app, concat_strings_app. Qed.

Lemma genAll_delta_build (p : Package) :
  d_build (genAll_delta p) = build_text (Some p) (flat_map (section_calls p) section_order).
Proof.
  unfold genAll_delta, section_order, section_delta.
  cbn [map dconcat foldr dapp d_build d_gofile d_pywrap dempty flat_map].
  rewrite !emitted_build, !build_text_app. cbn [build_text map concat_strings foldr].
  by rewrite ?string_app_nil_r.
Qed.

Lemma genAll_delta_make (p : Package) : d_make (genAll_delta p) = "".
Proof.
  unfold genAll_delta, section_order, section_delta.
  cbn [map dconcat foldr dapp d_make d_gofile d_pywrap dempty].
  by rewrite !emitted_make.
Qed.

Lemma pkg_delta_build (m : gset string) (c : Config) (p : Package) :
  d_build (pkg_delta m c p) = pkg_build_text m p.
Proof.
  unfold pkg_delta, wrapper_delta, print_delta, pkg_build_text, pkg_calls.
  cbn [dconcat foldr dapp d_build strip_wrap d_pywrap d_event d_errors dempty].
  rewrite emitted_build, genAll_delta_build, build_text_app.
  by rewrite ?string_app_nil_r.
Qed.

Lemma pkg_delta_make (m : gset string) (c : Config) (p : Package) :
  d_make (pkg_delta m c p) = "".
Proof.
  unfold pkg_delta, wrapper_delta, print_delta.
  cbn [dconcat foldr dapp d_make strip_wrap d_pywrap d_event d_errors dempty].
  by rewrite emitted_make, genAll_delta_make.
Qed.

Lemma concat_strings_empty {A : Type} (l : list A) :
  concat_strings (map (fun _ => "") l) = "".
Proof. induction l as [|x l IH]; [done|]. cbn [map concat_strings foldr]. exact IH. Qed.

Lemma build_content_eq (c : Config) :
  build_content c
  = PyBuildPreamble (c_outname c) (c_cmdstr c)
    +:+ build_text None (ext_calls_go (TargetSet Packages))
    +:+ concat_strings (map (pkg_build_text (TargetSet Packages)) Packages)
    +:+ build_trailer c.
Proof.
  unfold build_content, body_delta.
  cbn [dconcat foldr dapp d_build].
  fold (dconcat (map (pkg_delta (TargetSet Packages) c) Packages)).
  rewrite dconcat_build, map_map, emitted_build.
  rewrite (map_ext _ (pkg_build_text (TargetSet Packages)))
    by (intros p; apply pkg_delta_build).
  cbn [pre_delta dconcat foldr dapp d_build d_gofile d_pybuild d_makefile d_event
       d_errors dempty].
  by rewrite ?string_app_nil_r, ?string_app_assoc.
Qed.

Lemma makefile_content_eq (c : Config) :
  makefile_content c = makefile_text c +:+ nl +:+ nl.
Proof.
  unfold makefile_content, body_delta.
  cbn [dconcat foldr dapp d_make].
  fold (dconcat (map (pkg_delta (TargetSet Packages) c) Packages)).
  rewrite dconcat_make, map_map, emitted_make.
  rewrite (map_ext _ (fun _ => "")) by (intros p; apply pkg_delta_make).
  rewrite concat_strings_empty.
  cbn [pre_delta dconcat foldr dapp d_make d_gofile d_pybuild d_makefile d_event
       d_errors dempty].
  by rewrite ?string_app_nil_r, ?string_app_assoc.
Qed.

Lemma final_state_calls (s0 : St) : calls (final_state s0) = calls s0 ++ run_calls.
Proof.
  unfold final_state. cbn [flushed_shared upd_g calls extend start_state].
  by rewrite run_delta_calls.
Qed.

Lemma final_state_os (s0 : St) :
  os_trace (final_state s0)
  = os_trace s0 ++ EvMkdirAll (odir (g s0)) None :: run_events (config_of (g s0)).
Proof.
  unfold final_state. cbn [flushed_shared upd_g os_trace extend start_state].
  rewrite run_delta_os. by rewrite <- (assoc_L (++)).
Qed.

Lemma final_state_err (s0 : St) :
  err (g (final_state s0)) = err (g s0) ++ run_errors (config_of (g s0)).
Proof.
  unfold final_state.
  cbn [flushed_shared upd_g g err extend start_state set_pywrap set_gofile set_pybuild
       set_makefile].
  by rewrite run_delta_err.
Qed.

Lemma final_state_pkg (s0 : St) : pkg (g (final_state s0)) = None.
Proof. reflexivity. Qed.

(** * Properties of the passes and of a run *)

(** ** External types *)

Lemma elem_of_TargetSet (ps : list Package) (x : string) :
  x ∈ TargetSet ps <-> exists q, In q ps /\ tp_Path (p_pkg q) = x.
Proof.
  unfold TargetSet. rewrite elem_of_list_to_set, list_elem_of_In, in_map_iff.
  split; intros (q & H1 & H2); exists q; tauto.
Qed.

(** After the external-type pass no call has the flags of that pass. *)
Lemma pkg_calls_not_glue_pass (m : gset string) (q : Package) (c : Call) :
  In c (pkg_calls m q) -> forall y, c <> genType_call y true false.
Proof.
  intros Hc y. unfold pkg_calls in Hc. apply in_app_iff in Hc as [Hc|Hc].
  - apply in_map_iff in Hc as (z & <- & _). discriminate.
  - apply in_flat_map in Hc as (k & _ & Hc).
    destruct k; cbn [section_calls] in Hc.
    + apply in_map_iff in Hc as (z & <- & _). discriminate.
    + apply in_map_iff in Hc as (z & <- & _). discriminate.
    + apply in_flat_map in Hc as (v & _ & [<-|[<-|[]]]); discriminate.
    + apply in_map_iff in Hc as (z & <- & _). discriminate.
    + apply in_map_iff in Hc as (z & <- & _). discriminate.
    + apply in_flat_map in Hc as (x & _ & Hc).
      apply in_map_iff in Hc as (z & <- & _). discriminate.
    + apply in_map_iff in Hc as (z & <- & _). discriminate.
Qed.

Lemma genType_call_ext_inj (w : bool) :
  Finite.Injective (fun y : symbol => genType_call y true w).
Proof. intros a b H. by injection H. Qed.

Lemma in_ext_calls_go (m : gset string) (y : symbol) :
  In (genType_call y true false) (ext_calls_go m)
  <-> In y global_syms /\ isType y = true /\ tp_Path (gopkg y) ∉ m.
Proof.
  unfold ext_calls_go, ext_types. rewrite in_map_iff. split.
  - intros (z & Hz & Hin). injection Hz as ->.
    apply filter_In in Hin as [Hin Hext]. unfold is_external in Hext.
    apply andb_true_iff in Hext as [Ht Hm]. repeat split; [done..|].
    apply negb_true_iff, bool_decide_eq_false in Hm. exact Hm.
  - intros (Hin & Ht & Hm). exists y. split; [done|].
    apply filter_In. split; [done|]. unfold is_external. rewrite Ht. cbn.
    apply negb_true_iff, bool_decide_eq_false. exact Hm.
Qed.

(** C4: the external-type pass calls [genType] for exactly the type
    symbols whose package path is outside the target set, in the order of
    the global symbol list, each of them once, and appends what these
    calls emit to the glue buffer after the header of the pass; the
    wrapper pass of a package does the same into the wrapper buffer. No
    type symbol of a target package is emitted in the pass. The target
    set that [genPackageMap] computes holds the paths of [Packages], and
    in a run the calls of the pass are made once, before every other. *)
Theorem external_types_emitted_exactly_once (s : St) :
  List.NoDup global_syms ->
  pkgmap (g (genPackageMap s)) = TargetSet Packages
  /\ (forall x, x ∈ TargetSet Packages
                <-> exists q, In q Packages /\ tp_Path (p_pkg q) = x)
  /\ calls (genExtTypesGo s)
    = calls s ++ map (fun y => genType_call y true false)
                     (List.filter (is_external (pkgmap (g s))) global_syms)
  /\ buf (gofile (g (genExtTypesGo s)))
     = buf (gofile (g s)) +:+ ext_go_header
       +:+ go_text (pkg (g s)) (ext_calls_go (pkgmap (g s)))
  /\ calls (genExtTypesPyWrap s)
     = calls s ++ map (fun y => genType_call y true true)
                      (List.filter (is_external (pkgmap (g s))) global_syms)
  /\ buf (pywrap (g (genExtTypesPyWrap s)))
     = buf (pywrap (g s)) +:+ ext_wrap_header
       +:+ wrap_text (pkg (g s)) (ext_calls_wrap (pkgmap (g s)))
  /\ List.NoDup (ext_calls_go (pkgmap (g s)))
  /\ List.NoDup (ext_calls_wrap (pkgmap (g s)))
  /\ (forall y, In (genType_call y true false) (ext_calls_go (pkgmap (g s)))
                <-> In y global_syms /\ isType y = true
                    /\ tp_Path (gopkg y) ∉ pkgmap (g s))
  /\ (forall y, isType y = true -> tp_Path (gopkg y) ∈ pkgmap (g s) ->
                ~ In (genType_call y true false) (ext_calls_go (pkgmap (g s))))
  /\ (forall s0, os_MkdirAll rt (odir (g s0)) = None ->
       exists rest,
         calls (snd (gen s0)) = calls s0 ++ ext_calls_go (TargetSet Packages) ++ rest
         /\ forall c y, In c rest -> c <> genType_call y true false).
Proof.
  intros Hnd.
  rewrite genExtTypesGo_extend, genExtTypesPyWrap_extend.
  cbn [extend calls g gofile pywrap buf Printf dapp d_calls d_go d_wrap d_gofile d_pywrap].
  rewrite !emitted_calls, emitted_go, emitted_wrap, genPackageMap_run.
  split_and!.
  - reflexivity.
  - intros x. apply elem_of_TargetSet.
  - reflexivity.
  - reflexivity.
  - reflexivity.
  - reflexivity.
  - apply Finite.Injective_map_NoDup; [apply genType_call_ext_inj|].
    by apply List.NoDup_filter.
  - apply Finite.Injective_map_NoDup; [apply genType_call_ext_inj|].
    by apply List.NoDup_filter.
  - intros y. apply in_ext_calls_go.
  - intros y Ht Hm Hin. apply in_ext_calls_go in Hin as (_ & _ & Hn). by apply Hn.
  - intros s0 Hmk. exists (flat_map (pkg_calls (TargetSet Packages)) Packages). split.
    + rewrite (gen_ok s0 Hmk). cbn [snd]. apply final_state_calls.
    + intros c y Hc. apply in_flat_map in Hc as (q & _ & Hc).
      exact (pkg_calls_not_glue_pass _ q c Hc y).
Qed.


(** ** The sections of a package *)

Lemma section_calls_rank (p : Package) (k : DeclKind) :
  Forall (fun c => call_rank c = kind_rank k) (section_calls p k).
Proof.
  destruct k; cbn [section_calls kind_rank].
  - apply Forall_forall. intros c Hc. apply list_elem_of_In, in_map_iff in Hc as (y & <- & _). done.
  - apply Forall_forall. intros c Hc. apply list_elem_of_In, in_map_iff in Hc as (y & <- & _). done.
  - apply Forall_forall. intros c Hc.
    apply list_elem_of_In, in_flat_map in Hc as (v & _ & Hc).
    destruct Hc as [<-|[<-|[]]]; done.
  - apply Forall_forall. intros c Hc. apply list_elem_of_In, in_map_iff in Hc as (y & <- & _). done.
  - apply Forall_forall. intros c Hc. apply list_elem_of_In, in_map_iff in Hc as (y & <- & _). done.
  - apply Forall_forall. intros c Hc.
    apply list_elem_of_In, in_flat_map in Hc as (x & _ & Hc).
    apply in_map_iff in Hc as (f & <- & _). done.
  - apply Forall_forall. intros c Hc. apply list_elem_of_In, in_map_iff in Hc as (y & <- & _). done.
Qed.

Lemma same_rank_sorted (r : nat) (cs : list Call) :
  Forall (fun c => call_rank c = r) cs -> StronglySorted rank_le cs.
Proof.
  induction 1 as [|c cs Hc Hcs IH]; [constructor|].
  constructor; [exact IH|].
  eapply Forall_impl; [exact Hcs|]. intros d Hd. cbv beta in Hd. unfold rank_le. lia.
Qed.

Lemma sections_sorted (p : Package) (ks : list DeclKind) :
  StronglySorted (fun a b => kind_rank a <= kind_rank b) ks ->
  StronglySorted rank_le (flat_map (section_calls p) ks).
Proof.
  induction 1 as [|k ks Hks IH Hk]; [constructor|].
  cbn [flat_map]. apply StronglySorted_app_2; [|by eapply same_rank_sorted, section_calls_rank|exact IH].
  intros c1 c2 H1 H2.
  apply list_elem_of_In, in_flat_map in H2 as (k2 & Hk2 & H2).
  pose proof (section_calls_rank p k) as F1. rewrite Forall_forall in F1.
  pose proof (section_calls_rank p k2) as F2. rewrite Forall_forall in F2.
  rewrite Forall_forall in Hk. apply list_elem_of_In in Hk2, H2.
  specialize (F1 _ H1). specialize (F2 _ H2). specialize (Hk _ Hk2).
  cbv beta in F1, F2, Hk. unfold rank_le. lia.
Qed.

Lemma section_order_sorted :
  StronglySorted (fun a b => kind_rank a <= kind_rank b) section_order.
Proof. unfold section_order. repeat constructor; cbn; lia. Qed.

(** C5: [genAll] makes the calls of a package section by section in the
    order types, constants, variables, interfaces, structs, constructors,
    functions, whatever the lists of the package hold, and appends their
    text to the glue buffer and to the wrapper buffer in that order; a
    run handles the packages in the order of [Packages]. *)
Theorem sections_in_fixed_order (p : Package) (s s0 : St) :
  pkg (g s) = Some p ->
  os_MkdirAll rt (odir (g s0)) = None ->
  section_order
    = [KTypes; KConstants; KVariables; KInterfaces; KStructs; KConstructors; KFunctions]
  /\ calls (genAll s) = calls s ++ flat_map (section_calls p) section_order
  /\ buf (gofile (g (genAll s)))
     = buf (gofile (g s)) +:+ pkg_go_header p
       +:+ concat_strings
             (map (fun k => go_header k +:+ go_text (Some p) (section_calls p k))
                  section_order)
  /\ buf (pywrap (g (genAll s)))
     = buf (pywrap (g s))
       +:+ concat_strings
             (map (fun k => wrap_header k +:+ wrap_text (Some p) (section_calls p k))
                  section_order)
  /\ StronglySorted rank_le (flat_map (section_calls p) section_order)
  /\ calls (snd (gen s0))
     = calls s0 ++ ext_calls_go (TargetSet Packages)
       ++ flat_map (fun q => ext_calls_wrap (TargetSet Packages)
                             ++ flat_map (section_calls q) section_order) Packages
  /\ (forall c : Config,
        glue_content c
        = go_preamble_text c +:+ ext_go_header
          +:+ go_text None (ext_calls_go (TargetSet Packages))
          +:+ concat_strings (map (pkg_go_text (TargetSet Packages)) Packages)
          +:+ nl +:+ nl).
Proof.
  intros Hp Hmk.
  rewrite (genAll_appends p s Hp), (gen_ok s0 Hmk).
  cbn [extend calls g gofile pywrap buf Printf snd].
  rewrite genAll_delta_calls, genAll_delta_go, genAll_delta_wrap, final_state_calls.
  split_and!; try reflexivity.
  - apply sections_sorted, section_order_sorted.
  - apply glue_content_eq.
Qed.

(** ** Variables and constants *)

Lemma filter_none {A : Type} (f : A -> bool) (l : list A) :
  (forall x, In x l -> f x = false) -> List.filter f l = [].
Proof.
  induction l as [|x l IH]; [reflexivity|]. intros H.
  cbn [List.filter]. rewrite (H x) by (left; reflexivity).
  apply IH. intros y Hy. apply H. by right.
Qed.

Lemma filter_rank_sections (p : Package) (f : Call -> bool) (r : nat) (ks : list DeclKind) :
  (forall c, f c = true <-> call_rank c = r) ->
  List.filter f (flat_map (section_calls p) ks)
  = flat_map (section_calls p) (List.filter (fun k => Nat.eqb (kind_rank k) r) ks).
Proof.
  intros Hf. induction ks as [|k ks IH]; [reflexivity|].
  cbn [flat_map List.filter]. rewrite List.filter_app, IH.
  pose proof (section_calls_rank p k) as Hk. rewrite Forall_forall in Hk.
  destruct (Nat.eqb_spec (kind_rank k) r) as [E|E].
  - cbn [flat_map]. f_equal. apply List.forallb_filter_id, forallb_forall.
    intros c Hc. apply Hf. rewrite <- E. apply Hk, list_elem_of_In, Hc.
  - rewrite <- (app_nil_l (flat_map _ _)). f_equal.
    apply filter_none. intros c Hc.
    destruct (f c) eqn:Efc; [|reflexivity].
    exfalso. apply E. apply Hf in Efc. rewrite <- Efc. symmetry.
    apply Hk, list_elem_of_In, Hc.
Qed.

Lemma is_var_call_rank (c : Call) : is_var_call c = true <-> call_rank c = 2.
Proof. destruct c; cbn; split; congruence. Qed.

Lemma is_const_call_rank (c : Call) : is_const_call c = true <-> call_rank c = 1.
Proof. destruct c; cbn; split; congruence. Qed.

Lemma length_var_calls (vs : list Var) :
  length (flat_map (fun v => [genVarGetter_call v; genVarSetter_call v]) vs) = 2 * length vs.
Proof. induction vs as [|v vs IH]; [reflexivity|]. cbn [flat_map app length]. lia. Qed.

Lemma filter_flat_map {A B : Type} (f : B -> bool) (h : A -> list B) (l : list A) :
  List.filter f (flat_map h l) = flat_map (fun x => List.filter f (h x)) l.
Proof.
  induction l as [|x l IH]; [reflexivity|].
  cbn [flat_map]. by rewrite List.filter_app, IH.
Qed.

Lemma is_var_call_not_type (c : Call) : is_var_call c = true -> call_rank c <> 0.
Proof. by destruct c. Qed.

Lemma is_const_call_not_type (c : Call) : is_const_call c = true -> call_rank c <> 0.
Proof. by destruct c. Qed.

Lemma filter_no_types (f : Call -> bool) (w : bool) (m : gset string) :
  (forall c, f c = true -> call_rank c <> 0) ->
  List.filter f (map (fun y => genType_call y true w) (ext_types m)) = [].
Proof.
  intros Hf. apply filter_none. intros c Hc.
  apply in_map_iff in Hc as (y & <- & _).
  destruct (f (genType_call y true w)) eqn:E; [|reflexivity].
  apply Hf in E. by destruct E.
Qed.

Lemma var_calls_of_sections (p : Package) :
  List.filter is_var_call (flat_map (section_calls p) section_order)
  = flat_map (fun v => [genVarGetter_call v; genVarSetter_call v]) (vars p).
Proof.
  rewrite (filter_rank_sections p is_var_call 2 _ is_var_call_rank).
  cbn [section_order List.filter kind_rank Nat.eqb flat_map section_calls].
  apply app_nil_r.
Qed.

Lemma const_calls_of_sections (p : Package) :
  List.filter is_const_call (flat_map (section_calls p) section_order)
  = map genConstValue_call (consts p).
Proof.
  rewrite (filter_rank_sections p is_const_call 1 _ is_const_call_rank).
  cbn [section_order List.filter kind_rank Nat.eqb flat_map section_calls].
  apply app_nil_r.
Qed.

Lemma var_calls_of_run :
  List.filter is_var_call run_calls
  = flat_map (fun q => flat_map (fun v => [genVarGetter_call v; genVarSetter_call v]) (vars q))
             Packages.
Proof.
  unfold run_calls, ext_calls_go.
  rewrite List.filter_app, (filter_no_types _ _ _ is_var_call_not_type), app_nil_l.
  rewrite filter_flat_map. apply flat_map_ext. intros q. unfold pkg_calls, ext_calls_wrap.
  rewrite List.filter_app, (filter_no_types _ _ _ is_var_call_not_type), app_nil_l.
  apply var_calls_of_sections.
Qed.

Lemma const_calls_of_run :
  List.filter is_const_call run_calls
  = flat_map (fun q => map genConstValue_call (consts q)) Packages.
Proof.
  unfold run_calls, ext_calls_go.
  rewrite List.filter_app, (filter_no_types _ _ _ is_const_call_not_type), app_nil_l.
  rewrite filter_flat_map. apply flat_map_ext. intros q. unfold pkg_calls, ext_calls_wrap.
  rewrite List.filter_app, (filter_no_types _ _ _ is_const_call_not_type), app_nil_l.
  apply const_calls_of_sections.
Qed.

(** C9: [genVar] makes two emitter calls for a variable, the getter and
    then the setter, and [genConst] makes one call for a constant, its
    value; among the calls of [genAll] for a package, and among the calls
    of a whole run, the calls for variables are exactly these pairs, one
    per variable, and the calls for constants are exactly the values,
    one per constant. *)
Theorem variable_pair_constant_single (p : Package) (s s0 : St) :
  pkg (g s) = Some p ->
  os_MkdirAll rt (odir (g s0)) = None ->
  (forall v s', calls (genVar v s') = calls s' ++ [genVarGetter_call v; genVarSetter_call v])
  /\ (forall k s', calls (genConst k s') = calls s' ++ [genConstValue_call k])
  /\ (exists cs,
        calls (genAll s) = calls s ++ cs
        /\ List.filter is_var_call cs
           = flat_map (fun v => [genVarGetter_call v; genVarSetter_call v]) (vars p)
        /\ List.filter is_const_call cs = map genConstValue_call (consts p)
        /\ length (List.filter is_var_call cs) = 2 * length (vars p)
        /\ length (List.filter is_const_call cs) = length (consts p))
  /\ (exists cs,
        calls (snd (gen s0)) = calls s0 ++ cs
        /\ List.filter is_var_call cs
           = flat_map (fun q => flat_map (fun v => [genVarGetter_call v; genVarSetter_call v])
                                         (vars q)) Packages
        /\ List.filter is_const_call cs
           = flat_map (fun q => map genConstValue_call (consts q)) Packages).
Proof.
  intros Hp Hmk. split_and!.
  - intros v s'. rewrite genVar_extend. cbn [extend calls]. by rewrite emitted_calls.
  - intros k s'. unfold genConst, genConstValue. rewrite run_emitter_extend.
    cbn [extend calls]. by rewrite emitted_calls.
  - exists (flat_map (section_calls p) section_order). split_and!.
    + rewrite (genAll_appends p s Hp). cbn [extend calls]. by rewrite genAll_delta_calls.
    + apply var_calls_of_sections.
    + apply const_calls_of_sections.
    + rewrite var_calls_of_sections. apply length_var_calls.
    + rewrite const_calls_of_sections. apply length_map.
  - exists run_calls. split_and!.
    + rewrite (gen_ok s0 Hmk). cbn [snd]. apply final_state_calls.
    + apply var_calls_of_run.
    + apply const_calls_of_run.
Qed.

(** ** Wrapper files *)

Lemma close_pkg_fresh (u : string) (d : Delta) (w : printer) (s : St) :
  d_wrap d = "" ->
  close_pkg u (extend d (upd_g (set_pywrap w) s)) = close_pkg u (extend d s).
Proof. intros _. by destruct s as [[] ? ?]. Qed.

Lemma pkg_delta_wrap (m : gset string) (c : Config) (p : Package) :
  d_wrap (pkg_delta m c p) = "".
Proof. reflexivity. Qed.

(** ** Errors *)

(** C2, as amended: when the output directory cannot be created, [gen]
    returns at once. The error it returns is the directory failure with
    a fixed prefix; the error list, the buffers and the emitter trace are
    as they were, and the directory call is the only file system call. *)
Theorem mkdir_failure_aborts (s0 : St) (e : error) :
  os_MkdirAll rt (odir (g s0)) = Some e ->
  fst (gen s0) = Some ("gopy: could not create output directory: " +:+ e)
  /\ err (g (snd (gen s0))) = err (g s0)
  /\ os_trace (snd (gen s0)) = os_trace s0 ++ [EvMkdirAll (odir (g s0)) (Some e)]
  /\ calls (snd (gen s0)) = calls s0
  /\ gofile (g (snd (gen s0))) = gofile (g s0)
  /\ pybuild (g (snd (gen s0))) = pybuild (g s0)
  /\ pywrap (g (snd (gen s0))) = pywrap (g s0)
  /\ makefile (g (snd (gen s0))) = makefile (g s0).
Proof. intros Hmk. rewrite (gen_fail s0 e Hmk). by split_and!. Qed.

Lemma result_of_nil (l : ErrorList) : result_of l = None <-> l = [].
Proof. destruct l; cbn; split; congruence. Qed.

(** C3, as amended: when the output directory could be created, [gen]
    returns nil exactly when the error list is empty at the end, and
    otherwise one error whose text is the concatenation of the messages
    of the list; the list holds the errors in the order they were met:
    the marker file, the external types, then package by package the
    emitters and the wrapper file, then the three shared files. When the
    directory could not be created, [gen] returns the directory error
    and leaves the error list as it was. *)
Theorem gen_returned_error (s0 : St) :
  match os_MkdirAll rt (odir (g s0)) with
  | None =>
      (fst (gen s0) = None <-> err (g (snd (gen s0))) = [])
      /\ (err (g (snd (gen s0))) <> [] ->
          fst (gen s0) = Some (concat_strings (err (g (snd (gen s0))))))
      /\ err (g (snd (gen s0)))
         = err (g s0)
           ++ option_list (os_Create rt (init_path (config_of (g s0))))
           ++ err_list None (ext_calls_go (TargetSet Packages))
           ++ flat_map (fun p =>
                err_list (Some p) (pkg_calls (TargetSet Packages) p)
                ++ print_errors (config_of (g s0)) (tp_Name (p_pkg p) +:+ ".py")
                     (wrapper_content (TargetSet Packages) (config_of (g s0)) p)) Packages
           ++ print_errors (config_of (g s0)) (outname (g s0) +:+ ".go")
                (glue_content (config_of (g s0)))
           ++ print_errors (config_of (g s0)) "build.py" (build_content (config_of (g s0)))
           ++ print_errors (config_of (g s0)) "Makefile"
                (makefile_content (config_of (g s0)))
  | Some e =>
      fst (gen s0) = Some ("gopy: could not create output directory: " +:+ e)
      /\ err (g (snd (gen s0))) = err (g s0)
  end.
Proof.
  destruct (os_MkdirAll rt (odir (g s0))) as [e|] eqn:Hmk.
  - rewrite (gen_fail s0 e Hmk). by split.
  - rewrite (gen_ok s0 Hmk). cbn [fst snd]. split_and!.
    + apply result_of_nil.
    + destruct (err (g (final_state s0))); [done|reflexivity].
    + apply final_state_err.
Qed.

End Generator.

(** * Properties of the fixed text and of concrete runs *)

(** ** The boolean codec *)

(** C6: the codec that the glue preamble carries encodes true as 1 and
    false as 0, and decodes 0 as false and every other byte as true; so
    decoding an encoded boolean gives it back, and a nonzero byte other
    than 1 decodes to true too. *)
Theorem bool_codec_two_way (b : bool) (c : Z) :
  boolGoToPy true = 1%Z
  /\ boolGoToPy false = 0%Z
  /\ boolPyToGo 0 = false
  /\ boolPyToGo c = negb (c =? 0)%Z
  /\ (c <> 0%Z -> boolPyToGo c = true)
  /\ (c <> 0%Z -> c <> 1%Z -> boolPyToGo c = true)
  /\ boolPyToGo (boolGoToPy b) = b
  /\ (forall a1 a2 a3 a4 a5 a6 : string,
        exists head : string, goPreamble a1 a2 a3 a4 a5 a6 = head +:+ boolCodecSource).
Proof.
  assert (Hnz : c <> 0%Z -> boolPyToGo c = true).
  { intros Hc. unfold boolPyToGo. by apply Z.eqb_neq in Hc as ->. }
  split_and!; try reflexivity.
  - unfold boolPyToGo. by destruct (c =? 0)%Z.
  - exact Hnz.
  - intros Hc _. by apply Hnz.
  - by destruct b.
  - intros. eexists. reflexivity.
Qed.

(** ** The generate-only command line *)

(** C7, at inputs where it fails: an override that ends the command line
    stays in the generate-only variant, and so does a second override
    and an override at the very start; the recipe then carries it. *)
Theorem gencmd_keeps_some_overrides :
  gencmd_of "gopy build github.com/x/geom -output=out"
    = "gopy gen github.com/x/geom -output=out"
  /\ strings_Contains (gencmd_of "gopy build github.com/x/geom -output=out") "-output=" = true
  /\ gencmd_of "gopy build -output=a -output=b github.com/x/geom"
     = "gopy gen -output=b github.com/x/geom"
  /\ StripOutputFromCmd "-output=out github.com/x/geom" = "-output=out github.com/x/geom"
  /\ strings_Contains
       (makefile_text
          {| c_odir := "out"; c_outname := "geom";
             c_cmdstr := "gopy build github.com/x/geom -output=out";
             c_vm := "python3"; c_libext := ".so" |})
       ("gen:" +:+ nl +:+ tab +:+ "gopy gen github.com/x/geom -output=out" +:+ nl) = true
  /\ gencmd_of "gopy build -output=out -vm=python3 github.com/x/geom"
     = "gopy gen -vm=python3 github.com/x/geom".
Proof. vm_compute. by split_and!. Qed.

(** ** When the override is removed *)

Lemma string_length_app (a b : string) :
  String.length (a +:+ b) = String.length a + String.length b.
Proof. induction a as [|c a IH]; [reflexivity|]. cbn. unfold String.app in *. cbn. by rewrite IH. Qed.

Lemma substring_all (a : string) : String.substring 0 (String.length a) a = a.
Proof. induction a as [|c a IH]; [reflexivity|]. cbn. by rewrite IH. Qed.

Lemma substring_app_l (a b : string) :
  String.substring 0 (String.length a) (a +:+ b) = a.
Proof.
  induction a as [|c a IH].
  - cbn. by destruct b.
  - cbn. unfold String.app in *. cbn. by rewrite IH.
Qed.

Lemma substring_app_r (a b : string) (m : nat) :
  String.substring (String.length a) m (a +:+ b) = String.substring 0 m b.
Proof.
  induction a as [|c a IH]; [reflexivity|].
  cbn. unfold String.app in *. cbn. exact IH.
Qed.

Lemma slice_to_app (a b : string) :
  slice_to (a +:+ b) (Z.of_nat (String.length a)) = a.
Proof. unfold slice_to. rewrite Nat2Z.id. apply substring_app_l. Qed.

Lemma slice_from_app (a b : string) :
  slice_from (a +:+ b) (Z.of_nat (String.length a)) = b.
Proof.
  unfold slice_from. rewrite Nat2Z.id, substring_app_r, string_length_app.
  replace (String.length a + String.length b - String.length a) with (String.length b) by lia.
  apply substring_all.
Qed.

Lemma index_cons_0 (pat : string) (c : Ascii.ascii) (s : string) :
  String.index 0 pat (String c s)
  = if String.prefix pat (String c s) then Some 0
    else match String.index 0 pat s with
         | Some n => Some (S n)
         | None => None
         end.
Proof. reflexivity. Qed.

Lemma prefix_space (c : Ascii.ascii) (s : string) :
  String.prefix " " (String c s) = if Ascii.ascii_dec " "%char c then true else false.
Proof.
  change (String.prefix " " (String c s))
    with (match Ascii.ascii_dec " "%char c with
          | left _ => String.prefix "" s
          | right _ => false
          end).
  destruct (Ascii.ascii_dec " "%char c); [by destruct s|reflexivity].
Qed.

Lemma index_space_cons (c : Ascii.ascii) (s : string) :
  String.index 0 " " (String c s) = None
  <-> c <> " "%char /\ String.index 0 " " s = None.
Proof.
  rewrite index_cons_0, prefix_space.
  destruct (Ascii.ascii_dec " "%char c) as [E|E].
  - split; [discriminate|]. intros [H _]. by destruct H.
  - destruct (String.index 0 " " s).
    + split; [discriminate|]. intros [_ H]. discriminate H.
    + split; [|reflexivity]. intros _. split; [|reflexivity].
      intros H. by apply E.
Qed.

(** The first space of a string that starts with a part without one. *)
Lemma index_space_app (a r : string) :
  String.index 0 " " a = None ->
  String.index 0 " " (a +:+ " " +:+ r) = Some (String.length a).
Proof.
  induction a as [|c a IH]; intros Hn.
  - change ("" +:+ " " +:+ r) with (String " "%char r).
    rewrite index_cons_0, prefix_space.
    by destruct (Ascii.ascii_dec " "%char " "%char).
  - apply index_space_cons in Hn as [Hc Ha].
    change (String c a +:+ " " +:+ r) with (String c (a +:+ " " +:+ r)).
    rewrite index_cons_0, prefix_space, (IH Ha).
    destruct (Ascii.ascii_dec " "%char c) as [E|E]; [by destruct Hc|reflexivity].
Qed.

Lemma index_space_after_flag (val : string) :
  String.index 0 " " val = None ->
  String.index 0 " " ("-output=" +:+ val) = None.
Proof.
  intros H.
  change ("-output=" +:+ val)
    with (String "-"%char (String "o"%char (String "u"%char (String "t"%char
           (String "p"%char (String "u"%char (String "t"%char (String "="%char val)))))))).
  repeat (apply index_space_cons; split; [discriminate|]).
  exact H.
Qed.

(** An override that is not at the start of the command line and is
    followed by a space is removed, with its value and that space, when
    it is the first one; what follows it is kept as it is. *)
Theorem StripOutputFromCmd_removes_first (front val rest : string) :
  front <> "" ->
  strings_Index (front +:+ "-output=" +:+ val +:+ " " +:+ rest) "-output="
    = Z.of_nat (String.length front) ->
  strings_Contains val " " = false ->
  StripOutputFromCmd (front +:+ "-output=" +:+ val +:+ " " +:+ rest) = front +:+ rest.
Proof.
  intros Hfront Hidx Hval.
  assert (Hnone : String.index 0 " " val = None).
  { unfold strings_Contains, strings_Index in Hval.
    destruct (String.index 0 " " val); [|reflexivity].
    apply bool_decide_eq_false in Hval. lia. }
  unfold StripOutputFromCmd. cbv zeta. rewrite Hidx.
  rewrite bool_decide_eq_true_2 by (destruct front; [done|cbn; lia]).
  rewrite slice_to_app, slice_from_app.
  assert (Hsp : strings_Index ("-output=" +:+ val +:+ " " +:+ rest) " "
                = Z.of_nat (String.length ("-output=" +:+ val))).
  { unfold strings_Index.
    rewrite <- (string_app_assoc "-output=" val (" " +:+ rest)).
    by rewrite (index_space_app _ rest (index_space_after_flag val Hnone)). }
  rewrite Hsp. f_equal.
  replace (Z.of_nat (String.length front) + Z.of_nat (String.length ("-output=" +:+ val)) + 1)%Z
    with (Z.of_nat (String.length (front +:+ ("-output=" +:+ val) +:+ " "))).
  - rewrite <- (slice_from_app (front +:+ ("-output=" +:+ val) +:+ " ") rest) at 2.
    by rewrite !string_app_assoc.
  - rewrite !string_length_app. cbn [String.length]. lia.
Qed.

Lemma StripOutputFromCmd_removes_first_witness :
  "gopy gen " <> ""
  /\ strings_Index ("gopy gen " +:+ "-output=" +:+ "out" +:+ " " +:+ "github.com/x/geom")
                   "-output=" = Z.of_nat (String.length "gopy gen ")
  /\ strings_Contains "out" " " = false
  /\ StripOutputFromCmd ("gopy gen " +:+ "-output=" +:+ "out" +:+ " " +:+ "github.com/x/geom")
     = "gopy gen " +:+ "github.com/x/geom".
Proof.
  split; [discriminate|]. split; [reflexivity|]. split; [reflexivity|].
  apply (StripOutputFromCmd_removes_first "gopy gen " "out" "github.com/x/geom");
    [discriminate|reflexivity|reflexivity].
Defined.

(** ** The order of the imports *)

Lemma rt_ok_admissible : range_admissible rt_ok.
Proof. intros m. reflexivity. Qed.

Lemma rt_rev_admissible : range_admissible rt_rev.
Proof. intros m. cbn. apply reverse_Permutation. Qed.

(** C1, at an input where it fails: for one symbol table and one
    configuration, two runs in which the [range] over [current.imports]
    visits the two keys in different orders, as the language allows,
    write glue files that differ in their import lists. *)
Theorem import_list_depends_on_range_order :
  range_admissible rt_ok
  /\ range_admissible rt_rev
  /\ pkgimport_of rt_ok (map_range rt_ok (imports demo_symtab))
     = nl +:+ tab +:+ dq +:+ "fmt" +:+ dq +:+ nl +:+ tab +:+ dq +:+ "time" +:+ dq
  /\ pkgimport_of rt_rev (map_range rt_rev (imports demo_symtab))
     = nl +:+ tab +:+ dq +:+ "time" +:+ dq +:+ nl +:+ tab +:+ dq +:+ "fmt" +:+ dq
  /\ written "out/geom.go"
       (os_trace (snd (GenPyBind rt_ok demo_emit [geom_pkg; units_pkg] demo_symtab
                         "out" "geom" "gopy build github.com/x/geom" "python3" ".so" 3)))
     <> written "out/geom.go"
          (os_trace (snd (GenPyBind rt_rev demo_emit [geom_pkg; units_pkg] demo_symtab
                            "out" "geom" "gopy build github.com/x/geom" "python3" ".so" 3)))
  /\ written "out/build.py"
       (os_trace (snd (GenPyBind rt_ok demo_emit [geom_pkg; units_pkg] demo_symtab
                         "out" "geom" "gopy build github.com/x/geom" "python3" ".so" 3)))
     = written "out/build.py"
         (os_trace (snd (GenPyBind rt_rev demo_emit [geom_pkg; units_pkg] demo_symtab
                           "out" "geom" "gopy build github.com/x/geom" "python3" ".so" 3)))
  /\ written "out/geom.py"
       (os_trace (snd (GenPyBind rt_ok demo_emit [geom_pkg; units_pkg] demo_symtab
                         "out" "geom" "gopy build github.com/x/geom" "python3" ".so" 3)))
     = written "out/geom.py"
         (os_trace (snd (GenPyBind rt_rev demo_emit [geom_pkg; units_pkg] demo_symtab
                           "out" "geom" "gopy build github.com/x/geom" "python3" ".so" 3))).
Proof.
  split_and!.
  - apply rt_ok_admissible.
  - apply rt_rev_admissible.
  - vm_compute. reflexivity.
  - vm_compute. reflexivity.
  - vm_compute. intros H. discriminate H.
  - vm_compute. reflexivity.
  - vm_compute. reflexivity.
Qed.

(** ** A run without packages *)




(** [GenPyBind] runs [gen] on a generator that holds its arguments. *)
Lemma GenPyBind_gen (rt : GoRuntime) (emit : option Package -> Call -> Emitted)
    (Packages : list Package) (current : symtab)
    (odir outname cmdstr vm libext : string) (lang : Z) :
  GenPyBind rt emit Packages current odir outname cmdstr vm libext lang
  = gen rt emit Packages current
      {| g := {| gofile := nil_printer; pybuild := nil_printer; pywrap := nil_printer;
                 makefile := nil_printer; pkg := None; err := []; pkgmap := ∅;
                 odir := odir; outname := outname; cmdstr := cmdstr; vm := vm;
                 libext := libext; lang := lang |};
         os_trace := []; calls := [] |}.
Proof.
  unfold GenPyBind. cbv zeta.
  destruct (gen rt emit Packages current _) as [[m|] s]; reflexivity.
Qed.

(** ** Concrete runs *)



(** C2, as it is stated, fails when the directory cannot be created:
    the later steps are not run, the error list stays empty, and the
    returned text has neither the failure a file creation would meet nor
    the one an emitter would report. *)
Lemma mkdir_failure_hides_later_failures :
  os_MkdirAll rt_denied "out" = Some "mkdir out: permission denied"
  /\ os_Create rt_denied "out/geom.go" = Some "open out/geom.go: no such file or directory"
  /\ to_err (demo_emit (Some geom_pkg) (genFunc_call {| func_id := "Area" |}))
     = ["Area: unsupported;"]
  /\ fst (gen rt_denied demo_emit [geom_pkg; units_pkg] demo_symtab demo_state)
     = Some "gopy: could not create output directory: mkdir out: permission denied"
  /\ err (g (snd (gen rt_denied demo_emit [geom_pkg; units_pkg] demo_symtab demo_state))) = []
  /\ os_trace (snd (gen rt_denied demo_emit [geom_pkg; units_pkg] demo_symtab demo_state))
     = [EvMkdirAll "out" (Some "mkdir out: permission denied")]
  /\ calls (snd (gen rt_denied demo_emit [geom_pkg; units_pkg] demo_symtab demo_state)) = []
  /\ text_contains
       (fst (gen rt_denied demo_emit [geom_pkg; units_pkg] demo_symtab demo_state))
       "no such file or directory" = false
  /\ text_contains
       (fst (gen rt_denied demo_emit [geom_pkg; units_pkg] demo_symtab demo_state))
       "Area: unsupported" = false.
Proof. vm_compute. by split_and!. Qed.

Lemma mkdir_failure_aborts_witness :
  os_MkdirAll rt_denied (odir (g demo_state)) = Some "mkdir out: permission denied"
  /\ fst (gen rt_denied demo_emit [geom_pkg; units_pkg] demo_symtab demo_state)
     = Some "gopy: could not create output directory: mkdir out: permission denied".
Proof.
  split; [reflexivity|].
  exact (proj1 (mkdir_failure_aborts rt_denied demo_emit [geom_pkg; units_pkg]
                  demo_symtab demo_state _ eq_refl)).
Defined.

(** C3, as it is stated, fails when the directory cannot be created:
    [gen] returns an error although the error list is empty, and the
    text of that error is not the concatenation of the list. *)
Lemma error_returned_with_empty_error_list :
  fst (gen rt_denied silent_emit [] imports_only demo_state) <> None
  /\ err (g (snd (gen rt_denied silent_emit [] imports_only demo_state))) = []
  /\ fst (gen rt_denied silent_emit [] imports_only demo_state)
     <> Some (concat_strings
                (err (g (snd (gen rt_denied silent_emit [] imports_only demo_state))))).
Proof.
  split_and!.
  - vm_compute. intros H. discriminate H.
  - vm_compute. reflexivity.
  - vm_compute. intros H. discriminate H.
Qed.

(** The errors of a run in a directory in which no file can be created,
    in the order they are met. *)
Example errors_in_order :
  fst (gen rt_readonly demo_emit [geom_pkg] demo_symtab demo_state)
  = Some ("open out/__init__.py: read-only file system;"
          +:+ "Area: unsupported;"
          +:+ "open out/geom.py: read-only file system;" +:+ "invalid argument;"
          +:+ "open out/geom.go: read-only file system;" +:+ "invalid argument;"
          +:+ "open out/build.py: read-only file system;" +:+ "invalid argument;"
          +:+ "open out/Makefile: read-only file system;" +:+ "invalid argument;").
Proof. vm_compute. reflexivity. Qed.

Lemma demo_symbols_distinct : List.NoDup (global_syms demo_symtab).
Proof.
  vm_compute.
  repeat (constructor; [cbn; intros H; repeat destruct H as [H|H]; try discriminate H; exact H|]).
  constructor.
Defined.

Lemma external_types_emitted_exactly_once_witness :
  List.NoDup (global_syms demo_symtab)
  /\ calls (genExtTypesGo demo_emit demo_symtab
              (upd_g (set_pkgmap (TargetSet [geom_pkg; units_pkg])) demo_state))
     = calls demo_state
       ++ map (fun y => genType_call y true false)
              (List.filter (is_external (TargetSet [geom_pkg; units_pkg]))
                           (global_syms demo_symtab)).
Proof.
  split; [exact demo_symbols_distinct|].
  exact (proj1 (proj2 (proj2
           (external_types_emitted_exactly_once rt_ok demo_emit [geom_pkg; units_pkg]
              demo_symtab
              (upd_g (set_pkgmap (TargetSet [geom_pkg; units_pkg])) demo_state)
              demo_symbols_distinct)))).
Defined.

(** With the two packages as targets only the type of package [time] is
    external. *)
Example external_types_of_demo :
  calls (genExtTypesGo demo_emit demo_symtab
           (upd_g (set_pkgmap (TargetSet [geom_pkg; units_pkg])) demo_state))
  = [genType_call sym_Duration true false].
Proof. vm_compute. reflexivity. Qed.

Lemma sections_in_fixed_order_witness :
  pkg (g (upd_g (set_pkg (Some geom_pkg)) demo_state)) = Some geom_pkg
  /\ os_MkdirAll rt_ok (odir (g demo_state)) = None
  /\ calls (genAll demo_emit demo_symtab (upd_g (set_pkg (Some geom_pkg)) demo_state))
     = calls (upd_g (set_pkg (Some geom_pkg)) demo_state)
       ++ flat_map (section_calls demo_symtab geom_pkg) section_order.
Proof.
  split; [reflexivity|]. split; [reflexivity|].
  exact (proj1 (proj2 (sections_in_fixed_order rt_ok demo_emit [geom_pkg; units_pkg]
                         demo_symtab geom_pkg
                         (upd_g (set_pkg (Some geom_pkg)) demo_state) demo_state
                         eq_refl eq_refl))).
Defined.

(** The calls of [genAll] for the package [geom]. *)
Example sections_of_demo :
  calls (genAll demo_emit demo_symtab (upd_g (set_pkg (Some geom_pkg)) demo_state))
  = [ genType_call sym_Point false false;
      genConstValue_call {| const_id := "Pi" |};
      genVarGetter_call {| var_id := "Origin" |};
      genVarSetter_call {| var_id := "Origin" |};
      genInterface_call {| iface_id := "Shape" |};
      genStruct_call {| struct_id := "Point"; ctors := [ {| func_id := "NewPoint" |} ] |};
      genFunc_call {| func_id := "NewPoint" |};
      genFunc_call {| func_id := "Area" |} ].
Proof. vm_compute. reflexivity. Qed.

Lemma variable_pair_constant_single_witness :
  pkg (g (upd_g (set_pkg (Some geom_pkg)) demo_state)) = Some geom_pkg
  /\ os_MkdirAll rt_ok (odir (g demo_state)) = None
  /\ (forall v s', calls (genVar demo_emit v s')
                   = calls s' ++ [genVarGetter_call v; genVarSetter_call v]).
Proof.
  split; [reflexivity|]. split; [reflexivity|].
  exact (proj1 (variable_pair_constant_single rt_ok demo_emit [geom_pkg; units_pkg]
                  demo_symtab geom_pkg
                  (upd_g (set_pkg (Some geom_pkg)) demo_state) demo_state eq_refl eq_refl)).
Defined.

(** What is copied to the wrapper file of the second package has
    nothing of the first, and the copy leaves the wrapper buffer empty. *)
Example second_wrapper_of_demo :
  text_contains
    (written "out/units.py"
       (os_trace (genPkg rt_ok demo_emit demo_symtab units_pkg
                    (genPkg rt_ok demo_emit demo_symtab geom_pkg demo_state))))
    "Origin" = false
  /\ text_contains
       (written "out/units.py"
          (os_trace (genPkg rt_ok demo_emit demo_symtab units_pkg
                       (genPkg rt_ok demo_emit demo_symtab geom_pkg demo_state))))
       "Scale" = true
  /\ text_contains
       (written "out/geom.py"
          (os_trace (genPkg rt_ok demo_emit demo_symtab geom_pkg demo_state)))
       "Origin" = true
  /\ buf (pywrap (g (genPkg rt_ok demo_emit demo_symtab geom_pkg demo_state))) = "".
Proof. vm_compute. by split_and!. Qed.

(** A command line as the tool builds it: the override is followed by
    the package path and is removed. *)
Example strip_mid :
  gencmd_of "gopy build -output=out -vm=python3 github.com/x/y"
  = "gopy gen -vm=python3 github.com/x/y".
Proof. vm_compute. reflexivity. Qed.

(** ** What the order of the imports can change *)

Lemma pkgimport_of_ext (rt1 rt2 : GoRuntime) (order : list string) :
  (forall a, fmt_q rt1 a = fmt_q rt2 a) ->
  pkgimport_of rt1 order = pkgimport_of rt2 order.
Proof.
  intros Hq. unfold pkgimport_of. generalize "". 
  induction order as [|x order IH]; intros acc; [reflexivity|].
  cbn [foldl]. rewrite Hq. apply IH.
Qed.

Lemma libcfg_of_ext (rt1 rt2 : GoRuntime) (vm : string) :
  (forall a b, filepath_Join rt1 a b = filepath_Join rt2 a b) ->
  (forall a, filepath_Split rt1 a = filepath_Split rt2 a) ->
  (forall a, filepath_Clean rt1 a = filepath_Clean rt2 a) ->
  libcfg_of rt1 vm = libcfg_of rt2 vm.
Proof.
  intros HJ HS HC. unfold libcfg_of. rewrite HS.
  destruct (filepath_Split rt2 vm) as [pypath pyonly].
  rewrite HC, HS. destruct (filepath_Split rt2 _) as [pyroot x].
  by rewrite !HJ.
Qed.

Lemma short_permutation_eq {A : Type} (l l' : list A) :
  length l <= 1 -> l ≡ₚ l' -> l = l'.
Proof.
  intros Hl Hp. destruct l as [|x [|y l]]; cbn in Hl; [| |lia].
  - symmetry. by apply Permutation_nil_r.
  - symmetry. by apply Permutation_singleton_r.
Qed.

(** Two runs that differ only in the order in which the [range]
    statement visits the imports write the same build script and the
    same recipe; their glue files are the same when the two orders are,
    which is so whenever the table has at most one import. *)
Theorem artifacts_fixed_but_for_import_order (rt1 rt2 : GoRuntime)
    (emit : option Package -> Call -> Emitted) (Packages : list Package)
    (current : symtab) (c : Config) :
  (forall a b, filepath_Join rt1 a b = filepath_Join rt2 a b) ->
  (forall a, filepath_Split rt1 a = filepath_Split rt2 a) ->
  (forall a, filepath_Clean rt1 a = filepath_Clean rt2 a) ->
  (forall a, fmt_q rt1 a = fmt_q rt2 a) ->
  range_admissible rt1 ->
  range_admissible rt2 ->
  build_content rt1 emit Packages current c = build_content rt2 emit Packages current c
  /\ makefile_content rt1 emit Packages current c
     = makefile_content rt2 emit Packages current c
  /\ (map_range rt1 (imports current) = map_range rt2 (imports current) ->
      glue_content rt1 emit Packages current c = glue_content rt2 emit Packages current c)
  /\ (size (imports current) <= 1 ->
      glue_content rt1 emit Packages current c = glue_content rt2 emit Packages current c).
Proof.
  intros HJ HS HC Hq Ha1 Ha2.
  assert (Hglue : map_range rt1 (imports current) = map_range rt2 (imports current) ->
                  glue_content rt1 emit Packages current c
                  = glue_content rt2 emit Packages current c).
  { intros Hr. rewrite !glue_content_eq. unfold go_preamble_text.
    by rewrite Hr, (pkgimport_of_ext rt1 rt2 _ Hq), (libcfg_of_ext rt1 rt2 _ HJ HS HC). }
  split_and!.
  - by rewrite !build_content_eq.
  - by rewrite !makefile_content_eq.
  - exact Hglue.
  - intros Hsz. apply Hglue. apply short_permutation_eq.
    + rewrite (Permutation_length (Ha1 (imports current))). exact Hsz.
    + rewrite (Ha1 (imports current)). symmetry. apply Ha2.
Qed.

Lemma artifacts_fixed_but_for_import_order_witness :
  build_content rt_ok demo_emit [geom_pkg; units_pkg] demo_symtab (config_of demo_gen)
  = build_content rt_rev demo_emit [geom_pkg; units_pkg] demo_symtab (config_of demo_gen).
Proof.
  exact (proj1 (artifacts_fixed_but_for_import_order rt_ok rt_rev demo_emit
                  [geom_pkg; units_pkg] demo_symtab (config_of demo_gen)
                  (fun _ _ => eq_refl) (fun _ => eq_refl) (fun _ => eq_refl)
                  (fun _ => eq_refl) rt_ok_admissible rt_rev_admissible)).
Defined.

(** * Further properties *)

(** ** StripOutputFromCmd on every command line *)

Lemma substring_drop (n : nat) (s : string) :
  String.substring n (String.length s - n) s = string_drop n s.
Proof.
  revert n. induction s as [|c s IH]; intros [|n]; try reflexivity.
  - rewrite Nat.sub_0_r. apply (substring_all (String c s)).
  - apply IH.
Qed.

Lemma substring_split (n : nat) (s : string) :
  String.substring 0 n s +:+ string_drop n s = s.
Proof.
  revert n. induction s as [|c s IH]; intros [|n]; try reflexivity.
  change (String c (String.substring 0 n s +:+ string_drop n s) = String c s).
  by rewrite IH.
Qed.

Lemma string_drop_drop (a b : nat) (s : string) :
  string_drop b (string_drop a s) = string_drop (a + b) s.
Proof.
  revert s. induction a as [|a IH]; intros s; [reflexivity|].
  destruct s as [|c s]; [by destruct b|]. apply IH.
Qed.

Lemma slice_split (s : string) (i : Z) : slice_to s i +:+ slice_from s i = s.
Proof. unfold slice_to, slice_from. rewrite substring_drop. apply substring_split. Qed.

Lemma strings_Index_ge (s substr : string) : (-1 <= strings_Index s substr)%Z.
Proof. unfold strings_Index. destruct (String.index 0 substr s); lia. Qed.

(** Without an override after the start of the command line, and when
    no space follows the first override, the command line is returned as
    it is. *)
Theorem StripOutputFromCmd_unchanged (cmdstr : string) :
  (strings_Index cmdstr "-output=" <= 0)%Z
  \/ strings_Index (slice_from cmdstr (strings_Index cmdstr "-output=")) " " = (-1)%Z ->
  StripOutputFromCmd cmdstr = cmdstr.
Proof.
  intros H. unfold StripOutputFromCmd. cbv zeta.
  destruct (bool_decide (0 < strings_Index cmdstr "-output=")%Z) eqn:E; [|reflexivity].
  apply bool_decide_eq_true in E. destruct H as [H|H]; [lia|].
  rewrite H.
  replace (strings_Index cmdstr "-output=" + -1 + 1)%Z
    with (strings_Index cmdstr "-output=") by lia.
  apply slice_split.
Qed.

Lemma StripOutputFromCmd_unchanged_witness :
  StripOutputFromCmd "gopy build -vm=python3 github.com/x/geom"
  = "gopy build -vm=python3 github.com/x/geom".
Proof.
  apply (StripOutputFromCmd_unchanged "gopy build -vm=python3 github.com/x/geom").
  left. vm_compute. discriminate.
Defined.

(** [StripOutputFromCmd] only deletes: the result is the command line
    with one stretch of bytes taken out, so it is never longer. *)
Theorem StripOutputFromCmd_only_deletes (cmdstr : string) :
  (exists front mid back : string,
     cmdstr = front +:+ mid +:+ back
     /\ StripOutputFromCmd cmdstr = front +:+ back)
  /\ String.length (StripOutputFromCmd cmdstr) <= String.length cmdstr.
Proof.
  assert (H : exists front mid back : string,
             cmdstr = front +:+ mid +:+ back
             /\ StripOutputFromCmd cmdstr = front +:+ back).
  { unfold StripOutputFromCmd. cbv zeta.
    destruct (bool_decide (0 < strings_Index cmdstr "-output=")%Z) eqn:E.
    - apply bool_decide_eq_true in E.
      set (oidx := strings_Index cmdstr "-output=") in *.
      set (spidx := strings_Index (slice_from cmdstr oidx) " ").
      pose proof (strings_Index_ge (slice_from cmdstr oidx) " ") as Hsp. fold spidx in Hsp.
      exists (slice_to cmdstr oidx),
             (slice_to (slice_from cmdstr oidx) (spidx + 1)),
             (slice_from cmdstr (oidx + spidx + 1)).
      split; [|reflexivity].
      rewrite <- (slice_split cmdstr oidx) at 1. f_equal.
      rewrite <- (slice_split (slice_from cmdstr oidx) (spidx + 1)) at 1. f_equal.
      unfold slice_from. rewrite !substring_drop, string_drop_drop. f_equal. lia.
    - exists cmdstr, "", "". split; [|by rewrite string_app_nil_r].
      by rewrite string_app_nil_r. }
  split; [exact H|].
  destruct H as (front & mid & back & Hs & ->). rewrite Hs, !string_length_app. lia.
Qed.

(** ** The import lines of a wrapper preamble *)

Lemma impstr_of_fold (m : gset string) (outname : string) (ims : list ImportRef)
    (acc : string) :
  foldl (fun acc im =>
           if bool_decide (im_Path im ∈ m)
           then acc +:+ ("from " +:+ outname +:+ " import " +:+ im_Name im +:+ nl)
           else acc) acc ims
  = acc +:+ concat_strings
              (map (import_line outname)
                   (List.filter (fun im => bool_decide (im_Path im ∈ m)) ims)).
Proof.
  revert acc. induction ims as [|im ims IH]; intros acc.
  - cbn. by rewrite string_app_nil_r.
  - cbn [foldl List.filter]. rewrite IH.
    destruct (bool_decide (im_Path im ∈ m)); [|reflexivity].
    cbn [map concat_strings foldr]. by rewrite string_app_assoc.
Qed.

(** The wrapper preamble of a package lists its imports that are target
    packages, one line each in the order of the imports, and leaves out
    every import that is not a target; a package none of whose imports is
    a target gets no import line. *)
Theorem wrapper_imports_only_targets (p : Package) (s : St) :
  pkg (g s) = Some p ->
  impstr_of (pkgmap (g s)) (outname (g s)) p
    = concat_strings
        (map (import_line (outname (g s)))
             (List.filter (fun im => bool_decide (im_Path im ∈ pkgmap (g s)))
                          (tp_Imports (p_pkg p))))
  /\ buf (pywrap (g (genPyWrapPreamble s)))
     = buf (pywrap (g s))
       +:+ PyWrapPreamble (outname (g s)) (cmdstr (g s)) (tp_Name (p_pkg p))
             (tp_Path (p_pkg p)) (pkgDoc_of p)
             (concat_strings
                (map (import_line (outname (g s)))
                     (List.filter (fun im => bool_decide (im_Path im ∈ pkgmap (g s)))
                                  (tp_Imports (p_pkg p)))))
  /\ ((forall im, In im (tp_Imports (p_pkg p)) -> im_Path im ∉ pkgmap (g s)) ->
      impstr_of (pkgmap (g s)) (outname (g s)) p = "")
  /\ calls (genPyWrapPreamble s) = calls s
  /\ gofile (g (genPyWrapPreamble s)) = gofile (g s).
Proof.
  intros Hp.
  assert (Himp : impstr_of (pkgmap (g s)) (outname (g s)) p
                 = concat_strings
                     (map (import_line (outname (g s)))
                          (List.filter (fun im => bool_decide (im_Path im ∈ pkgmap (g s)))
                                       (tp_Imports (p_pkg p))))).
  { unfold impstr_of. by rewrite impstr_of_fold. }
  rewrite (genPyWrapPreamble_extend p s Hp).
  cbn [extend g pywrap gofile buf Printf d_pywrap d_wrap d_go calls d_calls].
  unfold wrap_preamble_text. cbn [config_of c_outname c_cmdstr]. rewrite Himp.
  split_and!.
  - reflexivity.
  - reflexivity.
  - intros Hno. rewrite filter_none; [reflexivity|].
    intros im Him. apply bool_decide_eq_false. by apply Hno.
  - apply app_nil_r.
  - apply Printf_nil.
Qed.

Lemma wrapper_imports_only_targets_witness :
  pkg (g (upd_g (set_pkg (Some geom_pkg))
            (upd_g (set_pkgmap (TargetSet [geom_pkg; units_pkg])) demo_state)))
    = Some geom_pkg
  /\ impstr_of (TargetSet [geom_pkg; units_pkg]) "geom" geom_pkg
     = concat_strings
         (map (import_line "geom")
              (List.filter (fun im => bool_decide (im_Path im ∈ TargetSet [geom_pkg; units_pkg]))
                           (tp_Imports (p_pkg geom_pkg)))).
Proof.
  split; [reflexivity|].
  exact (proj1 (wrapper_imports_only_targets geom_pkg
                  (upd_g (set_pkg (Some geom_pkg))
                     (upd_g (set_pkgmap (TargetSet [geom_pkg; units_pkg])) demo_state))
                  eq_refl)).
Defined.

(** ** The import list of the glue preamble *)

Lemma pkgimport_of_fold (rt : GoRuntime) (order : list string) (acc : string) :
  foldl (fun acc pi => acc +:+ (nl +:+ tab +:+ fmt_q rt pi)) acc order
  = acc +:+ concat_strings (map (fun pi => nl +:+ tab +:+ fmt_q rt pi) order).
Proof.
  revert acc. induction order as [|x order IH]; intros acc.
  - cbn. by rewrite string_app_nil_r.
  - cbn [foldl map concat_strings foldr]. rewrite IH. by rewrite string_app_assoc.
Qed.

Lemma length_concat_strings_perm (l l' : list string) :
  l ≡ₚ l' -> String.length (concat_strings l) = String.length (concat_strings l').
Proof.
  induction 1 as [|x l l' _ IH|x y l|l l' l'' _ IH1 _ IH2].
  - reflexivity.
  - cbn [concat_strings foldr]. fold (concat_strings l). fold (concat_strings l').
    rewrite !string_length_app. by rewrite IH.
  - cbn [concat_strings foldr]. fold (concat_strings l).
    rewrite !string_length_app. lia.
  - by rewrite IH1.
Qed.

(** Whatever order the [range] over [current.imports] takes, the import
    list of the glue preamble has one line per key of the map, each key
    once; two runs that quote alike produce import lists with the same
    lines and of the same length. An empty map gives an empty list. *)
Theorem import_list_one_line_per_key (rt1 rt2 : GoRuntime) (m : gset string) :
  range_admissible rt1 ->
  range_admissible rt2 ->
  (forall a, fmt_q rt1 a = fmt_q rt2 a) ->
  pkgimport_of rt1 (map_range rt1 m)
    = concat_strings (map (fun pi => nl +:+ tab +:+ fmt_q rt1 pi) (map_range rt1 m))
  /\ (forall k, In k (map_range rt1 m) <-> k ∈ m)
  /\ List.NoDup (map_range rt1 m)
  /\ length (map_range rt1 m) = size m
  /\ map (fun pi => nl +:+ tab +:+ fmt_q rt1 pi) (map_range rt1 m)
     ≡ₚ map (fun pi => nl +:+ tab +:+ fmt_q rt2 pi) (map_range rt2 m)
  /\ String.length (pkgimport_of rt1 (map_range rt1 m))
     = String.length (pkgimport_of rt2 (map_range rt2 m))
  /\ (m = ∅ -> pkgimport_of rt1 (map_range rt1 m) = "").
Proof.
  intros Ha1 Ha2 Hq.
  assert (Hfold : forall rt order,
             pkgimport_of rt order
             = concat_strings (map (fun pi => nl +:+ tab +:+ fmt_q rt pi) order)).
  { intros rt order. unfold pkgimport_of. by rewrite pkgimport_of_fold. }
  assert (Hperm : map (fun pi => nl +:+ tab +:+ fmt_q rt1 pi) (map_range rt1 m)
                  ≡ₚ map (fun pi => nl +:+ tab +:+ fmt_q rt2 pi) (map_range rt2 m)).
  { rewrite (map_ext _ (fun pi => nl +:+ tab +:+ fmt_q rt2 pi)
               (fun a => f_equal (fun q => nl +:+ tab +:+ q) (Hq a))).
    apply Permutation_map. etransitivity; [apply (Ha1 m)|symmetry; apply (Ha2 m)]. }
  split_and!.
  - apply Hfold.
  - intros k. rewrite <- list_elem_of_In, (Ha1 m). apply elem_of_elements.
  - apply NoDup_ListNoDup. rewrite (Ha1 m). apply NoDup_elements.
  - by rewrite (Ha1 m).
  - exact Hperm.
  - rewrite !Hfold. by apply length_concat_strings_perm.
  - intros ->. rewrite Hfold.
    assert (map_range rt1 ∅ = []) as ->; [|reflexivity].
    apply Permutation_nil_r. rewrite (Ha1 ∅). by rewrite elements_empty.
Qed.

Lemma import_list_one_line_per_key_witness :
  String.length (pkgimport_of rt_ok (map_range rt_ok (imports demo_symtab)))
  = String.length (pkgimport_of rt_rev (map_range rt_rev (imports demo_symtab))).
Proof.
  exact (proj1 (proj2 (proj2 (proj2 (proj2 (proj2
           (import_list_one_line_per_key rt_ok rt_rev (imports demo_symtab)
              rt_ok_admissible rt_rev_admissible (fun _ => eq_refl)))))))).
Defined.

(** ** The files of a run *)

Lemma wrapper_events_created (rt : GoRuntime) (c : Config) (f d : Package -> string)
    (ps : list Package) :
  map event_path (List.filter is_create (flat_map (fun p => print_events rt c (f p) (d p)) ps))
  = map (fun p => filepath_Join rt (c_odir c) (f p)) ps.
Proof. induction ps as [|p ps IH]; [reflexivity|]. cbn. by rewrite <- IH. Qed.

Lemma wrapper_events_copied (rt : GoRuntime) (c : Config) (f d : Package -> string)
    (ps : list Package) :
  map event_path (List.filter is_copy (flat_map (fun p => print_events rt c (f p) (d p)) ps))
  = map (fun p => filepath_Join rt (c_odir c) (f p)) ps.
Proof. induction ps as [|p ps IH]; [reflexivity|]. cbn. by rewrite <- IH. Qed.

Lemma wrapper_events_paths (rt : GoRuntime) (c : Config) (f d : Package -> string)
    (ps : list Package) (Q : OsEvent -> Prop) :
  (forall p data r, In p ps -> Q (EvCreate (filepath_Join rt (c_odir c) (f p)) r)
                               /\ Q (EvCopy (filepath_Join rt (c_odir c) (f p)) data r)) ->
  List.Forall Q (flat_map (fun p => print_events rt c (f p) (d p)) ps).
Proof.
  intros HQ. apply Forall_flat_map. apply List.Forall_forall. intros p Hp.
  unfold print_events. cbv zeta.
  apply List.Forall_cons; [exact (proj1 (HQ p "" _ Hp))|].
  apply List.Forall_cons; [exact (proj2 (HQ p _ _ Hp))|].
  apply List.Forall_nil.
Qed.

(** The first file system call of a run creates the output directory;
    when that fails there is no other call. Otherwise the run creates
    the package marker, one wrapper per package in the order of the
    package list, the glue file, the build script and the recipe, in
    this order, and copies a buffer into each of them but the marker.
    Every call after the first is a create or a copy on a path that
    [filepath.Join] makes from the output directory and one of these
    file names. *)
Theorem files_created_in_output_directory (rt : GoRuntime)
    (emit : option Package -> Call -> Emitted) (Packages : list Package)
    (current : symtab) (s0 : St) :
  exists evs : list OsEvent,
    os_trace (snd (gen rt emit Packages current s0))
    = os_trace s0 ++ EvMkdirAll (odir (g s0)) (os_MkdirAll rt (odir (g s0))) :: evs
    /\ (os_MkdirAll rt (odir (g s0)) <> None -> evs = [])
    /\ (os_MkdirAll rt (odir (g s0)) = None ->
        map event_path (List.filter is_create evs)
        = map (filepath_Join rt (odir (g s0))) (output_files (outname (g s0)) Packages)
        /\ map event_path (List.filter is_copy evs)
           = map (filepath_Join rt (odir (g s0)))
                 (tail (output_files (outname (g s0)) Packages)))
    /\ List.Forall (fun ev => is_create ev || is_copy ev = true) evs
    /\ List.Forall
         (fun ev => exists fn, In fn (output_files (outname (g s0)) Packages)
                               /\ event_path ev = filepath_Join rt (odir (g s0)) fn) evs.
Proof.
  destruct (os_MkdirAll rt (odir (g s0))) as [e|] eqn:Hmk.
  - exists []. rewrite (gen_fail rt emit Packages current s0 e Hmk).
    split_and!; done.
  - exists (run_events rt emit Packages current (config_of (g s0))).
    rewrite (gen_ok rt emit Packages current s0 Hmk).
    cbn [snd]. rewrite final_state_os.
    split_and!.
    + reflexivity.
    + done.
    + intros _. unfold run_events, output_files, init_path. cbv zeta.
      cbn [config_of c_odir c_outname].
      split.
      * cbn [app List.filter is_create map event_path].
        rewrite !List.filter_app, !map_app.
        rewrite (wrapper_events_created rt (config_of (g s0))
                   (fun p => tp_Name (p_pkg p) +:+ ".py")).
        cbn [print_events List.filter is_create map event_path app config_of c_odir].
        by rewrite !map_map.
      * cbn [app List.filter is_copy map event_path tail].
        rewrite !List.filter_app, !map_app.
        rewrite (wrapper_events_copied rt (config_of (g s0))
                   (fun p => tp_Name (p_pkg p) +:+ ".py")).
        cbn [print_events List.filter is_copy map event_path app config_of c_odir].
        by rewrite !map_map.
    + unfold run_events. cbv zeta.
      apply List.Forall_app. split; [repeat constructor|].
      apply List.Forall_app. split.
      { apply wrapper_events_paths. intros; split; reflexivity. }
      unfold print_events. cbv zeta. repeat constructor.
    + unfold run_events, output_files, init_path. cbv zeta.
      cbn [config_of c_odir c_outname].
      apply List.Forall_app. split.
      { repeat constructor. exists "__init__.py". split; [by left|reflexivity]. }
      apply List.Forall_app. split.
      { apply wrapper_events_paths. intros p data r Hp.
        split; (exists (tp_Name (p_pkg p) +:+ ".py"); split; [|reflexivity]);
          right; apply in_or_app; left;
          apply (in_map (fun p => tp_Name (p_pkg p) +:+ ".py")); exact Hp. }
      unfold print_events. cbv zeta. cbn [config_of c_odir app].
      repeat constructor.
      all: try (exists (outname (g s0) +:+ ".go"); split; [|reflexivity];
                right; apply in_or_app; right; by left).
      all: try (exists "build.py"; split; [|reflexivity];
                right; apply in_or_app; right; right; by left).
      all: exists "Makefile"; split; [|reflexivity];
           right; apply in_or_app; right; right; right; by left.
Qed.

(** ** When a run reports success *)

Lemma option_list_nil {A : Type} (o : option A) : option_list o = [] <-> o = None.
Proof. destruct o; cbn; split; congruence. Qed.

Lemma print_errors_nil (rt : GoRuntime) (c : Config) (outfn data : string) :
  print_errors rt c outfn data = []
  <-> List.Forall (fun ev => event_result ev = None) (print_events rt c outfn data).
Proof.
  unfold print_errors, print_events. cbv zeta.
  rewrite app_nil, !option_list_nil.
  split.
  - intros [H1 H2]. repeat constructor; assumption.
  - intros H. inversion H as [|? ? H1 H']; subst. inversion H' as [|? ? H2 _]; subst.
    split; assumption.
Qed.

Lemma wrapper_errors_nil (rt : GoRuntime) (c : Config) (A : Package -> list error)
    (f d : Package -> string) (ps : list Package) :
  flat_map (fun p => A p ++ print_errors rt c (f p) (d p)) ps = []
  <-> List.Forall (fun ev => event_result ev = None)
        (flat_map (fun p => print_events rt c (f p) (d p)) ps)
      /\ List.Forall (fun p => A p = []) ps.
Proof.
  induction ps as [|p ps IH].
  - cbn. split; [intros _; split; constructor|done].
  - cbn [flat_map]. rewrite !app_nil, List.Forall_app, List.Forall_cons_iff.
    rewrite IH, print_errors_nil. tauto.
Qed.

Lemma run_errors_nil (rt : GoRuntime) (emit : option Package -> Call -> Emitted)
    (Packages : list Package) (current : symtab) (c : Config) :
  run_errors rt emit Packages current c = []
  <-> List.Forall (fun ev => event_result ev = None) (run_events rt emit Packages current c)
      /\ err_list emit None (ext_calls_go current (TargetSet Packages)) = []
      /\ List.Forall
           (fun p => err_list emit (Some p) (pkg_calls current (TargetSet Packages) p) = [])
           Packages.
Proof.
  unfold run_errors, run_events. cbv zeta.
  rewrite !app_nil, !List.Forall_app.
  rewrite (wrapper_errors_nil rt c
             (fun p => err_list emit (Some p) (pkg_calls current (TargetSet Packages) p))
             (fun p => tp_Name (p_pkg p) +:+ ".py")
             (fun p => wrapper_content emit current (TargetSet Packages) c p)).
  rewrite !print_errors_nil, option_list_nil.
  rewrite List.Forall_cons_iff. cbn [event_result].
  split.
  - intros (H1 & H2 & (H3 & H4) & H5 & H6 & H7). split_and!; try assumption. constructor.
  - intros (((H1 & _) & H3 & H5 & H6 & H7) & H2 & H4). split_and!; assumption.
Qed.

(** [GenPyBind] returns nil exactly when every file system call of the
    run returned nil and no emitter call of the run added an error: the
    failure to create the directory, to create any file or to copy any
    buffer, or one error of one emitter for one package, makes the
    result non-nil. *)
Theorem GenPyBind_nil_iff_nothing_failed (rt : GoRuntime)
    (emit : option Package -> Call -> Emitted) (Packages : list Package)
    (current : symtab) (odir outname cmdstr vm libext : string) (lang : Z) :
  fst (GenPyBind rt emit Packages current odir outname cmdstr vm libext lang) = None
  <-> List.Forall (fun ev => event_result ev = None)
        (os_trace (snd (GenPyBind rt emit Packages current odir outname cmdstr vm libext lang)))
      /\ err_list emit None (ext_calls_go current (TargetSet Packages)) = []
      /\ List.Forall
           (fun p => err_list emit (Some p) (pkg_calls current (TargetSet Packages) p) = [])
           Packages.
Proof.
  rewrite GenPyBind_gen.
  set (s0 := {| g := _; os_trace := []; calls := [] |}).
  destruct (os_MkdirAll rt odir) as [e|] eqn:Hmk.
  - rewrite (gen_fail rt emit Packages current s0 e Hmk). cbn [fst snd os_log os_trace upd_g].
    split; [discriminate|].
    intros (H & _). cbn in H. inversion H as [|? ? H1 _]. discriminate H1.
  - rewrite (gen_ok rt emit Packages current s0 Hmk). cbn [fst snd].
    rewrite final_state_os, final_state_err, result_of_nil.
    change (err (g s0)) with (@nil error). change (os_trace s0) with (@nil OsEvent).
    cbn [app]. rewrite run_errors_nil, List.Forall_cons_iff. cbn [event_result].
    tauto.
Qed.

(** ** What the files hold at the end *)

Lemma written_acc (path : string) (tr : list OsEvent) (acc : option string) :
  foldl (fun acc ev =>
           match ev with
           | EvCopy q data _ => if bool_decide (q = path) then Some data else acc
           | _ => acc
           end) acc tr
  = match written path tr with
    | Some d => Some d
    | None => acc
    end.
Proof.
  unfold written. revert acc. induction tr as [|ev tr IH]; intros acc; [reflexivity|].
  cbn [foldl]. rewrite IH. rewrite (IH (match ev with
                                        | EvCopy q data _ =>
                                            if bool_decide (q = path) then Some data else None
                                        | _ => None
                                        end)).
  destruct (foldl _ None tr); [reflexivity|].
  destruct ev as [| |q data r]; try reflexivity.
  destruct (bool_decide (q = path)); reflexivity.
Qed.

Lemma written_untouched (path : string) (tr : list OsEvent) :
  List.Forall (fun ev => event_path ev <> path) tr -> written path tr = None.
Proof.
  induction 1 as [|ev tr Hev _ IH]; [reflexivity|].
  unfold written. cbn [foldl]. rewrite written_acc, IH.
  destruct ev as [| |q data r]; try reflexivity.
  cbn in Hev. by rewrite bool_decide_eq_false_2.
Qed.

Lemma written_last (path data : string) (r : option error) (tr1 tr2 : list OsEvent) :
  List.Forall (fun ev => event_path ev <> path) tr2 ->
  written path (tr1 ++ EvCopy path data r :: tr2) = Some data.
Proof.
  intros H. unfold written. rewrite foldl_app. cbn [foldl].
  rewrite written_acc, (written_untouched path tr2 H).
  by rewrite bool_decide_eq_true_2.
Qed.

Lemma written_after (path data : string) (r : option error) (tr1 mid tr2 : list OsEvent) :
  List.Forall (fun ev => event_path ev <> path) tr2 ->
  written path (tr1 ++ mid ++ EvCopy path data r :: tr2) = Some data.
Proof. intros H. rewrite app_assoc. by apply written_last. Qed.

Lemma print_events_elsewhere (rt : GoRuntime) (c : Config) (outfn data path : string) :
  filepath_Join rt (c_odir c) outfn <> path ->
  List.Forall (fun ev => event_path ev <> path) (print_events rt c outfn data).
Proof. intros H. unfold print_events. cbv zeta. repeat constructor; exact H. Qed.

Lemma run_trace_split (rt : GoRuntime) (emit : option Package -> Call -> Emitted)
    (ps rest : list Package) (current : symtab) (c : Config) (tr : list OsEvent)
    (Packages : list Package) :
  Packages = ps ++ rest ->
  tr ++ EvMkdirAll (c_odir c) None :: run_events rt emit Packages current c
  = (tr ++ EvMkdirAll (c_odir c) None
        :: EvCreate (init_path rt c) (os_Create rt (init_path rt c))
        :: flat_map (fun p => print_events rt c (tp_Name (p_pkg p) +:+ ".py")
                                (wrapper_content emit current (TargetSet Packages) c p)) ps)
    ++ flat_map (fun p => print_events rt c (tp_Name (p_pkg p) +:+ ".py")
                            (wrapper_content emit current (TargetSet Packages) c p)) rest
    ++ print_events rt c (c_outname c +:+ ".go") (glue_content rt emit Packages current c)
    ++ print_events rt c "build.py" (build_content rt emit Packages current c)
    ++ print_events rt c "Makefile" (makefile_content rt emit Packages current c).
Proof.
  intros HP. unfold run_events. cbv zeta.
  set (F := fun p : Package => print_events rt c _ _).
  replace (flat_map F Packages) with (flat_map F ps ++ flat_map F rest)
    by (rewrite <- flat_map_app; f_equal; by symmetry).
  rewrite <- !app_assoc. cbn [app]. reflexivity.
Qed.

(** With three distinct paths for the glue file, the build script and
    the recipe, the last copy into each of them carries the final glue
    buffer, build buffer and recipe buffer, whatever the packages are
    called: a wrapper written earlier to one of these paths, such as
    the wrapper [build.py] of a package named [build], is overwritten. *)
Theorem shared_files_hold_final_buffers (rt : GoRuntime)
    (emit : option Package -> Call -> Emitted) (Packages : list Package)
    (current : symtab) (s0 : St) :
  os_MkdirAll rt (odir (g s0)) = None ->
  filepath_Join rt (odir (g s0)) (outname (g s0) +:+ ".go")
    <> filepath_Join rt (odir (g s0)) "build.py" ->
  filepath_Join rt (odir (g s0)) (outname (g s0) +:+ ".go")
    <> filepath_Join rt (odir (g s0)) "Makefile" ->
  filepath_Join rt (odir (g s0)) "build.py" <> filepath_Join rt (odir (g s0)) "Makefile" ->
  written (filepath_Join rt (odir (g s0)) (outname (g s0) +:+ ".go"))
          (os_trace (snd (gen rt emit Packages current s0)))
    = Some (glue_content rt emit Packages current (config_of (g s0)))
  /\ written (filepath_Join rt (odir (g s0)) "build.py")
             (os_trace (snd (gen rt emit Packages current s0)))
     = Some (build_content rt emit Packages current (config_of (g s0)))
  /\ written (filepath_Join rt (odir (g s0)) "Makefile")
             (os_trace (snd (gen rt emit Packages current s0)))
     = Some (makefile_content rt emit Packages current (config_of (g s0))).
Proof.
  intros Hmk Hgb Hgm Hbm.
  rewrite (gen_ok rt emit Packages current s0 Hmk). cbn [snd].
  rewrite final_state_os.
  change (odir (g s0)) with (c_odir (config_of (g s0))).
  change (outname (g s0)) with (c_outname (config_of (g s0))).
  rewrite (run_trace_split rt emit Packages [] current (config_of (g s0)) (os_trace s0)
             Packages (eq_sym (app_nil_r Packages))).
  set (A := os_trace s0 ++ _).
  unfold print_events. cbv zeta. cbn [flat_map app config_of c_odir c_outname].
  split_and!.
  - apply (written_after _ _ _ A [_]).
    repeat constructor; cbn [event_path]; congruence.
  - apply (written_after _ _ _ A [_; _; _]).
    repeat constructor; cbn [event_path]; congruence.
  - apply (written_after _ _ _ A [_; _; _; _; _]). constructor.
Qed.

Lemma shared_files_hold_final_buffers_witness :
  written "out/build.py"
          (os_trace (snd (gen rt_ok demo_emit [build_pkg] demo_symtab demo_state)))
  = Some (build_content rt_ok demo_emit [build_pkg] demo_symtab (config_of (g demo_state))).
Proof.
  refine (proj1 (proj2 (shared_files_hold_final_buffers rt_ok demo_emit [build_pkg]
                          demo_symtab demo_state eq_refl _ _ _)));
    vm_compute; discriminate.
Defined.

(** The package named [build] of the example loses its wrapper: the
    file [out/build.py] is written twice, and holds the build script. *)
Example wrapper_named_build_is_lost :
  map event_path
      (List.filter is_copy
         (os_trace (snd (gen rt_ok demo_emit [build_pkg] demo_symtab demo_state))))
  = ["out/build.py"; "out/geom.go"; "out/build.py"; "out/Makefile"]
  /\ written "out/build.py"
             (os_trace (snd (gen rt_ok demo_emit [build_pkg] demo_symtab demo_state)))
     <> Some (wrapper_content demo_emit demo_symtab (TargetSet [build_pkg])
                (config_of (g demo_state)) build_pkg).
Proof. vm_compute. split; [reflexivity|discriminate]. Qed.

Lemma wrapper_copy_is_last (rt : GoRuntime) (emit : option Package -> Call -> Emitted)
    (current : symtab) (ps rest : list Package) (q : Package) (s0 : St) :
  os_MkdirAll rt (odir (g s0)) = None ->
  List.Forall
    (fun fn => filepath_Join rt (odir (g s0)) fn
               <> filepath_Join rt (odir (g s0)) (tp_Name (p_pkg q) +:+ ".py"))
    (map (fun p => tp_Name (p_pkg p) +:+ ".py") rest
     ++ [outname (g s0) +:+ ".go"; "build.py"; "Makefile"]) ->
  written (filepath_Join rt (odir (g s0)) (tp_Name (p_pkg q) +:+ ".py"))
          (os_trace (snd (gen rt emit (ps ++ q :: rest) current s0)))
  = Some (wrapper_content emit current (TargetSet (ps ++ q :: rest)) (config_of (g s0)) q).
Proof.
  intros Hmk Hfn.
  apply List.Forall_app in Hfn as [Hrest Hshared].
  rewrite (gen_ok rt emit (ps ++ q :: rest) current s0 Hmk). cbn [snd].
  rewrite final_state_os.
  change (odir (g s0)) with (c_odir (config_of (g s0))) in *.
  change (outname (g s0)) with (c_outname (config_of (g s0))) in *.
  rewrite (run_trace_split rt emit ps (q :: rest) current (config_of (g s0)) (os_trace s0)
             (ps ++ q :: rest) eq_refl).
  set (A := os_trace s0 ++ _).
  set (c := config_of (g s0)) in *.
  cbn [flat_map]. unfold print_events at 1. cbv zeta.
  apply (written_after _ _ _ A [_]).
  apply List.Forall_app. split.
  { apply Forall_flat_map. apply List.Forall_forall. intros p Hp.
    apply print_events_elsewhere.
    rewrite List.Forall_forall in Hrest. apply Hrest.
    apply (in_map (fun p => tp_Name (p_pkg p) +:+ ".py")). exact Hp. }
  inversion Hshared as [|? ? H1 Hs1]; subst.
  inversion Hs1 as [|? ? H2 Hs2]; subst.
  inversion Hs2 as [|? ? H3 _]; subst.
  repeat (apply List.Forall_app; split); by apply print_events_elsewhere.
Qed.

(** The wrapper file of a package holds, at the end of the run, the
    wrapper buffer of that package, provided that no later package and
    none of the three shared files is written to the same path.
    Packages earlier in the list do not matter: the wrapper of an
    earlier package of the same name is overwritten. *)
Theorem last_wrapper_wins (rt : GoRuntime) (emit : option Package -> Call -> Emitted)
    (current : symtab) (ps rest : list Package) (q : Package) (s0 : St) :
  os_MkdirAll rt (odir (g s0)) = None ->
  List.Forall
    (fun fn => filepath_Join rt (odir (g s0)) fn
               <> filepath_Join rt (odir (g s0)) (tp_Name (p_pkg q) +:+ ".py"))
    (map (fun p => tp_Name (p_pkg p) +:+ ".py") rest
     ++ [outname (g s0) +:+ ".go"; "build.py"; "Makefile"]) ->
  written (filepath_Join rt (odir (g s0)) (tp_Name (p_pkg q) +:+ ".py"))
          (os_trace (snd (gen rt emit (ps ++ q :: rest) current s0)))
  = Some (wrapper_content emit current (TargetSet (ps ++ q :: rest)) (config_of (g s0)) q).
Proof.
  intros Hmk Hfn. by apply wrapper_copy_is_last.
Qed.

Lemma last_wrapper_wins_witness :
  written "out/geom.py"
          (os_trace (snd (gen rt_ok demo_emit [geom_pkg; geom_fork_pkg; units_pkg]
                            demo_symtab demo_state)))
  = Some (wrapper_content demo_emit demo_symtab
            (TargetSet [geom_pkg; geom_fork_pkg; units_pkg]) (config_of (g demo_state))
            geom_fork_pkg).
Proof.
  refine (last_wrapper_wins rt_ok demo_emit demo_symtab [geom_pkg] [units_pkg]
            geom_fork_pkg demo_state eq_refl _).
  repeat constructor; vm_compute; discriminate.
Defined.

(** ** Which pass emits a type *)

Lemma in_own_types (current : symtab) (p : Package) (y : symbol) :
  In y (own_types current p)
  <-> In y (global_syms current) /\ isType y = true
      /\ same_pointer (gopkg y) (p_pkg p) = true.
Proof.
  unfold own_types. rewrite filter_In, andb_true_iff. tauto.
Qed.

Lemma in_ext_types (current : symtab) (m : gset string) (y : symbol) :
  In y (ext_types current m)
  <-> In y (global_syms current) /\ isType y = true /\ tp_Path (gopkg y) ∉ m.
Proof.
  unfold ext_types, is_external.
  rewrite filter_In, andb_true_iff, negb_true_iff, bool_decide_eq_false. tauto.
Qed.

Lemma in_sections_genType (current : symtab) (p : Package) (y : symbol) (e w : bool) :
  In (genType_call y e w) (flat_map (section_calls current p) section_order)
  <-> e = false /\ w = false /\ In y (own_types current p).
Proof.
  split.
  - intros Hc. apply in_flat_map in Hc as (k & _ & Hc).
    destruct k; cbn [section_calls] in Hc.
    + apply in_map_iff in Hc as (z & Hz & Hin). injection Hz as -> <- <-. done.
    + apply in_map_iff in Hc as (z & Hz & _). discriminate.
    + apply in_flat_map in Hc as (v & _ & [Hz|[Hz|[]]]); discriminate.
    + apply in_map_iff in Hc as (z & Hz & _). discriminate.
    + apply in_map_iff in Hc as (z & Hz & _). discriminate.
    + apply in_flat_map in Hc as (x & _ & Hc).
      apply in_map_iff in Hc as (z & Hz & _). discriminate.
    + apply in_map_iff in Hc as (z & Hz & _). discriminate.
  - intros (-> & -> & Hin). apply in_flat_map. exists KTypes. split.
    + unfold section_order. by left.
    + cbn [section_calls]. apply in_map_iff. by exists y.
Qed.

Lemma in_pkg_calls_genType (current : symtab) (m : gset string) (p : Package)
    (y : symbol) (e w : bool) :
  In (genType_call y e w) (pkg_calls current m p)
  <-> (e = true /\ w = true /\ In y (ext_types current m))
      \/ (e = false /\ w = false /\ In y (own_types current p)).
Proof.
  unfold pkg_calls. rewrite in_app_iff, in_sections_genType.
  unfold ext_calls_wrap. rewrite in_map_iff.
  split.
  - intros [(z & Hz & Hin)|H]; [left|by right]. injection Hz as -> <- <-. done.
  - intros [(-> & -> & Hin)|H]; [left|by right]. by exists y.
Qed.

Lemma in_run_calls_genType (Packages : list Package) (current : symtab)
    (y : symbol) (e w : bool) :
  In (genType_call y e w) (run_calls Packages current)
  <-> (e = true /\ w = false /\ In y (ext_types current (TargetSet Packages)))
      \/ exists p, In p Packages
           /\ ((e = true /\ w = true /\ In y (ext_types current (TargetSet Packages)))
               \/ (e = false /\ w = false /\ In y (own_types current p))).
Proof.
  unfold run_calls. cbv zeta. rewrite in_app_iff, in_flat_map.
  unfold ext_calls_go. rewrite in_map_iff.
  split.
  - intros [(z & Hz & Hin)|(p & Hp & Hc)].
    + left. injection Hz as -> <- <-. done.
    + right. exists p. split; [done|]. by apply in_pkg_calls_genType.
  - intros [(-> & -> & Hin)|(p & Hp & Hc)].
    + left. by exists y.
    + right. exists p. split; [done|]. by apply in_pkg_calls_genType.
Qed.

(** A type symbol of the table is emitted by at most one of the two
    kinds of pass. The external passes test the path of the symbol's
    package against the target set; the Types section of a package
    tests the identity of the package object. A type whose package path
    is no target is emitted as external and in no Types section; a type
    whose package object is that of a target package is emitted in
    that package's Types section and never as external; a type whose
    package path is a target's but whose package object is the object
    of no target package is emitted by no pass at all. *)
Theorem type_emitted_by_at_most_one_pass (Packages : list Package) (current : symtab)
    (y : symbol) :
  In y (global_syms current) ->
  isType y = true ->
  (forall p, In p Packages -> same_pointer (gopkg y) (p_pkg p) = true ->
             tp_Path (gopkg y) = tp_Path (p_pkg p)) ->
  (tp_Path (gopkg y) ∉ TargetSet Packages ->
     In (genType_call y true false) (run_calls Packages current)
     /\ ~ In (genType_call y false false) (run_calls Packages current))
  /\ ((exists p, In p Packages /\ same_pointer (gopkg y) (p_pkg p) = true) ->
      In (genType_call y false false) (run_calls Packages current)
      /\ forall w, ~ In (genType_call y true w) (run_calls Packages current))
  /\ (tp_Path (gopkg y) ∈ TargetSet Packages ->
      (forall p, In p Packages -> same_pointer (gopkg y) (p_pkg p) = false) ->
      forall e w, ~ In (genType_call y e w) (run_calls Packages current))
  /\ ~ In (genType_call y false true) (run_calls Packages current).
Proof.
  intros Hin Hty Hptr.
  assert (Htarget : forall p, In p Packages -> same_pointer (gopkg y) (p_pkg p) = true ->
                              tp_Path (gopkg y) ∈ TargetSet Packages).
  { intros p Hp Hsame. apply elem_of_TargetSet. exists p. split; [done|].
    symmetry. by apply Hptr. }
  split_and!.
  - intros Hout. split.
    + apply in_run_calls_genType. left. split_and!; try done.
      apply in_ext_types. done.
    + intros Hc. apply in_run_calls_genType in Hc as [(He & _)|(p & Hp & [(He & _)|(_ & _ & Ho)])];
        try discriminate.
      apply in_own_types in Ho as (_ & _ & Hsame). apply Hout. by apply (Htarget p).
  - intros (p & Hp & Hsame). split.
    + apply in_run_calls_genType. right. exists p. split; [done|]. right.
      split_and!; try done. apply in_own_types. done.
    + intros w Hc.
      apply in_run_calls_genType in Hc as [(_ & _ & He)|(p' & Hp' & [(_ & _ & He)|(Hf & _)])];
        try discriminate.
      all: apply in_ext_types in He as (_ & _ & Hout); apply Hout; by apply (Htarget p).
  - intros Hm Hno e w Hc.
    apply in_run_calls_genType in Hc as [(_ & _ & He)|(p & Hp & [(_ & _ & He)|(_ & _ & Ho)])].
    + apply in_ext_types in He as (_ & _ & Hout). by apply Hout.
    + apply in_ext_types in He as (_ & _ & Hout). by apply Hout.
    + apply in_own_types in Ho as (_ & _ & Hsame). rewrite (Hno p Hp) in Hsame. discriminate.
  - intros Hc.
    apply in_run_calls_genType in Hc as [(He & _)|(p & Hp & [(He & _)|(_ & Hw & _)])];
      discriminate.
Qed.

Lemma type_emitted_by_at_most_one_pass_witness :
  In sym_Point (global_syms reloaded_symtab)
  /\ In (genType_call sym_Point false false)
        (run_calls [geom_pkg; units_pkg] reloaded_symtab).
Proof.
  split; [vm_compute; tauto|].
  refine (proj1 (proj1 (proj2
            (type_emitted_by_at_most_one_pass [geom_pkg; units_pkg] reloaded_symtab sym_Point
               _ eq_refl _)) _)).
  - vm_compute. tauto.
  - intros p [<-|[<-|[]]]; vm_compute; intros H; [reflexivity|discriminate H].
  - exists geom_pkg. split; [by left|reflexivity].
Defined.

(** The type [geom.Vec] of the example, whose package object is a
    second load of the target package [geom], is emitted nowhere. *)
Example reloaded_type_is_dropped :
  In sym_Vec (global_syms reloaded_symtab)
  /\ List.filter (fun c => match c with
                           | genType_call y _ _ => String.eqb (sym_id y) "geom.Vec"
                           | _ => false
                           end)
                 (run_calls [geom_pkg; units_pkg] reloaded_symtab) = []
  /\ map call_label (List.filter (fun c => Nat.eqb (call_rank c) 0)
                       (run_calls [geom_pkg; units_pkg] reloaded_symtab))
     = ["type time.Duration"; "type time.Duration"; "type geom.Point"; "type time.Duration"].
Proof. vm_compute. split_and!; [tauto|reflexivity|reflexivity]. Qed.

(** ** The order of the target packages *)

(** Listing the same target packages in another order changes neither
    the target set nor the external passes, leaves the wrapper of every
    package and the recipe as they are, and only reorders the emitter
    calls of the run. *)
Theorem package_order_only_reorders (rt : GoRuntime)
    (emit : option Package -> Call -> Emitted) (current : symtab)
    (ps ps' : list Package) (c : Config) :
  ps ≡ₚ ps' ->
  TargetSet ps = TargetSet ps'
  /\ ext_calls_go current (TargetSet ps) = ext_calls_go current (TargetSet ps')
  /\ (forall p, pkg_calls current (TargetSet ps) p = pkg_calls current (TargetSet ps') p)
  /\ (forall p, wrapper_content emit current (TargetSet ps) c p
                = wrapper_content emit current (TargetSet ps') c p)
  /\ makefile_content rt emit ps current c = makefile_content rt emit ps' current c
  /\ run_calls ps current ≡ₚ run_calls ps' current
  /\ map (fun p => filepath_Join rt (c_odir c) (tp_Name (p_pkg p) +:+ ".py")) ps
     ≡ₚ map (fun p => filepath_Join rt (c_odir c) (tp_Name (p_pkg p) +:+ ".py")) ps'.
Proof.
  intros Hperm.
  assert (Hset : TargetSet ps = TargetSet ps').
  { unfold TargetSet. apply list_to_set_perm_L. by apply Permutation_map. }
  split_and!.
  - exact Hset.
  - by rewrite Hset.
  - intros p. by rewrite Hset.
  - intros p. by rewrite Hset.
  - by rewrite !makefile_content_eq.
  - unfold run_calls. cbv zeta. rewrite Hset.
    apply Permutation_app_head. by apply Permutation_flat_map.
  - by apply Permutation_map.
Qed.

Lemma package_order_only_reorders_witness :
  run_calls [geom_pkg; units_pkg] demo_symtab ≡ₚ run_calls [units_pkg; geom_pkg] demo_symtab.
Proof.
  exact (proj1 (proj2 (proj2 (proj2 (proj2 (proj2
           (package_order_only_reorders rt_ok demo_emit demo_symtab
              [geom_pkg; units_pkg] [units_pkg; geom_pkg] (config_of (g demo_state))
              (perm_swap _ _ [])))))))).
Defined.

(** ** The head of a wrapper file *)

(** The text that [genPkg] copies to the wrapper file starts with the
    package documentation, so that Python reads it as the module's
    docstring: the documentation as it is, without any escaping, between
    two lines of three double quotes. For a package without
    documentation the text starts with an empty line. The next line
    names the package path and the output name. *)
Theorem wrapper_starts_with_docstring (rt : GoRuntime)
    (emit : option Package -> Call -> Emitted) (current : symtab)
    (p : Package) (s : St) :
  (exists rest : string,
     os_trace (genPkg rt emit current p s)
     = os_trace s
       ++ print_events rt (config_of (g s)) (tp_Name (p_pkg p) +:+ ".py")
            (pkgDoc_of p +:+ nl
             +:+ "# python wrapper for package " +:+ tp_Path (p_pkg p)
             +:+ " within overall package " +:+ outname (g s) +:+ nl +:+ rest))
  /\ (p_doc p = "" -> pkgDoc_of p = "")
  /\ (p_doc p <> "" ->
      pkgDoc_of p = dq +:+ dq +:+ dq +:+ nl +:+ p_doc p +:+ nl +:+ dq +:+ dq +:+ dq).
Proof.
  split_and!.
  - rewrite genPkg_run.
    cbn [close_pkg upd_g os_trace extend]. rewrite pkg_delta_os.
    assert (exists rest : string,
              wrapper_content emit current (pkgmap (g s)) (config_of (g s)) p
              = pkgDoc_of p +:+ nl
                +:+ "# python wrapper for package " +:+ tp_Path (p_pkg p)
                +:+ " within overall package " +:+ outname (g s) +:+ nl +:+ rest)
      as [rest Hrest].
    { unfold wrapper_content, wrap_preamble_text, PyWrapPreamble.
      cbn [config_of c_outname c_cmdstr].
      unfold unlines at 1. cbn [foldr].
      rewrite !string_app_assoc.
      eexists. reflexivity. }
    exists rest. by rewrite Hrest.
  - intros Hdoc. unfold pkgDoc_of. cbv zeta. rewrite Hdoc. reflexivity.
  - intros Hdoc. unfold pkgDoc_of. cbv zeta. by rewrite bool_decide_eq_true_2.
Qed.

(** ** The wrapper file of a package *)

Lemma paths_after_distinct (J : string -> string) (before after : list string)
    (n : string) :
  List.NoDup (map J (before ++ n :: after)) ->
  List.Forall (fun fn => J fn <> J n) after.
Proof.
  rewrite List.map_app. cbn [map]. intros Hnd.
  apply List.Forall_forall. intros fn Hin Heq.
  apply (NoDup_remove_2 _ _ _ Hnd). apply in_or_app. right.
  rewrite <- Heq. by apply in_map.
Qed.

(** C10, as amended: [genPkg] allocates a fresh wrapper buffer, and
    what it copies to the file named after the package is the preamble
    of that package, the external types and the sections of the package
    in the fixed order, whatever the wrapper buffer held before; the
    copy empties the buffer when it returns no error, and the current
    package is nil afterwards. In a run the wrappers are copied one per
    package, in the order of [Packages]. When the names of all the
    files of the run are joined to distinct paths, the last copy into
    the wrapper file of every package carries the text of that package
    and nothing else. *)
Theorem wrapper_output_isolated (rt : GoRuntime)
    (emit : option Package -> Call -> Emitted) (Packages : list Package)
    (current : symtab) (p : Package) (s s0 : St) (w : printer) :
  os_MkdirAll rt (odir (g s0)) = None ->
  pkg (g (genPkg rt emit current p s)) = None
  /\ os_trace (genPkg rt emit current p s)
     = os_trace s
       ++ print_events rt (config_of (g s)) (tp_Name (p_pkg p) +:+ ".py")
            (wrapper_content emit current (pkgmap (g s)) (config_of (g s)) p)
  /\ genPkg rt emit current p (upd_g (set_pywrap w) s) = genPkg rt emit current p s
  /\ wrapper_content emit current (pkgmap (g s)) (config_of (g s)) p
     = wrap_preamble_text (pkgmap (g s)) (config_of (g s)) p
       +:+ ext_wrap_header
       +:+ wrap_text emit (Some p) (ext_calls_wrap current (pkgmap (g s)))
       +:+ concat_strings
             (map (fun k => wrap_header k
                            +:+ wrap_text emit (Some p) (section_calls current p k))
                  section_order)
       +:+ nl +:+ nl
  /\ buf (pywrap (g (genPkg rt emit current p s)))
     = unread rt (filepath_Join rt (odir (g s)) (tp_Name (p_pkg p) +:+ ".py"))
              (wrapper_content emit current (pkgmap (g s)) (config_of (g s)) p)
  /\ (io_Copy rt (filepath_Join rt (odir (g s)) (tp_Name (p_pkg p) +:+ ".py"))
              (wrapper_content emit current (pkgmap (g s)) (config_of (g s)) p) = None ->
      buf (pywrap (g (genPkg rt emit current p s))) = "")
  /\ os_trace (snd (gen rt emit Packages current s0))
     = os_trace s0
       ++ EvMkdirAll (odir (g s0)) None
          :: EvCreate (init_path rt (config_of (g s0)))
                      (os_Create rt (init_path rt (config_of (g s0))))
          :: flat_map (fun q => print_events rt (config_of (g s0))
                                  (tp_Name (p_pkg q) +:+ ".py")
                                  (wrapper_content emit current (TargetSet Packages)
                                     (config_of (g s0)) q))
                      Packages
          ++ print_events rt (config_of (g s0)) (outname (g s0) +:+ ".go")
               (glue_content rt emit Packages current (config_of (g s0)))
          ++ print_events rt (config_of (g s0)) "build.py"
               (build_content rt emit Packages current (config_of (g s0)))
          ++ print_events rt (config_of (g s0)) "Makefile"
               (makefile_content rt emit Packages current (config_of (g s0)))
  /\ pkg (g (snd (gen rt emit Packages current s0))) = None
  /\ (List.NoDup (map (filepath_Join rt (odir (g s0)))
                      (output_files (outname (g s0)) Packages)) ->
      forall q, In q Packages ->
        written (filepath_Join rt (odir (g s0)) (tp_Name (p_pkg q) +:+ ".py"))
                (os_trace (snd (gen rt emit Packages current s0)))
        = Some (wrapper_content emit current (TargetSet Packages) (config_of (g s0)) q)).
Proof.
  intros Hmk.
  assert (Hleft : buf (pywrap (g (genPkg rt emit current p s)))
                  = unread rt (filepath_Join rt (odir (g s)) (tp_Name (p_pkg p) +:+ ".py"))
                      (wrapper_content emit current (pkgmap (g s)) (config_of (g s)) p)).
  { rewrite genPkg_run. reflexivity. }
  split_and!.
  - rewrite genPkg_run. reflexivity.
  - rewrite genPkg_run. cbn [close_pkg upd_g os_trace extend]. by rewrite pkg_delta_os.
  - rewrite !genPkg_run.
    change (pkgmap (g (upd_g (set_pywrap w) s))) with (pkgmap (g s)).
    change (config_of (g (upd_g (set_pywrap w) s))) with (config_of (g s)).
    apply close_pkg_fresh, pkg_delta_wrap.
  - reflexivity.
  - exact Hleft.
  - intros Hcopy. rewrite Hleft. unfold unread. by rewrite Hcopy.
  - rewrite (gen_ok rt emit Packages current s0 Hmk). cbn [snd].
    rewrite final_state_os. reflexivity.
  - rewrite (gen_ok rt emit Packages current s0 Hmk). cbn [snd].
    apply final_state_pkg.
  - intros Hnd q Hq.
    destruct (in_split q Packages Hq) as (ps & rest & ->).
    apply wrapper_copy_is_last; [exact Hmk|].
    apply (paths_after_distinct (filepath_Join rt (odir (g s0)))
             ("__init__.py" :: map (fun p => tp_Name (p_pkg p) +:+ ".py") ps)).
    unfold output_files in Hnd.
    rewrite List.map_app in Hnd. cbn [map] in Hnd.
    rewrite <- app_assoc in Hnd. exact Hnd.
Qed.

Lemma wrapper_output_isolated_witness :
  os_MkdirAll rt_ok (odir (g demo_state)) = None
  /\ pkg (g (genPkg rt_ok demo_emit demo_symtab units_pkg
               (genPkg rt_ok demo_emit demo_symtab geom_pkg demo_state))) = None.
Proof.
  split; [reflexivity|].
  exact (proj1 (wrapper_output_isolated rt_ok demo_emit [geom_pkg; units_pkg] demo_symtab
                  units_pkg (genPkg rt_ok demo_emit demo_symtab geom_pkg demo_state)
                  demo_state nil_printer eq_refl)).
Defined.

(** C10, as it is stated, fails for some sequences of packages. The
    wrapper file of a package named [build] is the file of the build
    script: at the end of the run it holds the build script, with what
    was emitted for the package processed before, and not the wrapper.
    Of two packages named [geom] the wrapper file holds the text of the
    second and nothing of the first. *)
Lemma wrapper_file_holds_other_content :
  text_contains
    (written "out/build.py"
       (os_trace (snd (gen rt_ok build_emit [geom_pkg; build_pkg] demo_symtab demo_state))))
    "mod.add const Pi" = true
  /\ text_contains
       (written "out/build.py"
          (os_trace (snd (gen rt_ok build_emit [geom_pkg; build_pkg] demo_symtab
                            demo_state))))
       "class GoClass" = false
  /\ text_contains
       (Some (wrapper_content build_emit demo_symtab (TargetSet [geom_pkg; build_pkg])
                (config_of (g demo_state)) build_pkg))
       "class GoClass" = true
  /\ text_contains
       (written "out/geom.py"
          (os_trace (snd (gen rt_ok demo_emit [geom_pkg; geom_fork_pkg] demo_symtab
                            demo_state))))
       "Perimeter" = true
  /\ text_contains
       (written "out/geom.py"
          (os_trace (snd (gen rt_ok demo_emit [geom_pkg; geom_fork_pkg] demo_symtab
                            demo_state))))
       "Origin" = false
  /\ text_contains
       (Some (wrapper_content demo_emit demo_symtab (TargetSet [geom_pkg; geom_fork_pkg])
                (config_of (g demo_state)) geom_pkg))
       "Origin" = true.
Proof. vm_compute. by split_and!. Qed.
